(** * Built-in listener matchers of slack_bolt

    A shallow embedding of [slack_bolt/listener_matcher/builtins.py]:
    the pattern-match primitive [_matches], the matcher builders
    ([event], [command], [shortcut], [action], [view], [options] and
    their refined forms) and the adapter [BuiltinListenerMatcher].

    Python objects are values of the type [value]; an exception raised
    by the source is the [Raise] outcome of the [result] type. *)

From stdpp Require Import base option list gmap strings.
From Stdlib Require Import Ascii String ZArith Bool.

#[global] Set Warnings "-register-all".
Local Open Scope string_scope.

(* ===================================================================== *)
(** ** Regular expressions: the part of [re.Pattern] the matchers use *)
(* ===================================================================== *)

Module Re.

(** A compiled pattern.  [builtins.py] only ever calls
    [pattern.search(input)] and tests the outcome against [None]. *)
Inductive regex : Type :=
| Empty                       (* matches nothing *)
| Eps                         (* matches the empty string *)
| Chr (a : ascii)             (* one given character *)
| Any                         (* [.] *)
| Cat (r1 r2 : regex)
| Alt (r1 r2 : regex)
| Star (r : regex).

(** The strings a pattern denotes. *)
Inductive lang : regex -> string -> Prop :=
| L_eps : lang Eps ""
| L_chr a : lang (Chr a) (String a "")
| L_any a : lang Any (String a "")
| L_cat r1 r2 s1 s2 : lang r1 s1 -> lang r2 s2 -> lang (Cat r1 r2) (s1 +:+ s2)
| L_alt_l r1 r2 s : lang r1 s -> lang (Alt r1 r2) s
| L_alt_r r1 r2 s : lang r2 s -> lang (Alt r1 r2) s
| L_star_nil r : lang (Star r) ""
| L_star_cons r a s1 s2 :
    lang r (String a s1) -> lang (Star r) s2 -> lang (Star r) (String a s1 +:+ s2).

Fixpoint nullable (r : regex) : bool :=
  match r with
  | Empty | Chr _ | Any => false
  | Eps | Star _ => true
  | Cat r1 r2 => nullable r1 && nullable r2
  | Alt r1 r2 => nullable r1 || nullable r2
  end.

(** Brzozowski derivative: what is left of [r] after reading [a]. *)
Fixpoint deriv (a : ascii) (r : regex) : regex :=
  match r with
  | Empty | Eps => Empty
  | Chr b => if Ascii.eqb a b then Eps else Empty
  | Any => Eps
  | Cat r1 r2 =>
      if nullable r1
      then Alt (Cat (deriv a r1) r2) (deriv a r2)
      else Cat (deriv a r1) r2
  | Alt r1 r2 => Alt (deriv a r1) (deriv a r2)
  | Star r1 => Cat (deriv a r1) (Star r1)
  end.

(** [pattern.fullmatch(s) is not None]: the whole of [s] is in the language. *)
Fixpoint fullmatch (r : regex) (s : string) : bool :=
  match s with
  | EmptyString => nullable r
  | String a s' => fullmatch (deriv a r) s'
  end.

(** [pattern.match(s) is not None]: a prefix of [s] is in the language. *)
Fixpoint match_here (r : regex) (s : string) : bool :=
  nullable r ||
  match s with
  | EmptyString => false
  | String a s' => match_here (deriv a r) s'
  end.

(** [pattern.search(s)]: scan the start positions from the left; the
    result is the start of the leftmost match, [None] when there is none. *)
Fixpoint search_from (i : nat) (r : regex) (s : string) : option nat :=
  if match_here r s then Some i
  else match s with
       | EmptyString => None
       | String _ s' => search_from (S i) r s'
       end.

Definition search (r : regex) (s : string) : option nat := search_from 0 r s.

(** The literal pattern for a string, as [re.compile(re.escape(s))]. *)
Fixpoint lit (s : string) : regex :=
  match s with
  | EmptyString => Eps
  | String a s' => Cat (Chr a) (lit s')
  end.

End Re.

(* ===================================================================== *)
(** ** Python values, exceptions and outcomes *)
(* ===================================================================== *)

(** A decoded payload is JSON-like: mappings with string keys, lists,
    strings, booleans, numbers and [None]; a constraint may moreover be a
    compiled pattern. *)
Inductive value : Type :=
| VNone
| VBool (b : bool)
| VInt (n : Z)
| VStr (s : string)
| VPattern (p : Re.regex)
| VList (xs : list value)
| VDict (d : gmap string value).

(** The three messages [builtins.py] formats; the interpolated objects are
    kept as values instead of being rendered by [str()]. *)
Inductive bolt_message : Type :=
| MustBeStrPatternOrDict (category : string) (constraints : value)
    (* f"{category} ({constraints}: {type(constraints)}) must be any of str, Pattern, and dict" *)
| TypeIsUnsupported (action_type : value)
    (* f"type: {action_type} is unsupported" *)
| MustBeStrOrPattern (str_or_pattern : value).
    (* f"{str_or_pattern} ({type(str_or_pattern)}) must be either str or Pattern" *)

Inductive exn : Type :=
| BoltError (msg : bolt_message)
| KeyError (key : string)
| TypeError
| AttributeError
| IndexError.

Inductive result (A : Type) : Type :=
| Ok (a : A)
| Raise (e : exn).
Arguments Ok {A} a.
Arguments Raise {A} e.

Definition bind {A B : Type} (m : result A) (k : A -> result B) : result B :=
  match m with
  | Ok a => k a
  | Raise e => Raise e
  end.

Notation "x <- m ;; k" := (bind m (fun x => k))
  (at level 100, m at next level, right associativity).

(* ===================================================================== *)
(** ** The Python operations the source applies to its objects *)
(* ===================================================================== *)

(** [v == s] for a string [s]: only an equal string compares equal. *)
Definition py_eq_str (v : value) (s : string) : bool :=
  match v with
  | VStr t => String.eqb t s
  | _ => false
  end.

(** [needle in haystack] on strings is the substring test. *)
Fixpoint is_substring (needle haystack : string) : bool :=
  String.prefix needle haystack ||
  match haystack with
  | EmptyString => false
  | String _ rest => is_substring needle rest
  end.

(** [key in v]. *)
Definition py_in (key : string) (v : value) : result bool :=
  match v with
  | VDict d => Ok (bool_decide (is_Some (d !! key)))
  | VList xs => Ok (existsb (fun x => py_eq_str x key) xs)
  | VStr s => Ok (is_substring key s)
  | VNone | VBool _ | VInt _ | VPattern _ => Raise TypeError
  end.

(** [v[key]] for a string key. *)
Definition py_getitem (v : value) (key : string) : result value :=
  match v with
  | VDict d =>
      match d !! key with
      | Some x => Ok x
      | None => Raise (KeyError key)
      end
  | _ => Raise TypeError
  end.

(** [v.get(key)]: only mappings have the method. *)
Definition py_get (v : value) (key : string) : result value :=
  match v with
  | VDict d => Ok (default VNone (d !! key))
  | _ => Raise AttributeError
  end.

(** [isinstance(v, (str, Pattern))]. *)
Definition is_str_or_pattern (v : value) : bool :=
  match v with
  | VStr _ | VPattern _ => true
  | _ => false
  end.

(** [isinstance(v, dict)]. *)
Definition is_dict (v : value) : bool :=
  match v with
  | VDict _ => true
  | _ => false
  end.

(** [v is None]. *)
Definition is_none (v : value) : bool :=
  match v with
  | VNone => true
  | _ => false
  end.

(** Truth value of an object, as [and], [or] and [if] test it. *)
Definition truthy (v : value) : bool :=
  match v with
  | VNone => false
  | VBool b => b
  | VInt n => negb (Z.eqb n 0)
  | VStr s => negb (String.eqb s "")
  | VPattern _ => true
  | VList xs => match xs with [] => false | _ => true end
  | VDict d => negb (bool_decide (d = ∅))
  end.

(* ===================================================================== *)
(** ** [_matches] *)
(* ===================================================================== *)

Definition _matches (str_or_pattern : value) (input : value) : result bool :=
  if is_none str_or_pattern || is_none input then Ok false
  else
    match str_or_pattern with
    | VStr exact_match_str => Ok (py_eq_str input exact_match_str)
    | VPattern pattern =>
        match input with
        | VStr s => Ok (bool_decide (is_Some (Re.search pattern s)))
        | _ => Raise TypeError   (* expected string or bytes-like object *)
        end
    | _ => Raise (BoltError (MustBeStrOrPattern str_or_pattern))
    end.

(** A Python [bool] as an object, and the short-circuit connectives:
    [a and b] is [a] when [a] is false, [a or b] is [a] when [a] is true. *)
Definition pybool (r : result bool) : result value :=
  b <- r ;; Ok (VBool b).

Definition py_and (a b : result value) : result value :=
  x <- a ;; if truthy x then b else Ok x.

Definition py_or (a b : result value) : result value :=
  x <- a ;; if truthy x then Ok x else b.

(* ===================================================================== *)
(** ** The payload classifiers the builders import *)
(* ===================================================================== *)

(** [slack_bolt.request.payload_utils] is imported by [builtins.py] and is
    not among the sources, so the builders take its functions as a
    parameter.  Each classifier is a total boolean function of the body;
    [to_action] extracts the action entry and may raise. *)
Record payload_utils : Type := PayloadUtils {
  is_block_actions : value -> bool;
  is_global_shortcut : value -> bool;
  is_message_shortcut : value -> bool;
  is_attachment_action : value -> bool;
  is_dialog_submission : value -> bool;
  is_dialog_cancellation : value -> bool;
  is_workflow_step_edit : value -> bool;
  is_slash_command : value -> bool;
  is_event : value -> bool;
  is_view_submission : value -> bool;
  is_view_closed : value -> bool;
  is_block_suggestion : value -> bool;
  is_dialog_suggestion : value -> bool;
  is_shortcut : value -> bool;
  to_action : value -> result value;
  is_workflow_step_save : value -> bool;
}.

(* ===================================================================== *)
(** ** The matcher adapter *)
(* ===================================================================== *)

(** What calling an [async def] function gives: a suspended computation
    that runs when it is awaited. *)
Inductive awaitable (A : Type) : Type :=
| Suspended (resume : unit -> result A).
Arguments Suspended {A} resume.

Definition await {A : Type} (c : awaitable A) : result A :=
  match c with
  | Suspended resume => resume tt
  end.

(** The request and response wrappers; the matchers only read the decoded
    payload of the request. *)
Record BoltRequest : Type := { body : value }.
Record BoltResponse : Type := { status : Z; response_body : string }.

(** Every predicate this module builds is declared [def func(body)], so
    [arg_names] is [["body"]] and the keyword arguments resolved for a
    call are [body=req.body]. *)
Inductive listener_matcher : Type :=
| BuiltinListenerMatcher (func : value -> result value)
| AsyncBuiltinListenerMatcher (func : value -> awaitable value).

(** [BuiltinListenerMatcher.matches]. *)
Definition matches (func : value -> result value)
    (req : BoltRequest) (resp : BoltResponse) : result value :=
  func (body req).

(** Modelled from the spec: [AsyncBuiltinListenerMatcher]
    ([listener_matcher/async_builtins.py]) is not among the sources.  By
    section 4.4 its resolution contract is that of the synchronous adapter,
    and it runs the predicate as a suspendable unit of work that is awaited
    to completion. *)
Definition async_matches (func : value -> awaitable value)
    (req : BoltRequest) (resp : BoltResponse) : awaitable value :=
  Suspended (fun _ => await (func (body req))).

(** What the dispatcher reads from a matcher of either form. *)
Definition run_matcher (m : listener_matcher)
    (req : BoltRequest) (resp : BoltResponse) : result value :=
  match m with
  | BuiltinListenerMatcher func => matches func req resp
  | AsyncBuiltinListenerMatcher func => await (async_matches func req resp)
  end.

Definition build_listener_matcher (func : value -> result value)
    (asyncio : bool) : listener_matcher :=
  if asyncio then
    let async_fun := fun body => Suspended (fun _ => func body) in
    AsyncBuiltinListenerMatcher async_fun
  else
    BuiltinListenerMatcher func.

(* ===================================================================== *)
(** ** The matcher builders *)
(* ===================================================================== *)

Section Builders.

Variable pu : payload_utils.

(** *** events *)

Definition event (constraints : value) (asyncio : bool)
    : result listener_matcher :=
  if is_str_or_pattern constraints then
    let event_type := constraints in
    let func (body : value) : result value :=
      py_and (Ok (VBool (is_event pu body)))
             (ev <- py_getitem body "event" ;;
              ty <- py_getitem ev "type" ;;
              pybool (_matches event_type ty)) in
    Ok (build_listener_matcher func asyncio)
  else
    has_type <- py_in "type" constraints ;;
    if has_type then
      let func (body : value) : result value :=
        if is_event pu body then
          event <- py_getitem body "event" ;;
          expected_type <- py_getitem constraints "type" ;;
          ty <- py_getitem event "type" ;;
          type_matched <- _matches expected_type ty ;;
          if negb type_matched then Ok (VBool false)
          else
            has_subtype <- py_in "subtype" constraints ;;
            if has_subtype then
              expected_subtype <- py_getitem constraints "subtype" ;;
              if is_none expected_subtype then
                carried <- py_in "subtype" event ;;
                Ok (VBool (negb carried))
              else
                py_and (pybool (py_in "subtype" event))
                       (subtype <- py_getitem event "subtype" ;;
                        pybool (_matches expected_subtype subtype))
            else Ok (VBool true)
        else Ok (VBool false) in
      Ok (build_listener_matcher func asyncio)
    else
      Raise (BoltError (MustBeStrPatternOrDict "event" constraints)).

Definition workflow_step_execute (callback_id : value) (asyncio : bool)
    : listener_matcher :=
  let func (body : value) : result value :=
    py_and (Ok (VBool (is_event pu body)))
      (py_and (ev <- py_getitem body "event" ;;
               ty <- py_getitem ev "type" ;;
               pybool (_matches (VStr "workflow_step_execute") ty))
         (py_and (ev <- py_getitem body "event" ;;
                  pybool (py_in "workflow_step" ev))
                 (ev <- py_getitem body "event" ;;
                  cb <- py_getitem ev "callback_id" ;;
                  pybool (_matches callback_id cb)))) in
  build_listener_matcher func asyncio.

(** *** slash commands *)

Definition command (command : value) (asyncio : bool) : listener_matcher :=
  let func (body : value) : result value :=
    py_and (Ok (VBool (is_slash_command pu body)))
           (cmd <- py_getitem body "command" ;;
            pybool (_matches command cmd)) in
  build_listener_matcher func asyncio.

(** *** shortcuts *)

Definition global_shortcut (callback_id : value) (asyncio : bool)
    : listener_matcher :=
  let func (body : value) : result value :=
    py_and (Ok (VBool (is_global_shortcut pu body)))
           (cb <- py_getitem body "callback_id" ;;
            pybool (_matches callback_id cb)) in
  build_listener_matcher func asyncio.

Definition message_shortcut (callback_id : value) (asyncio : bool)
    : listener_matcher :=
  let func (body : value) : result value :=
    py_and (Ok (VBool (is_message_shortcut pu body)))
           (cb <- py_getitem body "callback_id" ;;
            pybool (_matches callback_id cb)) in
  build_listener_matcher func asyncio.

Definition shortcut (constraints : value) (asyncio : bool)
    : result listener_matcher :=
  if is_str_or_pattern constraints then
    let callback_id := constraints in
    let func (body : value) : result value :=
      py_and (Ok (VBool (is_shortcut pu body)))
             (cb <- py_getitem body "callback_id" ;;
              pybool (_matches callback_id cb)) in
    Ok (build_listener_matcher func asyncio)
  else
    has_type <- py_in "type" constraints ;;
    has_both <- (if has_type then py_in "callback_id" constraints
                 else Ok false) ;;
    if has_both then
      ty <- py_getitem constraints "type" ;;
      if py_eq_str ty "shortcut" then
        cb <- py_getitem constraints "callback_id" ;;
        Ok (global_shortcut cb asyncio)
      else
        ty' <- py_getitem constraints "type" ;;
        if py_eq_str ty' "message_action" then
          cb <- py_getitem constraints "callback_id" ;;
          Ok (message_shortcut cb asyncio)
        else
          Raise (BoltError (MustBeStrPatternOrDict "shortcut" constraints))
    else
      Raise (BoltError (MustBeStrPatternOrDict "shortcut" constraints)).

(** *** action *)

Definition _block_action (constraints body : value) : result value :=
  if negb (is_block_actions pu body) then Ok (VBool false)
  else
    action <- to_action pu body ;;
    if is_str_or_pattern constraints then
      let action_id := constraints in
      aid <- py_getitem action "action_id" ;;
      pybool (_matches action_id aid)
    else if is_dict constraints then
      (* block_id matching is optional *)
      block_id <- py_get constraints "block_id" ;;
      block_id_matched <-
        (if is_none block_id then Ok true
         else bid <- py_get action "block_id" ;; _matches block_id bid) ;;
      expected_action_id <- py_getitem constraints "action_id" ;;
      aid <- py_getitem action "action_id" ;;
      action_id_matched <- _matches expected_action_id aid ;;
      Ok (VBool (block_id_matched && action_id_matched))
    else
      (* neither branch is taken: the function ends without a return *)
      Ok VNone.

Definition block_action (constraints : value) (asyncio : bool)
    : listener_matcher :=
  build_listener_matcher (fun body => _block_action constraints body) asyncio.

Definition _attachment_action (callback_id body : value) : result value :=
  py_and (Ok (VBool (is_attachment_action pu body)))
         (cb <- py_getitem body "callback_id" ;;
          pybool (_matches callback_id cb)).

Definition attachment_action (callback_id : value) (asyncio : bool)
    : listener_matcher :=
  build_listener_matcher (fun body => _attachment_action callback_id body) asyncio.

Definition _dialog_submission (callback_id body : value) : result value :=
  py_and (Ok (VBool (is_dialog_submission pu body)))
         (cb <- py_getitem body "callback_id" ;;
          pybool (_matches callback_id cb)).

Definition dialog_submission (callback_id : value) (asyncio : bool)
    : listener_matcher :=
  build_listener_matcher (fun body => _dialog_submission callback_id body) asyncio.

Definition _dialog_cancellation (callback_id body : value) : result value :=
  py_and (Ok (VBool (is_dialog_cancellation pu body)))
         (cb <- py_getitem body "callback_id" ;;
          pybool (_matches callback_id cb)).

Definition dialog_cancellation (callback_id : value) (asyncio : bool)
    : listener_matcher :=
  build_listener_matcher (fun body => _dialog_cancellation callback_id body) asyncio.

Definition _workflow_step_edit (callback_id body : value) : result value :=
  py_and (Ok (VBool (is_workflow_step_edit pu body)))
         (cb <- py_getitem body "callback_id" ;;
          pybool (_matches callback_id cb)).

Definition workflow_step_edit (callback_id : value) (asyncio : bool)
    : listener_matcher :=
  build_listener_matcher (fun body => _workflow_step_edit callback_id body) asyncio.

Definition action (constraints : value) (asyncio : bool)
    : result listener_matcher :=
  if is_str_or_pattern constraints then
    let func (body : value) : result value :=
      py_or (_block_action constraints body)
        (py_or (_attachment_action constraints body)
           (py_or (_dialog_submission constraints body)
              (py_or (_dialog_cancellation constraints body)
                     (_workflow_step_edit constraints body)))) in
    Ok (build_listener_matcher func asyncio)
  else
    has_type <- py_in "type" constraints ;;
    if has_type then
      action_type <- py_getitem constraints "type" ;;
      if py_eq_str action_type "block_actions" then
        Ok (block_action constraints asyncio)
      else if py_eq_str action_type "interactive_message" then
        cb <- py_getitem constraints "callback_id" ;;
        Ok (attachment_action cb asyncio)
      else if py_eq_str action_type "dialog_submission" then
        cb <- py_getitem constraints "callback_id" ;;
        Ok (dialog_submission cb asyncio)
      else if py_eq_str action_type "dialog_cancellation" then
        cb <- py_getitem constraints "callback_id" ;;
        Ok (dialog_cancellation cb asyncio)
      else if py_eq_str action_type "workflow_step_edit" then
        cb <- py_getitem constraints "callback_id" ;;
        Ok (workflow_step_edit cb asyncio)
      else
        Raise (BoltError (TypeIsUnsupported action_type))
    else
      has_action_id <- py_in "action_id" constraints ;;
      if has_action_id then
        (* The default value is "block_actions" *)
        Ok (block_action constraints asyncio)
      else
        Raise (BoltError (MustBeStrPatternOrDict "action" constraints)).

(** *** view *)

Definition view_submission (callback_id : value) (asyncio : bool)
    : listener_matcher :=
  let func (body : value) : result value :=
    py_and (Ok (VBool (is_view_submission pu body)))
           (v <- py_getitem body "view" ;;
            cb <- py_getitem v "callback_id" ;;
            pybool (_matches callback_id cb)) in
  build_listener_matcher func asyncio.

Definition view_closed (callback_id : value) (asyncio : bool)
    : listener_matcher :=
  let func (body : value) : result value :=
    py_and (Ok (VBool (is_view_closed pu body)))
           (v <- py_getitem body "view" ;;
            cb <- py_getitem v "callback_id" ;;
            pybool (_matches callback_id cb)) in
  build_listener_matcher func asyncio.

Definition workflow_step_save (callback_id : value) (asyncio : bool)
    : listener_matcher :=
  let func (body : value) : result value :=
    py_and (Ok (VBool (is_workflow_step_save pu body)))
           (v <- py_getitem body "view" ;;
            cb <- py_getitem v "callback_id" ;;
            pybool (_matches callback_id cb)) in
  build_listener_matcher func asyncio.

Definition view (constraints : value) (asyncio : bool)
    : result listener_matcher :=
  if is_str_or_pattern constraints then
    Ok (view_submission constraints asyncio)
  else
    has_type <- py_in "type" constraints ;;
    if has_type then
      ty <- py_getitem constraints "type" ;;
      if py_eq_str ty "view_submission" then
        cb <- py_getitem constraints "callback_id" ;;
        Ok (view_submission cb asyncio)
      else
        ty' <- py_getitem constraints "type" ;;
        if py_eq_str ty' "view_closed" then
          cb <- py_getitem constraints "callback_id" ;;
          Ok (view_closed cb asyncio)
        else
          Raise (BoltError (MustBeStrPatternOrDict "view" constraints))
    else
      Raise (BoltError (MustBeStrPatternOrDict "view" constraints)).

(** *** options *)

Definition _block_suggestion (action_id body : value) : result value :=
  py_and (Ok (VBool (is_block_suggestion pu body)))
         (aid <- py_getitem body "action_id" ;;
          pybool (_matches action_id aid)).

Definition block_suggestion (action_id : value) (asyncio : bool)
    : listener_matcher :=
  build_listener_matcher (fun body => _block_suggestion action_id body) asyncio.

Definition _dialog_suggestion (callback_id body : value) : result value :=
  py_and (Ok (VBool (is_dialog_suggestion pu body)))
         (cb <- py_getitem body "callback_id" ;;
          pybool (_matches callback_id cb)).

Definition dialog_suggestion (callback_id : value) (asyncio : bool)
    : listener_matcher :=
  build_listener_matcher (fun body => _dialog_suggestion callback_id body) asyncio.

Definition options (constraints : value) (asyncio : bool)
    : result listener_matcher :=
  if is_str_or_pattern constraints then
    let func (body : value) : result value :=
      py_or (_block_suggestion constraints body)
            (_dialog_suggestion constraints body) in
    Ok (build_listener_matcher func asyncio)
  else
    has_action_id <- py_in "action_id" constraints ;;
    if has_action_id then
      aid <- py_getitem constraints "action_id" ;;
      Ok (block_suggestion aid asyncio)
    else
      has_callback_id <- py_in "callback_id" constraints ;;
      if has_callback_id then
        cb <- py_getitem constraints "callback_id" ;;
        Ok (dialog_suggestion cb asyncio)
      else
        Raise (BoltError (MustBeStrPatternOrDict "options" constraints)).

End Builders.

(** Every builder of the module under its name, the ones that cannot fail
    wrapped in [Ok]. *)
Definition builders (pu : payload_utils)
    : list (string * (value -> bool -> result listener_matcher)) :=
  [ ("event", event pu);
    ("workflow_step_execute", fun c a => Ok (workflow_step_execute pu c a));
    ("command", fun c a => Ok (command pu c a));
    ("shortcut", shortcut pu);
    ("global_shortcut", fun c a => Ok (global_shortcut pu c a));
    ("message_shortcut", fun c a => Ok (message_shortcut pu c a));
    ("action", action pu);
    ("block_action", fun c a => Ok (block_action pu c a));
    ("attachment_action", fun c a => Ok (attachment_action pu c a));
    ("dialog_submission", fun c a => Ok (dialog_submission pu c a));
    ("dialog_cancellation", fun c a => Ok (dialog_cancellation pu c a));
    ("workflow_step_edit", fun c a => Ok (workflow_step_edit pu c a));
    ("view", view pu);
    ("view_submission", fun c a => Ok (view_submission pu c a));
    ("view_closed", fun c a => Ok (view_closed pu c a));
    ("workflow_step_save", fun c a => Ok (workflow_step_save pu c a));
    ("options", options pu);
    ("block_suggestion", fun c a => Ok (block_suggestion pu c a));
    ("dialog_suggestion", fun c a => Ok (dialog_suggestion pu c a)) ].

(** The five kind checks the generic [action] matcher combines. *)
Definition action_kinds (pu : payload_utils) (body : value) : list bool :=
  [ is_block_actions pu body;
    is_attachment_action pu body;
    is_dialog_submission pu body;
    is_dialog_cancellation pu body;
    is_workflow_step_edit pu body ].

(** At most one of the checks holds (section 4.1: kinds are mutually
    exclusive by design). *)
Definition at_most_one (bs : list bool) : bool :=
  Nat.leb (List.length (List.filter (fun b : bool => b) bs)) 1.

(** The kind checks that guard the predicates of each builder, by the
    builder's name: a predicate reads the payload only after one of them
    has passed. *)
Definition kind_checks (pu : payload_utils) (body : value)
    : list (string * list bool) :=
  [ ("event", [is_event pu body]);
    ("workflow_step_execute", [is_event pu body]);
    ("command", [is_slash_command pu body]);
    ("shortcut", [is_shortcut pu body; is_global_shortcut pu body;
                  is_message_shortcut pu body]);
    ("global_shortcut", [is_global_shortcut pu body]);
    ("message_shortcut", [is_message_shortcut pu body]);
    ("action", action_kinds pu body);
    ("block_action", [is_block_actions pu body]);
    ("attachment_action", [is_attachment_action pu body]);
    ("dialog_submission", [is_dialog_submission pu body]);
    ("dialog_cancellation", [is_dialog_cancellation pu body]);
    ("workflow_step_edit", [is_workflow_step_edit pu body]);
    ("view", [is_view_submission pu body; is_view_closed pu body]);
    ("view_submission", [is_view_submission pu body]);
    ("view_closed", [is_view_closed pu body]);
    ("workflow_step_save", [is_workflow_step_save pu body]);
    ("options", [is_block_suggestion pu body; is_dialog_suggestion pu body]);
    ("block_suggestion", [is_block_suggestion pu body]);
    ("dialog_suggestion", [is_dialog_suggestion pu body]) ].

(** [body[k1][k2]...]: the subscripts of a path, applied from the left. *)
Fixpoint py_getpath (v : value) (path : list string) : result value :=
  match path with
  | [] => Ok v
  | key :: rest => x <- py_getitem v key ;; py_getpath x rest
  end.

(** The builders whose predicate is one kind check and one field compared
    with the constraint, with the classifier they call and the path of the
    field they read. *)
Definition field_matchers (pu : payload_utils)
    : list (string * (value -> bool -> listener_matcher)
            * (value -> bool) * list string) :=
  [ ("command", command pu, is_slash_command pu, ["command"]);
    ("global_shortcut", global_shortcut pu, is_global_shortcut pu, ["callback_id"]);
    ("message_shortcut", message_shortcut pu, is_message_shortcut pu, ["callback_id"]);
    ("attachment_action", attachment_action pu, is_attachment_action pu,
       ["callback_id"]);
    ("dialog_submission", dialog_submission pu, is_dialog_submission pu,
       ["callback_id"]);
    ("dialog_cancellation", dialog_cancellation pu, is_dialog_cancellation pu,
       ["callback_id"]);
    ("workflow_step_edit", workflow_step_edit pu, is_workflow_step_edit pu,
       ["callback_id"]);
    ("view_submission", view_submission pu, is_view_submission pu,
       ["view"; "callback_id"]);
    ("view_closed", view_closed pu, is_view_closed pu, ["view"; "callback_id"]);
    ("workflow_step_save", workflow_step_save pu, is_workflow_step_save pu,
       ["view"; "callback_id"]);
    ("block_suggestion", block_suggestion pu, is_block_suggestion pu, ["action_id"]);
    ("dialog_suggestion", dialog_suggestion pu, is_dialog_suggestion pu,
       ["callback_id"]) ].

(** An outcome that is a Python [bool], or an exception: not [None] and
    not any other object. *)
Definition bool_or_raise (r : result value) : Prop :=
  match r with
  | Ok (VBool _) | Raise _ => True
  | Ok _ => False
  end.

(* ===================================================================== *)
(** ** A concrete classifier module *)
(* ===================================================================== *)

Module Slack.

(** [body] is a mapping whose top-level ["type"] equals [expected]. *)
Definition is_expected_type (body : value) (expected : string) : bool :=
  match body with
  | VDict d =>
      match d !! "type" with
      | Some ty => py_eq_str ty expected
      | None => false
      end
  | _ => false
  end.

(** [body] is a mapping that carries the top-level key. *)
Definition has_key (body : value) (key : string) : bool :=
  match body with
  | VDict d => bool_decide (is_Some (d !! key))
  | _ => false
  end.

(** [body] is a mapping whose top-level key holds a mapping. *)
Definition has_mapping (body : value) (key : string) : bool :=
  match body with
  | VDict d =>
      match d !! key with
      | Some (VDict _) => true
      | _ => false
      end
  | _ => false
  end.

(** The singular action entry, [body["actions"][0]]. *)
Definition first_action (body : value) : result value :=
  actions <- py_getitem body "actions" ;;
  match actions with
  | VList (a :: _) => Ok a
  | VList [] => Raise IndexError
  | VDict _ => Raise (KeyError "0")
  | _ => Raise TypeError
  end.

(** Modelled from the spec: [slack_bolt.request.payload_utils] is not
    among the sources.  By section 4.1 each classifier looks only at the
    top-level keys that identify the kind and answers [false], never an
    error, on a missing or wrongly-typed key; the kinds are mutually
    exclusive.  The interactive kinds are told apart by the top-level
    ["type"] with the discriminators of section 4.3; a slash command is
    a body with a ["command"], an event a body with an ["event"] mapping,
    and [to_action] extracts the singular action entry. *)
Definition payload_utils : payload_utils := {|
  is_block_actions body := is_expected_type body "block_actions";
  is_global_shortcut body := is_expected_type body "shortcut";
  is_message_shortcut body := is_expected_type body "message_action";
  is_attachment_action body := is_expected_type body "interactive_message";
  is_dialog_submission body := is_expected_type body "dialog_submission";
  is_dialog_cancellation body := is_expected_type body "dialog_cancellation";
  is_workflow_step_edit body := is_expected_type body "workflow_step_edit";
  is_slash_command body := has_key body "command";
  is_event body := has_mapping body "event";
  is_view_submission body := is_expected_type body "view_submission";
  is_view_closed body := is_expected_type body "view_closed";
  is_block_suggestion body := is_expected_type body "block_suggestion";
  is_dialog_suggestion body := is_expected_type body "dialog_suggestion";
  is_shortcut body :=
    is_expected_type body "shortcut" || is_expected_type body "message_action";
  to_action := first_action;
  is_workflow_step_save body := is_expected_type body "workflow_step_save";
|}.

(** Building a mapping from its items. *)
Definition dict (items : list (string * value)) : value :=
  VDict (list_to_map items).

Definition request (b : value) : BoltRequest := {| body := b |}.

Definition response : BoltResponse := {| status := 200; response_body := "" |}.

(** Sample payloads. *)
Definition message_event : value :=
  dict [ ("type", VStr "event_callback");
         ("event", dict [ ("type", VStr "message"); ("text", VStr "hi") ]) ].

Definition message_deleted_event : value :=
  dict [ ("type", VStr "event_callback");
         ("event", dict [ ("type", VStr "message");
                          ("subtype", VStr "message_deleted") ]) ].

Definition message_changed_event : value :=
  dict [ ("type", VStr "event_callback");
         ("event", dict [ ("type", VStr "message");
                          ("subtype", VStr "message_changed") ]) ].

(** A workflow-step event that carries no ["callback_id"]. *)
Definition step_event_without_callback_id : value :=
  dict [ ("type", VStr "event_callback");
         ("event", dict [ ("type", VStr "workflow_step_execute");
                          ("workflow_step", dict []) ]) ].

Definition button_click (action_id block_id : string) : value :=
  dict [ ("type", VStr "block_actions");
         ("actions", VList [ dict [ ("type", VStr "button");
                                    ("action_id", VStr action_id);
                                    ("block_id", VStr block_id) ] ]) ].

Definition button_click_without_block_id (action_id : string) : value :=
  dict [ ("type", VStr "block_actions");
         ("actions", VList [ dict [ ("type", VStr "button");
                                    ("action_id", VStr action_id) ] ]) ].

Definition with_callback_id (type callback_id : string) : value :=
  dict [ ("type", VStr type); ("callback_id", VStr callback_id) ].

(** Sample constraints. *)
Definition message_without_subtype : value :=
  dict [ ("type", VStr "message"); ("subtype", VNone) ].

Definition message_deleted : value :=
  dict [ ("type", VStr "message"); ("subtype", VStr "message_deleted") ].

Definition action_and_block (action_id block_id : string) : value :=
  dict [ ("action_id", VStr action_id); ("block_id", VStr block_id) ].

Definition action_only (action_id : string) : value :=
  dict [ ("action_id", VStr action_id) ].

Definition dialog_suggestion_payload : value :=
  dict [ ("type", VStr "dialog_suggestion");
         ("callback_id", VStr "a"); ("action_id", VStr "a") ].

(** The slash command of the Flask sample. *)
Definition slash_command : value :=
  dict [ ("command", VStr "/bolt-py-proto-2"); ("text", VStr "hello") ].

Definition block_suggestion_payload (action_id : string) : value :=
  dict [ ("type", VStr "block_suggestion"); ("action_id", VStr action_id) ].

End Slack.

(* ===================================================================== *)
(** ** The adapter, for predicates with any parameter list *)
(* ===================================================================== *)

Module Adapter.

(** What the context can bind to a parameter of a predicate. *)
Inductive argument : Type :=
| ABody (b : value)
| ALogger
| ARequest (req : BoltRequest)
| AResponse (resp : BoltResponse).

(** A Python function without defaults: the parameter names that
    [inspect.getfullargspec(func).args] reports, and the body as a
    function of the arguments bound to them, in the order of declaration. *)
Record pyfunc : Type := PyFunc {
  args : list string;
  code : list argument -> result value;
}.

(** [func(a1, ..., an)]: the parameters take the arguments by position; too
    few or too many arguments is a [TypeError]. *)
Definition call_positional (func : pyfunc) (positional : list argument)
    : result value :=
  if Nat.eqb (List.length positional) (List.length (args func))
  then code func positional
  else Raise TypeError.

Fixpoint lookup_keyword (kwargs : list (string * argument)) (name : string)
    : option argument :=
  match kwargs with
  | [] => None
  | (key, a) :: rest =>
      if String.eqb key name then Some a else lookup_keyword rest name
  end.

Fixpoint bind_keywords (names : list string) (kwargs : list (string * argument))
    : option (list argument) :=
  match names with
  | [] => Some []
  | name :: rest =>
      match lookup_keyword kwargs name, bind_keywords rest kwargs with
      | Some a, Some bound => Some (a :: bound)
      | _, _ => None
      end
  end.

(** The call of [func] with keyword arguments only: every parameter must
    be given, and every keyword must name a parameter; otherwise the call
    is a [TypeError]. *)
Definition call_keywords (func : pyfunc) (kwargs : list (string * argument))
    : result value :=
  if forallb (fun kv : string * argument =>
                existsb (String.eqb (fst kv)) (args func)) kwargs
  then match bind_keywords (args func) kwargs with
       | Some bound => code func bound
       | None => Raise TypeError
       end
  else Raise TypeError.

(** Modelled from the spec: [slack_bolt.kwargs_injection] is not among the
    sources.  By section 4.4 the adapter resolves exactly the parameters
    the predicate declares from the request and the response, and the
    context supplies the raw payload, the logger, the inbound request and
    the outgoing response; the names are the ones [builtins.py] uses for
    them.  A name the context cannot supply is left out, and the call of
    the predicate then fails. *)
Definition resolve (name : string) (request : BoltRequest)
    (response : BoltResponse) : option argument :=
  if String.eqb name "body" then Some (ABody (body request))
  else if String.eqb name "logger" then Some ALogger
  else if String.eqb name "request" then Some (ARequest request)
  else if String.eqb name "response" then Some (AResponse response)
  else None.

Fixpoint build_required_kwargs (required_arg_names : list string)
    (request : BoltRequest) (response : BoltResponse)
    : list (string * argument) :=
  match required_arg_names with
  | [] => []
  | name :: rest =>
      match resolve name request response with
      | Some a => (name, a) :: build_required_kwargs rest request response
      | None => build_required_kwargs rest request response
      end
  end.

(** [self.func] with [self.arg_names = inspect.getfullargspec(func).args]. *)
Inductive listener_matcher : Type :=
| BuiltinListenerMatcher (func : pyfunc)
| AsyncBuiltinListenerMatcher (func : pyfunc).

(** [BuiltinListenerMatcher.matches]. *)
Definition matches (func : pyfunc) (req : BoltRequest) (resp : BoltResponse)
    : result value :=
  call_keywords func (build_required_kwargs (args func) req resp).

(** Modelled from the spec: [AsyncBuiltinListenerMatcher] is not among the
    sources; by section 4.4 it has the resolution contract of the
    synchronous adapter and its predicate, an [async def], runs when it is
    awaited. *)
Definition async_matches (func : pyfunc) (req : BoltRequest)
    (resp : BoltResponse) : awaitable value :=
  Suspended (fun _ =>
    call_keywords func (build_required_kwargs (args func) req resp)).

Definition run_matcher (m : listener_matcher) (req : BoltRequest)
    (resp : BoltResponse) : result value :=
  match m with
  | BuiltinListenerMatcher func => matches func req resp
  | AsyncBuiltinListenerMatcher func => await (async_matches func req resp)
  end.

(** [build_listener_matcher]: the asynchronous form wraps [func] in
    [async def async_fun(body): return func(body)]. *)
Definition build_listener_matcher (func : pyfunc) (asyncio : bool)
    : listener_matcher :=
  if asyncio then
    let async_fun :=
      {| args := ["body"];
         code := fun bound => call_positional func bound |} in
    AsyncBuiltinListenerMatcher async_fun
  else
    BuiltinListenerMatcher func.

(** [def func(body)] for a predicate over the payload. *)
Definition on_body (predicate : value -> result value) : pyfunc :=
  {| args := ["body"];
     code := fun bound =>
               match bound with
               | [ABody b] => predicate b
               | _ => Raise TypeError
               end |}.

(** [def func(): return True]. *)
Definition no_parameters : pyfunc :=
  {| args := [];
     code := fun _ => Ok (VBool true) |}.

(** [def func(body, logger): return True]. *)
Definition body_and_logger : pyfunc :=
  {| args := ["body"; "logger"];
     code := fun _ => Ok (VBool true) |}.

End Adapter.

(* ===================================================================== *)
(** ** The builders over a store of mutable objects *)
(* ===================================================================== *)

(** The same source functions with Python's object model written out:
    mappings and lists live in a store and are passed by reference, every
    operation threads the store, and an operation may write to it.  This
    is the model in which "evaluation does not mutate the payload" is a
    statement about the code. *)
Module Heap.

Definition loc : Type := nat.

(** What a variable holds: an immutable object, or a reference to a
    mapping or a list in the store. *)
Inductive hval : Type :=
| HNone
| HBool (b : bool)
| HInt (n : Z)
| HStr (s : string)
| HPattern (p : Re.regex)
| HRef (l : loc).

Inductive hobj : Type :=
| ODict (d : gmap string hval)
| OList (xs : list hval).

Definition heap : Type := loc -> hobj.

Inductive bolt_message : Type :=
| MustBeStrPatternOrDict (category : string) (constraints : hval)
| TypeIsUnsupported (action_type : hval)
| MustBeStrOrPattern (str_or_pattern : hval).

Inductive exn : Type :=
| BoltError (msg : bolt_message)
| KeyError (key : string)
| TypeError
| AttributeError
| IndexError.

Inductive outcome (A : Type) : Type :=
| Return (a : A)
| Throw (e : exn).
Arguments Return {A} a.
Arguments Throw {A} e.

(** A computation: from the store before to an outcome and the store
    after. *)
Definition py (A : Type) : Type := heap -> outcome A * heap.

Definition ret {A : Type} (a : A) : py A := fun h => (Return a, h).

Definition throw {A : Type} (e : exn) : py A := fun h => (Throw e, h).

Definition bind {A B : Type} (m : py A) (k : A -> py B) : py B :=
  fun h =>
    match m h with
    | (Return a, h') => k a h'
    | (Throw e, h') => (Throw e, h')
    end.

Notation "x <~ m ;; k" := (bind m (fun x => k))
  (at level 100, m at next level, right associativity).

(** The two accesses to the store. *)
Definition read (l : loc) : py hobj := fun h => (Return (h l), h).

Definition write (l : loc) (o : hobj) : py unit :=
  fun h => (Return tt, fun l' => if Nat.eqb l' l then o else h l').

(** *** The Python operations *)

Definition py_eq_str (v : hval) (s : string) : bool :=
  match v with
  | HStr t => String.eqb t s
  | _ => false
  end.

(** [key in v]. *)
Definition py_in (key : string) (v : hval) : py bool :=
  match v with
  | HRef l =>
      o <~ read l ;;
      match o with
      | ODict d => ret (bool_decide (is_Some (d !! key)))
      | OList xs => ret (existsb (fun x => py_eq_str x key) xs)
      end
  | HStr s => ret (is_substring key s)
  | HNone | HBool _ | HInt _ | HPattern _ => throw TypeError
  end.

(** [v[key]]. *)
Definition py_getitem (v : hval) (key : string) : py hval :=
  match v with
  | HRef l =>
      o <~ read l ;;
      match o with
      | ODict d =>
          match d !! key with
          | Some x => ret x
          | None => throw (KeyError key)
          end
      | OList _ => throw TypeError
      end
  | _ => throw TypeError
  end.

(** [v.get(key)]. *)
Definition py_get (v : hval) (key : string) : py hval :=
  match v with
  | HRef l =>
      o <~ read l ;;
      match o with
      | ODict d => ret (default HNone (d !! key))
      | OList _ => throw AttributeError
      end
  | _ => throw AttributeError
  end.

(** [v[key] = x]: the operation that mutates a mapping.  No builder uses
    it. *)
Definition py_setitem (v : hval) (key : string) (x : hval) : py unit :=
  match v with
  | HRef l =>
      o <~ read l ;;
      match o with
      | ODict d => write l (ODict (<[key := x]> d))
      | OList _ => throw TypeError
      end
  | _ => throw TypeError
  end.

Definition is_str_or_pattern (v : hval) : bool :=
  match v with
  | HStr _ | HPattern _ => true
  | _ => false
  end.

(** [isinstance(v, dict)]. *)
Definition is_dict (v : hval) : py bool :=
  match v with
  | HRef l =>
      o <~ read l ;;
      ret (match o with ODict _ => true | OList _ => false end)
  | _ => ret false
  end.

Definition is_none (v : hval) : bool :=
  match v with
  | HNone => true
  | _ => false
  end.

Definition truthy (v : hval) : py bool :=
  match v with
  | HNone => ret false
  | HBool b => ret b
  | HInt n => ret (negb (Z.eqb n 0))
  | HStr s => ret (negb (String.eqb s ""))
  | HPattern _ => ret true
  | HRef l =>
      o <~ read l ;;
      ret (match o with
           | ODict d => negb (bool_decide (d = ∅))
           | OList xs => match xs with [] => false | _ => true end
           end)
  end.

Definition _matches (str_or_pattern : hval) (input : hval) : py bool :=
  if is_none str_or_pattern || is_none input then ret false
  else
    match str_or_pattern with
    | HStr exact_match_str => ret (py_eq_str input exact_match_str)
    | HPattern pattern =>
        match input with
        | HStr s => ret (bool_decide (is_Some (Re.search pattern s)))
        | _ => throw TypeError
        end
    | _ => throw (BoltError (MustBeStrOrPattern str_or_pattern))
    end.

Definition pybool (m : py bool) : py hval :=
  b <~ m ;; ret (HBool b).

Definition py_and (a b : py hval) : py hval :=
  x <~ a ;; t <~ truthy x ;; if t then b else ret x.

Definition py_or (a b : py hval) : py hval :=
  x <~ a ;; t <~ truthy x ;; if t then ret x else b.

(** *** The classifiers *)

(** Modelled from the spec: [slack_bolt.request.payload_utils] is not
    among the sources.  By section 3 a classifier result is stateless and
    purely a function of the payload shape, so a classifier reads the
    store and leaves it as it is; [to_action] likewise. *)
Record payload_utils : Type := PayloadUtils {
  is_block_actions : heap -> hval -> bool;
  is_global_shortcut : heap -> hval -> bool;
  is_message_shortcut : heap -> hval -> bool;
  is_attachment_action : heap -> hval -> bool;
  is_dialog_submission : heap -> hval -> bool;
  is_dialog_cancellation : heap -> hval -> bool;
  is_workflow_step_edit : heap -> hval -> bool;
  is_slash_command : heap -> hval -> bool;
  is_event : heap -> hval -> bool;
  is_view_submission : heap -> hval -> bool;
  is_view_closed : heap -> hval -> bool;
  is_block_suggestion : heap -> hval -> bool;
  is_dialog_suggestion : heap -> hval -> bool;
  is_shortcut : heap -> hval -> bool;
  to_action : heap -> hval -> outcome hval;
  is_workflow_step_save : heap -> hval -> bool;
}.

(** The call of a classifier on the payload. *)
Definition classify (classifier : heap -> hval -> bool) (body : hval) : py bool :=
  fun h => (Return (classifier h body), h).

Definition extract (extractor : heap -> hval -> outcome hval) (body : hval)
    : py hval :=
  fun h => (extractor h body, h).

(** *** The adapter *)

Inductive awaitable (A : Type) : Type :=
| Suspended (resume : unit -> py A).
Arguments Suspended {A} resume.

Definition await {A : Type} (c : awaitable A) : py A :=
  match c with
  | Suspended resume => resume tt
  end.

Inductive listener_matcher : Type :=
| BuiltinListenerMatcher (func : hval -> py hval)
| AsyncBuiltinListenerMatcher (func : hval -> awaitable hval).

(** What the dispatcher reads from a matcher, given the payload of the
    request. *)
Definition run_matcher (m : listener_matcher) (body : hval) : py hval :=
  match m with
  | BuiltinListenerMatcher func => func body
  | AsyncBuiltinListenerMatcher func => await (func body)
  end.

Definition build_listener_matcher (func : hval -> py hval) (asyncio : bool)
    : listener_matcher :=
  if asyncio then
    let async_fun := fun body => Suspended (fun _ => func body) in
    AsyncBuiltinListenerMatcher async_fun
  else
    BuiltinListenerMatcher func.

(** *** The builders *)

Section Builders.

Variable pu : payload_utils.

Definition event (constraints : hval) (asyncio : bool) : py listener_matcher :=
  if is_str_or_pattern constraints then
    let event_type := constraints in
    let func (body : hval) : py hval :=
      py_and (pybool (classify (is_event pu) body))
             (ev <~ py_getitem body "event" ;;
              ty <~ py_getitem ev "type" ;;
              pybool (_matches event_type ty)) in
    ret (build_listener_matcher func asyncio)
  else
    has_type <~ py_in "type" constraints ;;
    if has_type then
      let func (body : hval) : py hval :=
        is_ev <~ classify (is_event pu) body ;;
        if is_ev then
          event <~ py_getitem body "event" ;;
          expected_type <~ py_getitem constraints "type" ;;
          ty <~ py_getitem event "type" ;;
          type_matched <~ _matches expected_type ty ;;
          if negb type_matched then ret (HBool false)
          else
            has_subtype <~ py_in "subtype" constraints ;;
            if has_subtype then
              expected_subtype <~ py_getitem constraints "subtype" ;;
              if is_none expected_subtype then
                carried <~ py_in "subtype" event ;;
                ret (HBool (negb carried))
              else
                py_and (pybool (py_in "subtype" event))
                       (subtype <~ py_getitem event "subtype" ;;
                        pybool (_matches expected_subtype subtype))
            else ret (HBool true)
        else ret (HBool false) in
      ret (build_listener_matcher func asyncio)
    else
      throw (BoltError (MustBeStrPatternOrDict "event" constraints)).

Definition workflow_step_execute (callback_id : hval) (asyncio : bool)
    : listener_matcher :=
  let func (body : hval) : py hval :=
    py_and (pybool (classify (is_event pu) body))
      (py_and (ev <~ py_getitem body "event" ;;
               ty <~ py_getitem ev "type" ;;
               pybool (_matches (HStr "workflow_step_execute") ty))
         (py_and (ev <~ py_getitem body "event" ;;
                  pybool (py_in "workflow_step" ev))
                 (ev <~ py_getitem body "event" ;;
                  cb <~ py_getitem ev "callback_id" ;;
                  pybool (_matches callback_id cb)))) in
  build_listener_matcher func asyncio.

(** The predicate of the builders that check one kind and compare one
    top-level field. *)
Definition field_check (kind : heap -> hval -> bool) (key : string)
    (constraint body : hval) : py hval :=
  py_and (pybool (classify kind body))
         (x <~ py_getitem body key ;;
          pybool (_matches constraint x)).

(** The same for the [callback_id] of the view. *)
Definition view_check (kind : heap -> hval -> bool)
    (callback_id body : hval) : py hval :=
  py_and (pybool (classify kind body))
         (v <~ py_getitem body "view" ;;
          cb <~ py_getitem v "callback_id" ;;
          pybool (_matches callback_id cb)).

Definition command (command : hval) (asyncio : bool) : listener_matcher :=
  build_listener_matcher
    (fun body => field_check (is_slash_command pu) "command" command body) asyncio.

Definition global_shortcut (callback_id : hval) (asyncio : bool)
    : listener_matcher :=
  build_listener_matcher
    (fun body => field_check (is_global_shortcut pu) "callback_id" callback_id body)
    asyncio.

Definition message_shortcut (callback_id : hval) (asyncio : bool)
    : listener_matcher :=
  build_listener_matcher
    (fun body => field_check (is_message_shortcut pu) "callback_id" callback_id body)
    asyncio.

Definition shortcut (constraints : hval) (asyncio : bool) : py listener_matcher :=
  if is_str_or_pattern constraints then
    let callback_id := constraints in
    ret (build_listener_matcher
           (fun body => field_check (is_shortcut pu) "callback_id" callback_id body)
           asyncio)
  else
    has_type <~ py_in "type" constraints ;;
    has_both <~ (if has_type then py_in "callback_id" constraints
                 else ret false) ;;
    if has_both then
      ty <~ py_getitem constraints "type" ;;
      if py_eq_str ty "shortcut" then
        cb <~ py_getitem constraints "callback_id" ;;
        ret (global_shortcut cb asyncio)
      else
        ty' <~ py_getitem constraints "type" ;;
        if py_eq_str ty' "message_action" then
          cb <~ py_getitem constraints "callback_id" ;;
          ret (message_shortcut cb asyncio)
        else
          throw (BoltError (MustBeStrPatternOrDict "shortcut" constraints))
    else
      throw (BoltError (MustBeStrPatternOrDict "shortcut" constraints)).

Definition _block_action (constraints body : hval) : py hval :=
  kind <~ classify (is_block_actions pu) body ;;
  if negb kind then ret (HBool false)
  else
    action <~ extract (to_action pu) body ;;
    if is_str_or_pattern constraints then
      let action_id := constraints in
      aid <~ py_getitem action "action_id" ;;
      pybool (_matches action_id aid)
    else
      mapping <~ is_dict constraints ;;
      if mapping then
        block_id <~ py_get constraints "block_id" ;;
        block_id_matched <~
          (if is_none block_id then ret true
           else bid <~ py_get action "block_id" ;; _matches block_id bid) ;;
        expected_action_id <~ py_getitem constraints "action_id" ;;
        aid <~ py_getitem action "action_id" ;;
        action_id_matched <~ _matches expected_action_id aid ;;
        ret (HBool (block_id_matched && action_id_matched))
      else
        ret HNone.

Definition block_action (constraints : hval) (asyncio : bool)
    : listener_matcher :=
  build_listener_matcher (fun body => _block_action constraints body) asyncio.

Definition _attachment_action (callback_id body : hval) : py hval :=
  field_check (is_attachment_action pu) "callback_id" callback_id body.

Definition attachment_action (callback_id : hval) (asyncio : bool)
    : listener_matcher :=
  build_listener_matcher (fun body => _attachment_action callback_id body) asyncio.

Definition _dialog_submission (callback_id body : hval) : py hval :=
  field_check (is_dialog_submission pu) "callback_id" callback_id body.

Definition dialog_submission (callback_id : hval) (asyncio : bool)
    : listener_matcher :=
  build_listener_matcher (fun body => _dialog_submission callback_id body) asyncio.

Definition _dialog_cancellation (callback_id body : hval) : py hval :=
  field_check (is_dialog_cancellation pu) "callback_id" callback_id body.

Definition dialog_cancellation (callback_id : hval) (asyncio : bool)
    : listener_matcher :=
  build_listener_matcher (fun body => _dialog_cancellation callback_id body) asyncio.

Definition _workflow_step_edit (callback_id body : hval) : py hval :=
  field_check (is_workflow_step_edit pu) "callback_id" callback_id body.

Definition workflow_step_edit (callback_id : hval) (asyncio : bool)
    : listener_matcher :=
  build_listener_matcher (fun body => _workflow_step_edit callback_id body) asyncio.

Definition action (constraints : hval) (asyncio : bool) : py listener_matcher :=
  if is_str_or_pattern constraints then
    let func (body : hval) : py hval :=
      py_or (_block_action constraints body)
        (py_or (_attachment_action constraints body)
           (py_or (_dialog_submission constraints body)
              (py_or (_dialog_cancellation constraints body)
                     (_workflow_step_edit constraints body)))) in
    ret (build_listener_matcher func asyncio)
  else
    has_type <~ py_in "type" constraints ;;
    if has_type then
      action_type <~ py_getitem constraints "type" ;;
      if py_eq_str action_type "block_actions" then
        ret (block_action constraints asyncio)
      else if py_eq_str action_type "interactive_message" then
        cb <~ py_getitem constraints "callback_id" ;;
        ret (attachment_action cb asyncio)
      else if py_eq_str action_type "dialog_submission" then
        cb <~ py_getitem constraints "callback_id" ;;
        ret (dialog_submission cb asyncio)
      else if py_eq_str action_type "dialog_cancellation" then
        cb <~ py_getitem constraints "callback_id" ;;
        ret (dialog_cancellation cb asyncio)
      else if py_eq_str action_type "workflow_step_edit" then
        cb <~ py_getitem constraints "callback_id" ;;
        ret (workflow_step_edit cb asyncio)
      else
        throw (BoltError (TypeIsUnsupported action_type))
    else
      has_action_id <~ py_in "action_id" constraints ;;
      if has_action_id then
        ret (block_action constraints asyncio)
      else
        throw (BoltError (MustBeStrPatternOrDict "action" constraints)).

Definition view_submission (callback_id : hval) (asyncio : bool)
    : listener_matcher :=
  build_listener_matcher
    (fun body => view_check (is_view_submission pu) callback_id body) asyncio.

Definition view_closed (callback_id : hval) (asyncio : bool)
    : listener_matcher :=
  build_listener_matcher
    (fun body => view_check (is_view_closed pu) callback_id body) asyncio.

Definition workflow_step_save (callback_id : hval) (asyncio : bool)
    : listener_matcher :=
  build_listener_matcher
    (fun body => view_check (is_workflow_step_save pu) callback_id body) asyncio.

Definition view (constraints : hval) (asyncio : bool) : py listener_matcher :=
  if is_str_or_pattern constraints then
    ret (view_submission constraints asyncio)
  else
    has_type <~ py_in "type" constraints ;;
    if has_type then
      ty <~ py_getitem constraints "type" ;;
      if py_eq_str ty "view_submission" then
        cb <~ py_getitem constraints "callback_id" ;;
        ret (view_submission cb asyncio)
      else
        ty' <~ py_getitem constraints "type" ;;
        if py_eq_str ty' "view_closed" then
          cb <~ py_getitem constraints "callback_id" ;;
          ret (view_closed cb asyncio)
        else
          throw (BoltError (MustBeStrPatternOrDict "view" constraints))
    else
      throw (BoltError (MustBeStrPatternOrDict "view" constraints)).

Definition _block_suggestion (action_id body : hval) : py hval :=
  field_check (is_block_suggestion pu) "action_id" action_id body.

Definition block_suggestion (action_id : hval) (asyncio : bool)
    : listener_matcher :=
  build_listener_matcher (fun body => _block_suggestion action_id body) asyncio.

Definition _dialog_suggestion (callback_id body : hval) : py hval :=
  field_check (is_dialog_suggestion pu) "callback_id" callback_id body.

Definition dialog_suggestion (callback_id : hval) (asyncio : bool)
    : listener_matcher :=
  build_listener_matcher (fun body => _dialog_suggestion callback_id body) asyncio.

Definition options (constraints : hval) (asyncio : bool) : py listener_matcher :=
  if is_str_or_pattern constraints then
    let func (body : hval) : py hval :=
      py_or (_block_suggestion constraints body)
            (_dialog_suggestion constraints body) in
    ret (build_listener_matcher func asyncio)
  else
    has_action_id <~ py_in "action_id" constraints ;;
    if has_action_id then
      aid <~ py_getitem constraints "action_id" ;;
      ret (block_suggestion aid asyncio)
    else
      has_callback_id <~ py_in "callback_id" constraints ;;
      if has_callback_id then
        cb <~ py_getitem constraints "callback_id" ;;
        ret (dialog_suggestion cb asyncio)
      else
        throw (BoltError (MustBeStrPatternOrDict "options" constraints)).

End Builders.

(** Every builder of the module under its name. *)
Definition builders (pu : payload_utils)
    : list (string * (hval -> bool -> py listener_matcher)) :=
  [ ("event", event pu);
    ("workflow_step_execute", fun c a => ret (workflow_step_execute pu c a));
    ("command", fun c a => ret (command pu c a));
    ("shortcut", shortcut pu);
    ("global_shortcut", fun c a => ret (global_shortcut pu c a));
    ("message_shortcut", fun c a => ret (message_shortcut pu c a));
    ("action", action pu);
    ("block_action", fun c a => ret (block_action pu c a));
    ("attachment_action", fun c a => ret (attachment_action pu c a));
    ("dialog_submission", fun c a => ret (dialog_submission pu c a));
    ("dialog_cancellation", fun c a => ret (dialog_cancellation pu c a));
    ("workflow_step_edit", fun c a => ret (workflow_step_edit pu c a));
    ("view", view pu);
    ("view_submission", fun c a => ret (view_submission pu c a));
    ("view_closed", fun c a => ret (view_closed pu c a));
    ("workflow_step_save", fun c a => ret (workflow_step_save pu c a));
    ("options", options pu);
    ("block_suggestion", fun c a => ret (block_suggestion pu c a));
    ("dialog_suggestion", fun c a => ret (dialog_suggestion pu c a)) ].

(** A computation that leaves every store as it found it. *)
Definition readonly {A : Type} (m : py A) : Prop :=
  forall h, snd (m h) = h.


(** A predicate that is not one of the module's: it records on the payload
    that it has seen it, [body["seen"] = True], and answers [True]. *)
Definition marking_predicate (body : hval) : py hval :=
  _ <~ py_setitem body "seen" (HBool true) ;; ret (HBool true).

(** *** A store with a block_actions payload *)

(** Location 0 holds the body, 1 its list of actions, 2 the action; 3
    holds the mapping constraint [{action_id: "a", block_id: "b"}]. *)
Definition sample_heap : heap :=
  fun l =>
    match l with
    | 0 => ODict (list_to_map [ ("type", HStr "block_actions");
                                ("actions", HRef 1) ])
    | 1 => OList [ HRef 2 ]
    | 2 => ODict (list_to_map [ ("action_id", HStr "a"); ("block_id", HStr "b") ])
    | 3 => ODict (list_to_map [ ("action_id", HStr "a"); ("block_id", HStr "b") ])
    | _ => ODict ∅
    end.

Definition is_expected_type (expected : string) (h : heap) (body : hval) : bool :=
  match body with
  | HRef l =>
      match h l with
      | ODict d =>
          match d !! "type" with
          | Some ty => py_eq_str ty expected
          | None => false
          end
      | OList _ => false
      end
  | _ => false
  end.

Definition has_key (key : string) (h : heap) (body : hval) : bool :=
  match body with
  | HRef l =>
      match h l with
      | ODict d => bool_decide (is_Some (d !! key))
      | OList _ => false
      end
  | _ => false
  end.

Definition has_mapping (key : string) (h : heap) (body : hval) : bool :=
  match body with
  | HRef l =>
      match h l with
      | ODict d =>
          match d !! key with
          | Some (HRef l') =>
              match h l' with
              | ODict _ => true
              | OList _ => false
              end
          | _ => false
          end
      | OList _ => false
      end
  | _ => false
  end.

(** [body["actions"][0]]. *)
Definition first_action (h : heap) (body : hval) : outcome hval :=
  match body with
  | HRef l =>
      match h l with
      | ODict d =>
          match d !! "actions" with
          | Some (HRef l') =>
              match h l' with
              | OList (a :: _) => Return a
              | OList [] => Throw IndexError
              | ODict _ => Throw (KeyError "0")
              end
          | Some _ => Throw TypeError
          | None => Throw (KeyError "actions")
          end
      | OList _ => Throw TypeError
      end
  | _ => Throw TypeError
  end.

(** Modelled from the spec: the classifiers of [Slack.payload_utils], on
    the store. *)
Definition sample_utils : payload_utils := {|
  is_block_actions := is_expected_type "block_actions";
  is_global_shortcut := is_expected_type "shortcut";
  is_message_shortcut := is_expected_type "message_action";
  is_attachment_action := is_expected_type "interactive_message";
  is_dialog_submission := is_expected_type "dialog_submission";
  is_dialog_cancellation := is_expected_type "dialog_cancellation";
  is_workflow_step_edit := is_expected_type "workflow_step_edit";
  is_slash_command := has_key "command";
  is_event := has_mapping "event";
  is_view_submission := is_expected_type "view_submission";
  is_view_closed := is_expected_type "view_closed";
  is_block_suggestion := is_expected_type "block_suggestion";
  is_dialog_suggestion := is_expected_type "dialog_suggestion";
  is_shortcut h body :=
    is_expected_type "shortcut" h body || is_expected_type "message_action" h body;
  to_action := first_action;
  is_workflow_step_save := is_expected_type "workflow_step_save";
|}.

End Heap.

(* ===================================================================== *)
(** ** How the store model relates to the model on values *)
(* ===================================================================== *)

Module Refinement.

(** A value of the model without a store is what a variable denotes in a
    store: an immutable object is itself, a reference denotes the mapping
    or the list it points to, item by item. *)
Inductive represents (h : Heap.heap) : Heap.hval -> value -> Prop :=
| R_none : represents h Heap.HNone VNone
| R_bool b : represents h (Heap.HBool b) (VBool b)
| R_int n : represents h (Heap.HInt n) (VInt n)
| R_str s : represents h (Heap.HStr s) (VStr s)
| R_pattern p : represents h (Heap.HPattern p) (VPattern p)
| R_dict l d d' :
    h l = Heap.ODict d ->
    (forall key, option_Forall2 (represents h) (d !! key) (d' !! key)) ->
    represents h (Heap.HRef l) (VDict d')
| R_list l xs xs' :
    h l = Heap.OList xs ->
    Forall2 (represents h) xs xs' ->
    represents h (Heap.HRef l) (VList xs').

Inductive same_message (h : Heap.heap) : Heap.bolt_message -> bolt_message -> Prop :=
| M_shape category v v' :
    represents h v v' ->
    same_message h (Heap.MustBeStrPatternOrDict category v)
                   (MustBeStrPatternOrDict category v')
| M_type v v' :
    represents h v v' ->
    same_message h (Heap.TypeIsUnsupported v) (TypeIsUnsupported v')
| M_constraint v v' :
    represents h v v' ->
    same_message h (Heap.MustBeStrOrPattern v) (MustBeStrOrPattern v').

Inductive same_exn (h : Heap.heap) : Heap.exn -> exn -> Prop :=
| E_bolt msg msg' :
    same_message h msg msg' -> same_exn h (Heap.BoltError msg) (BoltError msg')
| E_key key : same_exn h (Heap.KeyError key) (KeyError key)
| E_type : same_exn h Heap.TypeError TypeError
| E_attribute : same_exn h Heap.AttributeError AttributeError
| E_index : same_exn h Heap.IndexError IndexError.

(** The outcome of a computation in the store [h] is the outcome in the
    model on values, up to [R] on what is returned. *)
Definition same_outcome {A B : Type} (R : A -> B -> Prop) (h : Heap.heap)
    (o : Heap.outcome A) (r : result B) : Prop :=
  match o, r with
  | Heap.Return a, Ok b => R a b
  | Heap.Throw e, Raise e' => same_exn h e e'
  | _, _ => False
  end.

Definition refines {A B : Type} (R : A -> B -> Prop) (h : Heap.heap)
    (m : Heap.py A) (r : result B) : Prop :=
  same_outcome R h (fst (m h)) r.

(** The classifiers on the store answer as the classifiers on values do,
    on the payloads that the store represents. *)
Record same_classifiers (h : Heap.heap) (hpu : Heap.payload_utils)
    (pu : payload_utils) : Prop := {
  same_is_block_actions : forall b b', represents h b b' ->
    Heap.is_block_actions hpu h b = is_block_actions pu b';
  same_is_global_shortcut : forall b b', represents h b b' ->
    Heap.is_global_shortcut hpu h b = is_global_shortcut pu b';
  same_is_message_shortcut : forall b b', represents h b b' ->
    Heap.is_message_shortcut hpu h b = is_message_shortcut pu b';
  same_is_attachment_action : forall b b', represents h b b' ->
    Heap.is_attachment_action hpu h b = is_attachment_action pu b';
  same_is_dialog_submission : forall b b', represents h b b' ->
    Heap.is_dialog_submission hpu h b = is_dialog_submission pu b';
  same_is_dialog_cancellation : forall b b', represents h b b' ->
    Heap.is_dialog_cancellation hpu h b = is_dialog_cancellation pu b';
  same_is_workflow_step_edit : forall b b', represents h b b' ->
    Heap.is_workflow_step_edit hpu h b = is_workflow_step_edit pu b';
  same_is_slash_command : forall b b', represents h b b' ->
    Heap.is_slash_command hpu h b = is_slash_command pu b';
  same_is_event : forall b b', represents h b b' ->
    Heap.is_event hpu h b = is_event pu b';
  same_is_view_submission : forall b b', represents h b b' ->
    Heap.is_view_submission hpu h b = is_view_submission pu b';
  same_is_view_closed : forall b b', represents h b b' ->
    Heap.is_view_closed hpu h b = is_view_closed pu b';
  same_is_block_suggestion : forall b b', represents h b b' ->
    Heap.is_block_suggestion hpu h b = is_block_suggestion pu b';
  same_is_dialog_suggestion : forall b b', represents h b b' ->
    Heap.is_dialog_suggestion hpu h b = is_dialog_suggestion pu b';
  same_is_shortcut : forall b b', represents h b b' ->
    Heap.is_shortcut hpu h b = is_shortcut pu b';
  same_to_action : forall b b', represents h b b' ->
    same_outcome (represents h) h (Heap.to_action hpu h b) (to_action pu b');
  same_is_workflow_step_save : forall b b', represents h b b' ->
    Heap.is_workflow_step_save hpu h b = is_workflow_step_save pu b';
}.

(** A matcher over the store answers as a matcher over values does, on
    every payload the store represents. *)
Definition same_matcher (h : Heap.heap) (m : Heap.listener_matcher)
    (m' : listener_matcher) : Prop :=
  forall b req resp,
    represents h b (body req) ->
    refines (represents h) h (Heap.run_matcher m b) (run_matcher m' req resp).

End Refinement.

(* ===================================================================== *)
(** ** Facts about patterns *)
(* ===================================================================== *)

Module ReFacts.
Import Re.

#[local] Arguments String.append !_ _ / : simpl nomatch.

Lemma append_empty_inv (s1 s2 : string) :
  s1 +:+ s2 = "" -> s1 = "" /\ s2 = "".
Proof. destruct s1; simpl; [tauto | discriminate]. Qed.

Lemma lang_empty_nullable (r : regex) (s : string) :
  lang r s -> s = "" -> nullable r = true.
Proof.
  induction 1 as [ | | | r1 r2 s1 s2 _ IH1 _ IH2 | r1 r2 s _ IH
                   | r1 r2 s _ IH | | ]; intros E; simpl; try easy.
  - apply append_empty_inv in E as [-> ->]. now rewrite IH1, IH2.
  - now rewrite IH.
  - rewrite IH by assumption. apply orb_true_r.
Qed.

Lemma nullable_lang_empty (r : regex) : nullable r = true -> lang r "".
Proof.
  induction r as [ | | | | r1 IH1 r2 IH2 | r1 IH1 r2 IH2 | ]; simpl; intros N;
    try discriminate.
  - constructor.
  - apply andb_true_iff in N as [N1 N2].
    change (lang (Cat r1 r2) ("" +:+ "")). constructor; auto.
  - apply orb_true_iff in N as [N | N]; [apply L_alt_l | apply L_alt_r]; auto.
  - constructor.
Qed.

Lemma nullable_spec (r : regex) : nullable r = true <-> lang r "".
Proof.
  split; [apply nullable_lang_empty | intros L; now apply (lang_empty_nullable r "")].
Qed.

Lemma lang_cat_cons (a : ascii) (r1 r2 : regex) (s1 s2 : string) :
  lang r1 (String a s1) -> lang r2 s2 -> lang (Cat r1 r2) (String a (s1 +:+ s2)).
Proof. intros L1 L2. change (lang (Cat r1 r2) (String a s1 +:+ s2)). now constructor. Qed.

Lemma deriv_sound (a : ascii) (r : regex) :
  forall s, lang (deriv a r) s -> lang r (String a s).
Proof.
  induction r as [ | | b | | r1 IH1 r2 IH2 | r1 IH1 r2 IH2 | r1 IH1 ];
    simpl; intros s L.
  - inversion L.
  - inversion L.
  - destruct (Ascii.eqb_spec a b) as [-> | _]; inversion L; constructor.
  - inversion L; constructor.
  - destruct (nullable r1) eqn:N.
    + inversion L as [ | | | | ? ? ? L' | ? ? ? L' | | ]; subst.
      * inversion L' as [ | | | ? ? s1 s2 L1 L2 | | | | ]; subst.
        apply lang_cat_cons; auto.
      * change (lang (Cat r1 r2) ("" +:+ String a s)).
        constructor; [now apply nullable_lang_empty | auto].
    + inversion L as [ | | | ? ? s1 s2 L1 L2 | | | | ]; subst.
      apply lang_cat_cons; auto.
  - inversion L; subst; [apply L_alt_l | apply L_alt_r]; auto.
  - inversion L as [ | | | ? ? s1 s2 L1 L2 | | | | ]; subst.
    change (lang (Star r1) (String a s1 +:+ s2)). constructor; auto.
Qed.

Lemma deriv_complete (r : regex) (w : string) :
  lang r w -> forall a s, w = String a s -> lang (deriv a r) s.
Proof.
  induction 1 as [ | b | b | r1 r2 s1 s2 L1 IH1 L2 IH2 | r1 r2 w L IH
                   | r1 r2 w L IH | | r1 b s1 s2 L1 IH1 L2 IH2 ];
    intros a s E; simpl.
  - discriminate.
  - injection E as <- <-. rewrite Ascii.eqb_refl. constructor.
  - injection E as <- <-. constructor.
  - destruct s1 as [|c s1'].
    + simpl in E. rewrite (lang_empty_nullable r1 "" L1 eq_refl).
      apply L_alt_r. now apply IH2.
    + simpl in E. injection E as -> <-.
      assert (lang (Cat (deriv a r1) r2) (s1' +:+ s2)) as LC
        by (constructor; [now apply IH1 | assumption]).
      destruct (nullable r1); [now apply L_alt_l | assumption].
  - apply L_alt_l. now apply IH.
  - apply L_alt_r. now apply IH.
  - discriminate.
  - simpl in E. injection E as -> <-.
    constructor; [now apply IH1 | assumption].
Qed.

Lemma deriv_spec (a : ascii) (r : regex) (s : string) :
  lang (deriv a r) s <-> lang r (String a s).
Proof.
  split; [apply deriv_sound | intros L; now apply (deriv_complete r (String a s))].
Qed.

(** [fullmatch] decides membership of the whole string. *)
Lemma fullmatch_spec (s : string) :
  forall r, fullmatch r s = true <-> lang r s.
Proof.
  induction s as [|a s IH]; intros r; simpl.
  - apply nullable_spec.
  - rewrite IH. apply deriv_spec.
Qed.

(** [match_here] finds a member of the language at the start. *)
Lemma match_here_spec (s : string) :
  forall r, match_here r s = true <->
            exists m post, s = m +:+ post /\ lang r m.
Proof.
  induction s as [|a s IH]; intros r; simpl.
  - rewrite orb_false_r, nullable_spec. split.
    + intros L. now exists "", "".
    + intros (m & post & E & L). symmetry in E.
      apply append_empty_inv in E as [-> _]. assumption.
  - rewrite orb_true_iff, nullable_spec, IH. split.
    + intros [L | (m & post & -> & L)].
      * now exists "", (String a s).
      * exists (String a m), post. split; [reflexivity | now apply deriv_spec].
    + intros (m & post & E & L). destruct m as [|b m].
      * now left.
      * simpl in E. injection E as -> ->. right.
        exists m, post. split; [reflexivity | now apply deriv_spec].
Qed.

Lemma search_from_unfold (i : nat) (r : regex) (s : string) :
  search_from i r s =
  if match_here r s then Some i
  else match s with
       | EmptyString => None
       | String _ s' => search_from (S i) r s'
       end.
Proof. destruct s; reflexivity. Qed.

Lemma search_from_spec (s : string) :
  forall i r, is_Some (search_from i r s) <->
              exists pre m post, s = pre +:+ (m +:+ post) /\ lang r m.
Proof.
  induction s as [|a s IH]; intros i r; rewrite search_from_unfold.
  - destruct (match_here r "") eqn:M.
    + split; [intros _ | now eexists].
      apply match_here_spec in M as (m & post & E & L). now exists "", m, post.
    + split; [intros [? ?]; discriminate |].
      intros (pre & m & post & E & L). exfalso.
      symmetry in E. apply append_empty_inv in E as [-> E].
      assert (match_here r "" = true) as M'
        by (apply match_here_spec; exists m, post; split; [now symmetry | assumption]).
      congruence.
  - destruct (match_here r (String a s)) eqn:M.
    + split; [intros _ | now eexists].
      apply match_here_spec in M as (m & post & E & L). now exists "", m, post.
    + rewrite IH. split.
      * intros (pre & m & post & -> & L). now exists (String a pre), m, post.
      * intros (pre & m & post & E & L). destruct pre as [|b pre].
        -- exfalso. simpl in E.
           assert (match_here r (String a s) = true) as M'
             by (apply match_here_spec; now exists m, post).
           congruence.
        -- simpl in E. injection E as -> ->. now exists pre, m, post.
Qed.

(** [pattern.search(s)] is not [None] exactly when some substring of [s]
    is in the language of the pattern. *)
Lemma search_spec (r : regex) (s : string) :
  is_Some (search r s) <->
  exists pre m post, s = pre +:+ (m +:+ post) /\ lang r m.
Proof. apply search_from_spec. Qed.

(** The literal pattern denotes its string. *)
Lemma lang_lit (s : string) : lang (lit s) s.
Proof.
  induction s as [|a s IH]; simpl; [constructor |].
  change (lang (Cat (Chr a) (lit s)) (String a "" +:+ s)).
  constructor; [constructor | assumption].
Qed.

End ReFacts.

(* ===================================================================== *)
(** ** Facts about the Python operations *)
(* ===================================================================== *)

Lemma py_eq_str_true (v : value) (s : string) :
  py_eq_str v s = true <-> v = VStr s.
Proof.
  destruct v; simpl; try (split; [discriminate | intros [=]]).
  rewrite String.eqb_eq. split; [intros -> | intros [=]]; congruence.
Qed.

Lemma py_getitem_ok (v : value) (key : string) (x : value) :
  py_getitem v key = Ok x <-> exists d, v = VDict d /\ d !! key = Some x.
Proof.
  split.
  - destruct v as [ | | | | | | d]; simpl; try discriminate.
    destruct (d !! key) as [y|] eqn:E; [intros [= ->] | discriminate].
    now exists d.
  - intros (d & -> & E). simpl. now rewrite E.
Qed.

Lemma py_getitem_dict (d : gmap string value) (key : string) :
  py_getitem (VDict d) key =
  match d !! key with Some x => Ok x | None => Raise (KeyError key) end.
Proof. reflexivity. Qed.

Lemma py_in_dict (d : gmap string value) (key : string) :
  py_in key (VDict d) = Ok (bool_decide (is_Some (d !! key))).
Proof. reflexivity. Qed.

(** A string constraint never raises: the outcome is the comparison. *)
Lemma matches_str (c : string) (input : value) :
  _matches (VStr c) input = Ok (py_eq_str input c).
Proof. now destruct input. Qed.

Lemma matches_str_true (c : string) (input : value) :
  _matches (VStr c) input = Ok true <-> input = VStr c.
Proof.
  rewrite matches_str, <- py_eq_str_true.
  split; [intros [=] | intros ->]; congruence.
Qed.

(** A predicate built by [build_listener_matcher] is run on the payload of
    the request, whichever form the matcher has. *)
Lemma run_build (func : value -> result value) (asyncio : bool)
    (req : BoltRequest) (resp : BoltResponse) :
  run_matcher (build_listener_matcher func asyncio) req resp = func (body req).
Proof. destruct asyncio; reflexivity. Qed.

(** [kind and _matches(c, body[key])] is [True] exactly when the kind check
    holds and the field matches. *)
Lemma kind_check_true (kind : bool) (c body : value) (key : string) :
  py_and (Ok (VBool kind))
         (x <- py_getitem body key ;; pybool (_matches c x)) = Ok (VBool true)
  <-> kind = true /\
      exists x, py_getitem body key = Ok x /\ _matches c x = Ok true.
Proof.
  destruct kind; simpl.
  - split.
    + destruct (py_getitem body key) as [x|e]; simpl; [| discriminate].
      destruct (_matches c x) as [[|]|e] eqn:M; simpl; try discriminate.
      intros _. split; [reflexivity | now exists x].
    + intros (_ & x & -> & M). simpl. now rewrite M.
  - split; [discriminate | intros [[=] _]].
Qed.

Lemma kind_check_false (c body : value) (key : string) :
  py_and (Ok (VBool false))
         (x <- py_getitem body key ;; pybool (_matches c x)) = Ok (VBool false).
Proof. reflexivity. Qed.

Lemma py_or_false_l (b : result value) : py_or (Ok (VBool false)) b = b.
Proof. reflexivity. Qed.

Lemma py_or_false_r (a : result value) :
  py_or a (Ok (VBool false)) = Ok (VBool true) <-> a = Ok (VBool true).
Proof.
  destruct a as [x|e]; simpl; [| split; discriminate].
  destruct (truthy x) eqn:T; [tauto |].
  split; [discriminate | intros [= ->]; discriminate].
Qed.

(* ===================================================================== *)
(** ** The pattern-match primitive *)
(* ===================================================================== *)

(** C1.  [_matches(c, s)] is [False] when [c] is [None] or [s] is [None];
    for a string [c] it is [True] exactly when [s] equals [c]; for a
    compiled pattern [c] and a string [s] it is [True] exactly when some
    substring of [s] is in the language of the pattern (a search, not a
    full match: the literal pattern [b] is found in [abc], which it does
    not match as a whole). *)
Theorem matches_contract :
  (forall input, _matches VNone input = Ok false) /\
  (forall c, _matches c VNone = Ok false) /\
  (forall (c : string) (input : value),
     exists b, _matches (VStr c) input = Ok b /\ (b = true <-> input = VStr c)) /\
  (forall (p : Re.regex) (s : string),
     exists b, _matches (VPattern p) (VStr s) = Ok b /\
       (b = true <->
        exists pre m post, s = pre +:+ (m +:+ post) /\ Re.lang p m)) /\
  (_matches (VPattern (Re.lit "b")) (VStr "abc") = Ok true /\
   Re.fullmatch (Re.lit "b") "abc" = false).
Proof.
  split; [reflexivity |].
  split; [intros c; destruct c; reflexivity |].
  split; [| split; [| split; reflexivity]].
  - intros c input. exists (py_eq_str input c).
    split; [apply matches_str | apply py_eq_str_true].
  - intros p s. exists (bool_decide (is_Some (Re.search p s))).
    split; [reflexivity |].
    rewrite bool_decide_eq_true. apply ReFacts.search_spec.
Qed.

(* ===================================================================== *)
(** ** The adapter *)
(* ===================================================================== *)

(** For a predicate [func] over the payload alone, the asynchronous
    matcher that [build_listener_matcher] makes gives, once awaited, the
    outcome the synchronous matcher gives: the same boolean, or the same
    exception when [func] raises. *)
Lemma build_listener_matcher_on_payload
    (func : value -> result value) (req : BoltRequest) (resp : BoltResponse) :
  run_matcher (build_listener_matcher func true) req resp =
  run_matcher (build_listener_matcher func false) req resp
  /\ (exists async_fun,
        build_listener_matcher func true = AsyncBuiltinListenerMatcher async_fun /\
        await (async_matches async_fun req resp) = func (body req))
  /\ (build_listener_matcher func false = BuiltinListenerMatcher func /\
      matches func req resp = func (body req)).
Proof.
  split; [now rewrite !run_build |].
  split; [eexists; split; reflexivity | split; reflexivity].
Qed.

(* ===================================================================== *)
(** ** Events *)
(* ===================================================================== *)

(** The event matcher for a mapping constraint, once the kind check has
    passed and the event mapping carries a type. *)
Lemma event_mapping_run pu (d : gmap string value) asyncio req resp :
  is_Some (d !! "type") ->
  exists m, event pu (VDict d) asyncio = Ok m /\
    run_matcher m req resp =
    if is_event pu (body req) then
      ev <- py_getitem (body req) "event" ;;
      expected_type <- py_getitem (VDict d) "type" ;;
      ty <- py_getitem ev "type" ;;
      type_matched <- _matches expected_type ty ;;
      if negb type_matched then Ok (VBool false)
      else
        match d !! "subtype" with
        | None => Ok (VBool true)
        | Some VNone => carried <- py_in "subtype" ev ;; Ok (VBool (negb carried))
        | Some expected_subtype =>
            py_and (pybool (py_in "subtype" ev))
                   (subtype <- py_getitem ev "subtype" ;;
                    pybool (_matches expected_subtype subtype))
        end
    else Ok (VBool false).
Proof.
  intros T. unfold event. cbn [is_str_or_pattern]. rewrite py_in_dict.
  rewrite (bool_decide_eq_true_2 _ T). cbn [bind].
  eexists. split; [reflexivity |]. rewrite run_build.
  destruct (is_event pu (body req)); [| reflexivity].
  destruct (py_getitem (body req) "event") as [ev|e]; [| reflexivity].
  cbn [bind]. destruct (py_getitem (VDict d) "type") as [et|e]; [| reflexivity].
  cbn [bind]. destruct (py_getitem ev "type") as [ty|e]; [| reflexivity].
  cbn [bind]. destruct (_matches et ty) as [[|]|e]; try reflexivity.
  cbn [bind negb]. rewrite py_in_dict, py_getitem_dict.
  destruct (d !! "subtype") as [x|] eqn:S.
  - rewrite bool_decide_eq_true_2 by eauto. cbn [bind]. now destruct x.
  - rewrite bool_decide_eq_false_2 by (intros [? ?]; discriminate). reflexivity.
Qed.

(** C3.  With the constraint [{type: "message", subtype: None}] the built
    predicate matches exactly the event payloads whose event has type
    ["message"] and carries no ["subtype"] key, and answers [False] on an
    event that carries any subtype; with [{type: "message", subtype:
    "message_deleted"}] it matches exactly the event payloads whose event
    has type ["message"] and subtype ["message_deleted"], and answers
    [False] on an event with another subtype or with none. *)
Theorem event_subtype_rule pu asyncio req resp :
  exists m1 m2,
    event pu Slack.message_without_subtype asyncio = Ok m1 /\
    event pu Slack.message_deleted asyncio = Ok m2 /\
    (run_matcher m1 req resp = Ok (VBool true) <->
       is_event pu (body req) = true /\
       exists ev, py_getitem (body req) "event" = Ok (VDict ev) /\
                  ev !! "type" = Some (VStr "message") /\
                  ev !! "subtype" = None) /\
    (run_matcher m2 req resp = Ok (VBool true) <->
       is_event pu (body req) = true /\
       exists ev, py_getitem (body req) "event" = Ok (VDict ev) /\
                  ev !! "type" = Some (VStr "message") /\
                  ev !! "subtype" = Some (VStr "message_deleted")) /\
    (forall ev ty,
       is_event pu (body req) = true ->
       py_getitem (body req) "event" = Ok (VDict ev) ->
       ev !! "type" = Some ty ->
       (is_Some (ev !! "subtype") -> run_matcher m1 req resp = Ok (VBool false)) /\
       (ev !! "subtype" <> Some (VStr "message_deleted") ->
        run_matcher m2 req resp = Ok (VBool false))).
Proof.
  destruct (event_mapping_run pu (list_to_map [ ("type", VStr "message"); ("subtype", VNone) ]) asyncio req resp) as (m1 & B1 & R1); [now eexists |].
  destruct (event_mapping_run pu (list_to_map [ ("type", VStr "message"); ("subtype", VStr "message_deleted") ]) asyncio req resp) as (m2 & B2 & R2); [now eexists |].
  exists m1, m2. split; [exact B1 |]. split; [exact B2 |].
  rewrite R1, R2. clear.
  change (py_getitem (VDict (list_to_map [("type", VStr "message"); ("subtype", VNone)])) "type") with (Ok (VStr "message")).
  change (py_getitem (VDict (list_to_map [("type", VStr "message"); ("subtype", VStr "message_deleted")])) "type") with (Ok (VStr "message")).
  change ((list_to_map [("type", VStr "message"); ("subtype", VNone)] : gmap string value) !! "subtype") with (Some VNone).
  change ((list_to_map [("type", VStr "message"); ("subtype", VStr "message_deleted")] : gmap string value) !! "subtype") with (Some (VStr "message_deleted")).
  cbn [bind].
  destruct (is_event pu (body req)).
  2:{ split; [| split]; try (split; [discriminate | intros [[=] _]]).
      intros ev ty [=]. }
  destruct (py_getitem (body req) "event") as [e|x] eqn:Ge; cbn [bind].
  2:{ split; [| split]; try (split; [discriminate | intros (_ & ev & [=] & _)]).
      intros ev ty _ [=]. }
  destruct (decide (is_dict e = true)) as [D | D].
  2:{ assert (py_getitem e "type" = Raise TypeError) as -> by (destruct e; simpl in *; congruence).
      cbn [bind].
      split; [| split]; try (split; [discriminate | intros (_ & ev & [= ->] & _); now destruct D]).
      intros ev ty _ [= ->]. now destruct D. }
  destruct e as [ | | | | | | ev]; try discriminate. clear D.
  rewrite py_getitem_dict, !py_in_dict.
  destruct (ev !! "type") as [ty|] eqn:T; cbn [bind].
  2:{ split; [| split]; try (split; [discriminate | intros (_ & ev' & [= <-] & T' & _); congruence]).
      intros ev' ty' _ [= <-]. congruence. }
  rewrite matches_str. cbn [bind].
  destruct (py_eq_str ty "message") eqn:M; cbn [negb].
  2:{ split; [| split]; try (split; [discriminate | intros (_ & ev' & [= <-] & T' & _)]).
      1,2: rewrite T in T'; injection T' as ->; discriminate.
      intros ev' ty' _ [= <-] _. split; reflexivity. }
  apply py_eq_str_true in M as ->.
  unfold py_and, pybool. cbn [bind truthy]. rewrite py_getitem_dict.
  destruct (ev !! "subtype") as [st|] eqn:S.
  - rewrite bool_decide_eq_true_2 by eauto. cbn [bind negb]. rewrite matches_str.
    cbn [bind]. split; [| split].
    + split; [discriminate | intros (_ & ev' & [= <-] & _ & S'); congruence].
    + split.
      * intros [= E]. apply py_eq_str_true in E as ->. split; [reflexivity | now exists ev].
      * intros (_ & ev' & [= <-] & _ & S'). rewrite S in S'. now injection S' as ->.
    + intros ev' ty' _ [= <-] _. split; [reflexivity |].
      intros N. destruct (py_eq_str st "message_deleted") eqn:E; [| reflexivity].
      apply py_eq_str_true in E as ->. now destruct N.
  - rewrite bool_decide_eq_false_2 by (intros [? ?]; discriminate). cbn [bind negb].
    split; [| split].
    + split; [intros _; split; [reflexivity | now exists ev] | reflexivity].
    + split; [discriminate | intros (_ & ev' & [= <-] & _ & S'); congruence].
    + intros ev' ty' _ [= <-] _. split; [intros [? ?]; congruence | reflexivity].
Qed.


Example event_subtype_none_on_plain_message :
  bind (event Slack.payload_utils Slack.message_without_subtype false)
       (fun m => run_matcher m (Slack.request Slack.message_event) Slack.response)
  = Ok (VBool true).
Proof. reflexivity. Qed.

Example event_subtype_none_on_deleted_message :
  bind (event Slack.payload_utils Slack.message_without_subtype false)
       (fun m => run_matcher m (Slack.request Slack.message_deleted_event) Slack.response)
  = Ok (VBool false).
Proof. reflexivity. Qed.

Example event_subtype_deleted_on_deleted_message :
  bind (event Slack.payload_utils Slack.message_deleted true)
       (fun m => run_matcher m (Slack.request Slack.message_deleted_event) Slack.response)
  = Ok (VBool true).
Proof. reflexivity. Qed.

Example event_subtype_deleted_on_changed_message :
  bind (event Slack.payload_utils Slack.message_deleted true)
       (fun m => run_matcher m (Slack.request Slack.message_changed_event) Slack.response)
  = Ok (VBool false).
Proof. reflexivity. Qed.

Example event_subtype_deleted_on_plain_message :
  bind (event Slack.payload_utils Slack.message_deleted true)
       (fun m => run_matcher m (Slack.request Slack.message_event) Slack.response)
  = Ok (VBool false).
Proof. reflexivity. Qed.

(** C2.  A workflow-step payload that classifies as an event, whose event
    has the type ["workflow_step_execute"] and a ["workflow_step"] entry
    but no ["callback_id"], makes the predicate built by
    [workflow_step_execute] raise [KeyError]: the field is read by
    subscript after the presence of ["workflow_step"] alone was tested. *)
Theorem workflow_step_execute_missing_callback_id
    (pu : payload_utils) (callback_id : value) (asyncio : bool)
    (req : BoltRequest) (resp : BoltResponse) (ev : gmap string value) :
  is_event pu (body req) = true ->
  py_getitem (body req) "event" = Ok (VDict ev) ->
  ev !! "type" = Some (VStr "workflow_step_execute") ->
  is_Some (ev !! "workflow_step") ->
  ev !! "callback_id" = None ->
  run_matcher (workflow_step_execute pu callback_id asyncio) req resp
  = Raise (KeyError "callback_id").
Proof.
  intros E G T W C. unfold workflow_step_execute. rewrite run_build.
  rewrite E, G. unfold py_and, pybool. cbn [bind truthy].
  rewrite py_getitem_dict, T. cbn [bind]. rewrite py_in_dict.
  rewrite (bool_decide_eq_true_2 _ W). cbn [bind truthy].
  rewrite matches_str. cbn [bind py_eq_str]. rewrite String.eqb_refl.
  cbn [truthy]. now rewrite py_getitem_dict, C.
Qed.

Lemma workflow_step_execute_missing_callback_id_witness :
  run_matcher
    (workflow_step_execute Slack.payload_utils (VStr "copy_review") false)
    (Slack.request Slack.step_event_without_callback_id) Slack.response
  = Raise (KeyError "callback_id").
Proof.
  apply (workflow_step_execute_missing_callback_id
           Slack.payload_utils (VStr "copy_review") false
           (Slack.request Slack.step_event_without_callback_id) Slack.response
           (list_to_map [ ("type", VStr "workflow_step_execute");
                          ("workflow_step", Slack.dict []) ])).
  - reflexivity.
  - reflexivity.
  - reflexivity.
  - vm_compute. eexists. reflexivity.
  - reflexivity.
Defined.

(* ===================================================================== *)
(** ** Actions *)
(* ===================================================================== *)

Lemma block_action_not_block_actions (pu : payload_utils) (c b : value) :
  is_block_actions pu b = false -> _block_action pu c b = Ok (VBool false).
Proof. intros E. unfold _block_action. now rewrite E. Qed.

(** [_block_action] with a string or pattern constraint. *)
Lemma block_action_literal_true (pu : payload_utils) (c b : value) :
  is_str_or_pattern c = true ->
  _block_action pu c b = Ok (VBool true) <->
  is_block_actions pu b = true /\
  exists a aid, to_action pu b = Ok a /\
                py_getitem a "action_id" = Ok aid /\ _matches c aid = Ok true.
Proof.
  intros L. unfold _block_action. rewrite L.
  destruct (is_block_actions pu b); cbn [negb];
    [| split; [discriminate | intros [[=] _]]].
  destruct (to_action pu b) as [a|e]; cbn [bind];
    [| split; [discriminate | intros (_ & a' & aid' & [=] & _)]].
  destruct (py_getitem a "action_id") as [aid|e] eqn:G; cbn [bind].
  2:{ split; [discriminate | intros (_ & a' & aid' & [= <-] & G' & _); congruence]. }
  unfold pybool. destruct (_matches c aid) as [[|]|e] eqn:M; cbn [bind].
  - split; [intros _ | reflexivity]. split; [reflexivity | now exists a, aid].
  - split; [discriminate | intros (_ & a' & aid' & [= <-] & G' & M'); congruence].
  - split; [discriminate | intros (_ & a' & aid' & [= <-] & G' & M'); congruence].
Qed.

(** C4.  For a string or compiled-pattern constraint [c], and a payload on
    which the five kind checks are mutually exclusive, the predicate built
    by the generic [action] builder is [True] exactly when one of the five
    underlying checks succeeds: block_actions with the action's
    [action_id] matching [c], or interactive_message, dialog_submission,
    dialog_cancellation or workflow_step_edit with [callback_id] matching
    [c]. *)
Theorem action_generic_is_or_of_five
    (pu : payload_utils) (c : value) (asyncio : bool)
    (req : BoltRequest) (resp : BoltResponse) :
  is_str_or_pattern c = true ->
  at_most_one (action_kinds pu (body req)) = true ->
  exists m, action pu c asyncio = Ok m /\
    (run_matcher m req resp = Ok (VBool true) <->
       (is_block_actions pu (body req) = true /\
        exists a aid, to_action pu (body req) = Ok a /\
                      py_getitem a "action_id" = Ok aid /\
                      _matches c aid = Ok true)
       \/ (is_attachment_action pu (body req) = true /\
           exists cb, py_getitem (body req) "callback_id" = Ok cb /\
                      _matches c cb = Ok true)
       \/ (is_dialog_submission pu (body req) = true /\
           exists cb, py_getitem (body req) "callback_id" = Ok cb /\
                      _matches c cb = Ok true)
       \/ (is_dialog_cancellation pu (body req) = true /\
           exists cb, py_getitem (body req) "callback_id" = Ok cb /\
                      _matches c cb = Ok true)
       \/ (is_workflow_step_edit pu (body req) = true /\
           exists cb, py_getitem (body req) "callback_id" = Ok cb /\
                      _matches c cb = Ok true)).
Proof.
  intros L X. unfold action. rewrite L.
  eexists. split; [reflexivity |]. rewrite run_build.
  rewrite <- (block_action_literal_true pu c (body req) L).
  unfold _attachment_action, _dialog_submission, _dialog_cancellation,
    _workflow_step_edit.
  rewrite <- !kind_check_true.
  unfold at_most_one, action_kinds in X. cbn [List.filter] in X.
  destruct (is_block_actions pu (body req)) eqn:K1;
    [| rewrite (block_action_not_block_actions pu c (body req) K1)];
    destruct (is_attachment_action pu (body req));
    destruct (is_dialog_submission pu (body req));
    destruct (is_dialog_cancellation pu (body req));
    destruct (is_workflow_step_edit pu (body req));
    try discriminate X; clear X;
    rewrite ?kind_check_false, ?py_or_false_l, ?py_or_false_r;
    intuition discriminate.
Qed.

Lemma action_generic_is_or_of_five_witness :
  exists m, action Slack.payload_utils (VStr "a") false = Ok m /\
    (run_matcher m (Slack.request (Slack.button_click "a" "b")) Slack.response
       = Ok (VBool true) <->
       (is_block_actions Slack.payload_utils (Slack.button_click "a" "b") = true /\
        exists a aid, to_action Slack.payload_utils (Slack.button_click "a" "b") = Ok a /\
                      py_getitem a "action_id" = Ok aid /\
                      _matches (VStr "a") aid = Ok true)
       \/ (is_attachment_action Slack.payload_utils (Slack.button_click "a" "b") = true /\
           exists cb, py_getitem (Slack.button_click "a" "b") "callback_id" = Ok cb /\
                      _matches (VStr "a") cb = Ok true)
       \/ (is_dialog_submission Slack.payload_utils (Slack.button_click "a" "b") = true /\
           exists cb, py_getitem (Slack.button_click "a" "b") "callback_id" = Ok cb /\
                      _matches (VStr "a") cb = Ok true)
       \/ (is_dialog_cancellation Slack.payload_utils (Slack.button_click "a" "b") = true /\
           exists cb, py_getitem (Slack.button_click "a" "b") "callback_id" = Ok cb /\
                      _matches (VStr "a") cb = Ok true)
       \/ (is_workflow_step_edit Slack.payload_utils (Slack.button_click "a" "b") = true /\
           exists cb, py_getitem (Slack.button_click "a" "b") "callback_id" = Ok cb /\
                      _matches (VStr "a") cb = Ok true)).
Proof.
  apply (action_generic_is_or_of_five Slack.payload_utils (VStr "a") false
           (Slack.request (Slack.button_click "a" "b")) Slack.response).
  - reflexivity.
  - reflexivity.
Defined.

Example action_literal_on_block_actions :
  bind (action Slack.payload_utils (VStr "a") false)
       (fun m => run_matcher m (Slack.request (Slack.button_click "a" "b")) Slack.response)
  = Ok (VBool true).
Proof. reflexivity. Qed.

Example action_literal_on_dialog_submission :
  bind (action Slack.payload_utils (VStr "a") false)
       (fun m => run_matcher m
                   (Slack.request (Slack.with_callback_id "dialog_submission" "a"))
                   Slack.response)
  = Ok (VBool true).
Proof. reflexivity. Qed.

Example action_literal_on_workflow_step_edit :
  bind (action Slack.payload_utils (VStr "a") true)
       (fun m => run_matcher m
                   (Slack.request (Slack.with_callback_id "workflow_step_edit" "a"))
                   Slack.response)
  = Ok (VBool true).
Proof. reflexivity. Qed.

Example action_literal_on_other_callback_id :
  bind (action Slack.payload_utils (VStr "a") true)
       (fun m => run_matcher m
                   (Slack.request (Slack.with_callback_id "workflow_step_edit" "b"))
                   Slack.response)
  = Ok (VBool false).
Proof. reflexivity. Qed.

Lemma py_get_dict (d : gmap string value) (key : string) :
  py_get (VDict d) key = Ok (default VNone (d !! key)).
Proof. reflexivity. Qed.

(** Run the next steps of a predicate whose operands are known. *)
Ltac py_steps :=
  repeat first
    [ rewrite py_get_dict
    | rewrite py_getitem_dict
    | rewrite py_in_dict
    | rewrite matches_str
    | progress cbn [bind is_none negb andb default truthy] ].

(** What [_block_action] requires of the payload whatever mapping it is
    given: the kind, and the [action_id] match. *)
Lemma block_action_mapping_requires (pu : payload_utils)
    (d : gmap string value) (b : value) :
  _block_action pu (VDict d) b = Ok (VBool true) ->
  is_block_actions pu b = true /\
  exists act expected aid,
    to_action pu b = Ok act /\ d !! "action_id" = Some expected /\
    py_getitem act "action_id" = Ok aid /\ _matches expected aid = Ok true.
Proof.
  unfold _block_action. cbn [is_str_or_pattern is_dict].
  destruct (is_block_actions pu b); cbn [negb]; [| discriminate].
  destruct (to_action pu b) as [act|e]; cbn [bind]; [| discriminate].
  rewrite py_get_dict, py_getitem_dict. cbn [bind].
  destruct (if is_none (default VNone (d !! "block_id")) then Ok true
            else bid <- py_get act "block_id" ;;
                 _matches (default VNone (d !! "block_id")) bid)
    as [bm|e]; cbn [bind]; [| discriminate].
  destruct (d !! "action_id") as [expected|]; cbn [bind]; [| discriminate].
  destruct (py_getitem act "action_id") as [aid|e] eqn:G; cbn [bind]; [| discriminate].
  destruct (_matches expected aid) as [am|e] eqn:M; cbn [bind]; [| discriminate].
  intros [= E]. apply andb_true_iff in E as [_ ->].
  split; [reflexivity |]. now exists act, expected, aid.
Qed.

(** C5.  With the constraint [{action_id: a, block_id: b}] the block-action
    matcher matches exactly the block_actions payloads whose action entry
    has [action_id] [a] and [block_id] [b], and answers [False] when the
    entry has [action_id] [a] but another [block_id] or none; with the
    constraint [{action_id: a}] it matches exactly the block_actions
    payloads whose entry has [action_id] [a], whatever its [block_id].
    Whatever the mapping, a match requires the payload to classify as
    block_actions and the [action_id] to match.  The generic [action]
    builder hands both constraints to [block_action]. *)
Theorem block_action_block_id_rule
    (pu : payload_utils) (a b : string) (asyncio : bool)
    (req : BoltRequest) (resp : BoltResponse) :
  (run_matcher (block_action pu (Slack.action_and_block a b) asyncio) req resp
     = Ok (VBool true) <->
   is_block_actions pu (body req) = true /\
   exists act, to_action pu (body req) = Ok (VDict act) /\
               act !! "action_id" = Some (VStr a) /\
               act !! "block_id" = Some (VStr b)) /\
  (forall act,
     is_block_actions pu (body req) = true ->
     to_action pu (body req) = Ok (VDict act) ->
     act !! "action_id" = Some (VStr a) ->
     act !! "block_id" <> Some (VStr b) ->
     run_matcher (block_action pu (Slack.action_and_block a b) asyncio) req resp
       = Ok (VBool false)) /\
  (run_matcher (block_action pu (Slack.action_only a) asyncio) req resp
     = Ok (VBool true) <->
   is_block_actions pu (body req) = true /\
   exists act, to_action pu (body req) = Ok (VDict act) /\
               act !! "action_id" = Some (VStr a)) /\
  (forall d,
     run_matcher (block_action pu (VDict d) asyncio) req resp = Ok (VBool true) ->
     is_block_actions pu (body req) = true /\
     exists act expected aid,
       to_action pu (body req) = Ok act /\ d !! "action_id" = Some expected /\
       py_getitem act "action_id" = Ok aid /\ _matches expected aid = Ok true) /\
  action pu (Slack.action_and_block a b) asyncio
    = Ok (block_action pu (Slack.action_and_block a b) asyncio) /\
  action pu (Slack.action_only a) asyncio
    = Ok (block_action pu (Slack.action_only a) asyncio).
Proof.
  unfold block_action. rewrite !run_build.
  split; [| split; [| split; [| split; [| split; reflexivity]]]].
  - unfold _block_action.
    change (is_str_or_pattern (Slack.action_and_block a b)) with false.
    change (is_dict (Slack.action_and_block a b)) with true.
    change (py_get (Slack.action_and_block a b) "block_id") with (Ok (VStr b)).
    change (py_getitem (Slack.action_and_block a b) "action_id") with (Ok (VStr a)).
    cbn [bind is_none].
    destruct (is_block_actions pu (body req)); cbn [negb];
      [| split; [discriminate | intros [[=] _]]].
    destruct (to_action pu (body req)) as [act|e]; cbn [bind];
      [| split; [discriminate | intros (_ & act' & [=] & _)]].
    destruct act as [ | | | | | | act];
      try (split; [discriminate | intros (_ & act' & [=] & _)]).
    py_steps. split.
    + destruct (act !! "action_id") as [aid|] eqn:A; py_steps; [| discriminate].
      intros [= E]. apply andb_true_iff in E as [E1 E2].
      apply py_eq_str_true in E1, E2. subst aid.
      split; [reflexivity |]. exists act. split; [reflexivity |].
      split; [exact A |].
      destruct (act !! "block_id") as [bid|]; simpl in E1; [| discriminate].
      now subst bid.
    + intros (_ & act' & [= <-] & A & B). rewrite A, B. py_steps.
      unfold id. cbn [py_eq_str]. now rewrite !String.eqb_refl.
  - intros act K T A B. unfold _block_action. rewrite K, T.
    change (is_str_or_pattern (Slack.action_and_block a b)) with false.
    change (is_dict (Slack.action_and_block a b)) with true.
    change (py_get (Slack.action_and_block a b) "block_id") with (Ok (VStr b)).
    change (py_getitem (Slack.action_and_block a b) "action_id") with (Ok (VStr a)).
    py_steps. rewrite A. py_steps.
    destruct (py_eq_str (default VNone (act !! "block_id")) b) eqn:E; [| reflexivity].
    apply py_eq_str_true in E.
    destruct (act !! "block_id") as [bid|]; simpl in E; [| discriminate].
    now subst bid.
  - unfold _block_action.
    change (is_str_or_pattern (Slack.action_only a)) with false.
    change (is_dict (Slack.action_only a)) with true.
    change (py_get (Slack.action_only a) "block_id") with (Ok VNone).
    change (py_getitem (Slack.action_only a) "action_id") with (Ok (VStr a)).
    cbn [bind is_none].
    destruct (is_block_actions pu (body req)); cbn [negb];
      [| split; [discriminate | intros [[=] _]]].
    destruct (to_action pu (body req)) as [act|e]; cbn [bind];
      [| split; [discriminate | intros (_ & act' & [=] & _)]].
    destruct act as [ | | | | | | act];
      try (split; [discriminate | intros (_ & act' & [=] & _)]).
    py_steps. split.
    + destruct (act !! "action_id") as [aid|] eqn:A; py_steps; [| discriminate].
      intros [= E]. apply py_eq_str_true in E as ->.
      split; [reflexivity |]. now exists act.
    + intros (_ & act' & [= <-] & A). rewrite A. py_steps.
      cbn [py_eq_str]. now rewrite String.eqb_refl.
  - intros d. rewrite run_build. apply block_action_mapping_requires.
Qed.

Example block_action_same_block_id :
  run_matcher (block_action Slack.payload_utils (Slack.action_and_block "a" "b") false)
    (Slack.request (Slack.button_click "a" "b")) Slack.response = Ok (VBool true).
Proof. reflexivity. Qed.

Example block_action_other_block_id :
  run_matcher (block_action Slack.payload_utils (Slack.action_and_block "a" "b") false)
    (Slack.request (Slack.button_click "a" "c")) Slack.response = Ok (VBool false).
Proof. reflexivity. Qed.

Example block_action_missing_block_id :
  run_matcher (block_action Slack.payload_utils (Slack.action_and_block "a" "b") false)
    (Slack.request (Slack.button_click_without_block_id "a")) Slack.response
  = Ok (VBool false).
Proof. reflexivity. Qed.

Example block_action_without_block_id_constraint :
  run_matcher (block_action Slack.payload_utils (Slack.action_only "a") true)
    (Slack.request (Slack.button_click "a" "any")) Slack.response = Ok (VBool true).
Proof. reflexivity. Qed.

(* ===================================================================== *)
(** ** Constraints of the wrong shape or type *)
(* ===================================================================== *)

(** X1.  A mapping without the keys a category looks for is refused when
    the matcher is built, with a [BoltError] that carries the category and
    the mapping. *)
Lemma unrecognized_mapping_is_refused
    (pu : payload_utils) (d : gmap string value) (asyncio : bool) :
  (d !! "type" = None ->
   event pu (VDict d) asyncio
     = Raise (BoltError (MustBeStrPatternOrDict "event" (VDict d))) /\
   view pu (VDict d) asyncio
     = Raise (BoltError (MustBeStrPatternOrDict "view" (VDict d)))) /\
  (d !! "type" = None \/ d !! "callback_id" = None ->
   shortcut pu (VDict d) asyncio
     = Raise (BoltError (MustBeStrPatternOrDict "shortcut" (VDict d)))) /\
  (d !! "type" = None -> d !! "action_id" = None ->
   action pu (VDict d) asyncio
     = Raise (BoltError (MustBeStrPatternOrDict "action" (VDict d)))) /\
  (d !! "action_id" = None -> d !! "callback_id" = None ->
   options pu (VDict d) asyncio
     = Raise (BoltError (MustBeStrPatternOrDict "options" (VDict d)))).
Proof.
  split; [| split; [| split]].
  - intros T. unfold event, view. cbn [is_str_or_pattern].
    rewrite py_in_dict, T. split; reflexivity.
  - intros [T | C]; unfold shortcut; cbn [is_str_or_pattern];
      rewrite !py_in_dict.
    + now rewrite T.
    + rewrite C. now destruct (d !! "type").
  - intros T A. unfold action. cbn [is_str_or_pattern].
    rewrite !py_in_dict, T, A. reflexivity.
  - intros A C. unfold options. cbn [is_str_or_pattern].
    rewrite !py_in_dict, A, C. reflexivity.
Qed.

Lemma unrecognized_mapping_is_refused_witness :
  (event Slack.payload_utils (Slack.dict []) false
     = Raise (BoltError (MustBeStrPatternOrDict "event" (Slack.dict []))) /\
   view Slack.payload_utils (Slack.dict []) false
     = Raise (BoltError (MustBeStrPatternOrDict "view" (Slack.dict [])))) /\
  shortcut Slack.payload_utils (Slack.dict []) false
     = Raise (BoltError (MustBeStrPatternOrDict "shortcut" (Slack.dict []))) /\
  action Slack.payload_utils (Slack.dict []) false
     = Raise (BoltError (MustBeStrPatternOrDict "action" (Slack.dict []))) /\
  options Slack.payload_utils (Slack.dict []) false
     = Raise (BoltError (MustBeStrPatternOrDict "options" (Slack.dict []))).
Proof.
  destruct (unrecognized_mapping_is_refused Slack.payload_utils ∅ false)
    as (E & S & A & O).
  split; [apply E; reflexivity |].
  split; [apply S; left; reflexivity |].
  split; [apply A; reflexivity | apply O; reflexivity].
Defined.

(** X2.  An unsupported [type] in a mapping given to [action] is refused
    with a [BoltError] that carries the type. *)
Lemma action_unsupported_type
    (pu : payload_utils) (d : gmap string value) (ty : value) (asyncio : bool) :
  d !! "type" = Some ty ->
  py_eq_str ty "block_actions" = false ->
  py_eq_str ty "interactive_message" = false ->
  py_eq_str ty "dialog_submission" = false ->
  py_eq_str ty "dialog_cancellation" = false ->
  py_eq_str ty "workflow_step_edit" = false ->
  action pu (VDict d) asyncio = Raise (BoltError (TypeIsUnsupported ty)).
Proof.
  intros T E1 E2 E3 E4 E5. unfold action. cbn [is_str_or_pattern].
  rewrite py_in_dict, py_getitem_dict, T.
  rewrite bool_decide_eq_true_2 by eauto. cbn [bind].
  now rewrite E1, E2, E3, E4, E5.
Qed.

Lemma action_unsupported_type_witness :
  action Slack.payload_utils (Slack.dict [ ("type", VStr "unknown_type") ]) false
  = Raise (BoltError (TypeIsUnsupported (VStr "unknown_type"))).
Proof.
  apply (action_unsupported_type Slack.payload_utils
           (list_to_map [ ("type", VStr "unknown_type") ])
           (VStr "unknown_type") false); reflexivity.
Defined.

(** C6.  A constraint that is [None] or a number is not a string, a
    pattern or a mapping, and each of the five builders that inspect the
    shape raises [TypeError] on it, from the membership test
    ["type" in constraints] (["action_id" in constraints] for [options]),
    before the [BoltError] that names the category is reached.  A mapping
    with a supported [type] and no [callback_id] makes [view] and
    [action] raise [KeyError], where [shortcut] tests for the key and
    raises the [BoltError]. *)
Theorem unrecognized_shape_not_bolt_error (pu : payload_utils) (asyncio : bool) :
  (event pu VNone asyncio = Raise TypeError /\
   shortcut pu VNone asyncio = Raise TypeError /\
   action pu VNone asyncio = Raise TypeError /\
   view pu VNone asyncio = Raise TypeError /\
   options pu VNone asyncio = Raise TypeError) /\
  (event pu (VInt 42) asyncio = Raise TypeError /\
   shortcut pu (VInt 42) asyncio = Raise TypeError /\
   action pu (VInt 42) asyncio = Raise TypeError /\
   view pu (VInt 42) asyncio = Raise TypeError /\
   options pu (VInt 42) asyncio = Raise TypeError) /\
  (view pu (Slack.dict [ ("type", VStr "view_submission") ]) asyncio
     = Raise (KeyError "callback_id") /\
   action pu (Slack.dict [ ("type", VStr "dialog_submission") ]) asyncio
     = Raise (KeyError "callback_id") /\
   shortcut pu (Slack.dict [ ("type", VStr "shortcut") ]) asyncio
     = Raise (BoltError (MustBeStrPatternOrDict "shortcut"
                           (Slack.dict [ ("type", VStr "shortcut") ])))).
Proof. repeat split. Qed.

(** The claim of C7 fails on the code: the number [42] and [None] are
    neither strings nor patterns, and [_matches] answers the ordinary
    [False] for the constraint [42] on an absent input, and for the
    constraint [None] on any input. *)
Lemma matches_invalid_constraint_plain_false :
  is_str_or_pattern (VInt 42) = false /\ is_dict (VInt 42) = false /\
  _matches (VInt 42) VNone = Ok false /\
  is_str_or_pattern VNone = false /\ is_dict VNone = false /\
  _matches VNone (VStr "a") = Ok false.
Proof. repeat split. Qed.

(** C7, amended.  A constraint that is not [None], not a string and not a
    compiled pattern makes [_matches] raise the [BoltError] that carries
    the constraint whenever the input is not [None], an outcome that is
    not a boolean; when the constraint or the input is [None], [_matches]
    answers the ordinary [False]. *)
Theorem matches_invalid_constraint (c input : value) :
  is_str_or_pattern c = false ->
  _matches c input =
    (if is_none c || is_none input then Ok false
     else Raise (BoltError (MustBeStrOrPattern c))) /\
  (is_none c || is_none input = false ->
   forall b : bool, _matches c input <> Ok b).
Proof.
  intros S.
  assert (_matches c input =
          if is_none c || is_none input then Ok false
          else Raise (BoltError (MustBeStrOrPattern c))) as E
    by (unfold _matches; destruct (is_none c || is_none input);
        [reflexivity | now destruct c]).
  split; [exact E |].
  intros N b. rewrite E, N. discriminate.
Qed.

Lemma matches_invalid_constraint_witness :
  _matches (VInt 42) (VStr "a") = Raise (BoltError (MustBeStrOrPattern (VInt 42))) /\
  (is_none (VInt 42) || is_none (VStr "a") = false ->
   forall b : bool, _matches (VInt 42) (VStr "a") <> Ok b).
Proof. apply (matches_invalid_constraint (VInt 42) (VStr "a")). reflexivity. Defined.

(** On the block-action path a constraint that is neither a string, a
    pattern nor a mapping raises nothing: [_block_action] ends without a
    [return] and the predicate gives [None]. *)
Lemma block_action_invalid_constraint_gives_none
    (pu : payload_utils) (c b : value) :
  is_str_or_pattern c = false -> is_dict c = false ->
  is_block_actions pu b = true ->
  forall a, to_action pu b = Ok a -> _block_action pu c b = Ok VNone.
Proof.
  intros S D K a T. unfold _block_action. now rewrite K, T, S, D.
Qed.

Example block_action_number_constraint :
  run_matcher (block_action Slack.payload_utils (VInt 42) false)
    (Slack.request (Slack.button_click "a" "b")) Slack.response = Ok VNone.
Proof. reflexivity. Qed.

(** A number given as the [block_id] to match raises nothing on a payload
    whose action has no [block_id]. *)
Example block_action_number_block_id :
  run_matcher
    (block_action Slack.payload_utils
       (Slack.dict [ ("action_id", VStr "a"); ("block_id", VInt 42) ]) false)
    (Slack.request (Slack.button_click_without_block_id "a")) Slack.response
  = Ok (VBool false).
Proof. reflexivity. Qed.

(* ===================================================================== *)
(** ** Options *)
(* ===================================================================== *)

(** C10.  A mapping given to [options] that holds both an [action_id] and
    a [callback_id] builds the block_suggestion matcher for the
    [action_id]: the outcome is the same whatever the [callback_id] is,
    and the same as without one; the matcher answers [False] on a payload
    that classifies as dialog_suggestion and not as block_suggestion, and
    matches block_suggestion payloads only. *)
Theorem options_action_id_takes_precedence
    (pu : payload_utils) (d : gmap string value) (action_id callback_id : value)
    (asyncio : bool) :
  options pu (VDict (<["action_id" := action_id]> (<["callback_id" := callback_id]> d)))
          asyncio
    = Ok (block_suggestion pu action_id asyncio) /\
  options pu (VDict (<["action_id" := action_id]> (delete "callback_id" d))) asyncio
    = Ok (block_suggestion pu action_id asyncio) /\
  (forall req resp,
     is_dialog_suggestion pu (body req) = true ->
     is_block_suggestion pu (body req) = false ->
     run_matcher (block_suggestion pu action_id asyncio) req resp = Ok (VBool false)) /\
  (forall req resp,
     run_matcher (block_suggestion pu action_id asyncio) req resp = Ok (VBool true) ->
     is_block_suggestion pu (body req) = true /\
     exists aid, py_getitem (body req) "action_id" = Ok aid /\
                 _matches action_id aid = Ok true).
Proof.
  split; [| split; [| split]].
  - unfold options. cbn [is_str_or_pattern].
    rewrite py_in_dict, py_getitem_dict, lookup_insert_eq.
    rewrite bool_decide_eq_true_2 by eauto. reflexivity.
  - unfold options. cbn [is_str_or_pattern].
    rewrite py_in_dict, py_getitem_dict, lookup_insert_eq.
    rewrite bool_decide_eq_true_2 by eauto. reflexivity.
  - intros req resp _ B. unfold block_suggestion. rewrite run_build.
    unfold _block_suggestion. now rewrite B.
  - intros req resp. unfold block_suggestion. rewrite run_build.
    unfold _block_suggestion. apply kind_check_true.
Qed.

Example options_both_keys_on_dialog_suggestion :
  bind (options Slack.payload_utils
          (Slack.dict [ ("action_id", VStr "a"); ("callback_id", VStr "a") ]) false)
       (fun m => run_matcher m (Slack.request Slack.dialog_suggestion_payload)
                   Slack.response)
  = Ok (VBool false).
Proof. reflexivity. Qed.

Example options_callback_id_on_dialog_suggestion :
  bind (options Slack.payload_utils (Slack.dict [ ("callback_id", VStr "a") ]) false)
       (fun m => run_matcher m (Slack.request Slack.dialog_suggestion_payload)
                   Slack.response)
  = Ok (VBool true).
Proof. reflexivity. Qed.

(* ===================================================================== *)
(** ** Delegation of the mapping forms *)
(* ===================================================================== *)

(** [shortcut] with the mapping [{type: "shortcut", callback_id: x}]
    is the global-shortcut matcher for [x], and with
    [{type: "message_action", callback_id: x}] the message-shortcut
    matcher for [x]. *)
Theorem shortcut_mapping_delegates
    (pu : payload_utils) (x : value) (asyncio : bool) :
  shortcut pu (Slack.dict [ ("type", VStr "shortcut"); ("callback_id", x) ]) asyncio
    = Ok (global_shortcut pu x asyncio) /\
  shortcut pu (Slack.dict [ ("type", VStr "message_action"); ("callback_id", x) ])
           asyncio
    = Ok (message_shortcut pu x asyncio).
Proof. split; reflexivity. Qed.

(** [view] with a string or a pattern is the view_submission matcher,
    and with a mapping it is the matcher its [type] names, for the
    [callback_id] of the mapping. *)
Theorem view_delegates (pu : payload_utils) (c x : value) (asyncio : bool) :
  is_str_or_pattern c = true ->
  view pu c asyncio = Ok (view_submission pu c asyncio) /\
  view pu (Slack.dict [ ("type", VStr "view_submission"); ("callback_id", x) ]) asyncio
    = Ok (view_submission pu x asyncio) /\
  view pu (Slack.dict [ ("type", VStr "view_closed"); ("callback_id", x) ]) asyncio
    = Ok (view_closed pu x asyncio).
Proof.
  intros S. unfold view at 1. rewrite S. repeat split.
Qed.

Lemma view_delegates_witness :
  view Slack.payload_utils (VStr "view-id") false
    = Ok (view_submission Slack.payload_utils (VStr "view-id") false) /\
  view Slack.payload_utils
       (Slack.dict [ ("type", VStr "view_submission"); ("callback_id", VStr "view-id") ])
       false
    = Ok (view_submission Slack.payload_utils (VStr "view-id") false) /\
  view Slack.payload_utils
       (Slack.dict [ ("type", VStr "view_closed"); ("callback_id", VStr "view-id") ])
       false
    = Ok (view_closed Slack.payload_utils (VStr "view-id") false).
Proof.
  apply (view_delegates Slack.payload_utils (VStr "view-id") (VStr "view-id") false).
  reflexivity.
Defined.

(* ===================================================================== *)
(** ** Properties of every builder *)
(* ===================================================================== *)

(** Follow the shape tests a builder makes on its constraint. *)
Ltac split_build B c :=
  repeat lazymatch type of B with
  | Ok _ = Ok _ => fail
  | Raise _ = Ok _ => discriminate B
  | (if is_str_or_pattern c then _ else _) = _ =>
      destruct (is_str_or_pattern c) eqn:?
  | bind (py_in ?k c) _ = _ =>
      destruct (py_in k c) as [[|]|?] eqn:?; cbn [bind] in B
  | bind (py_getitem c ?k) _ = _ =>
      destruct (py_getitem c k) as [?|?] eqn:?; cbn [bind] in B
  | bind (if ?b then _ else _) _ = _ => destruct b; cbn [bind] in B
  | bind (Ok _) _ = _ => cbn [bind] in B
  | bind (Raise _) _ = _ => cbn [bind] in B
  | (if py_eq_str ?t ?s then _ else _) = _ => destruct (py_eq_str t s) eqn:?
  end.

Ltac unfold_builders :=
  unfold event, workflow_step_execute, command, shortcut, global_shortcut,
    message_shortcut, action, block_action, attachment_action,
    dialog_submission, dialog_cancellation, workflow_step_edit, view,
    view_submission, view_closed, workflow_step_save, options,
    block_suggestion, dialog_suggestion in *.

Ltac unfold_checks :=
  unfold _block_action, _attachment_action, _dialog_submission,
    _dialog_cancellation, _workflow_step_edit, _block_suggestion,
    _dialog_suggestion in *.

Ltac pick_entry I :=
  unfold builders, kind_checks in I; cbn [In] in I;
  repeat (destruct I as [I | I]; [try discriminate I |]); try contradiction.

(** X5.  Whatever the constraint, a matcher that a builder returned
    answers the plain [False] on a payload that passes none of the
    builder's kind checks: it raises nothing, since the payload is read and
    the constraint is looked at only behind a kind check. *)
Theorem other_kind_is_plain_false
    (pu : payload_utils) (name : string)
    (builder : value -> bool -> result listener_matcher) (kinds : list bool)
    (c : value) (asyncio : bool) (m : listener_matcher)
    (req : BoltRequest) (resp : BoltResponse) :
  In (name, builder) (builders pu) ->
  In (name, kinds) (kind_checks pu (body req)) ->
  builder c asyncio = Ok m ->
  existsb (fun k : bool => k) kinds = false ->
  run_matcher m req resp = Ok (VBool false).
Proof.
  intros IB IK B G.
  pick_entry IB; injection IB as <- <-; pick_entry IK; injection IK as <-;
    unfold action_kinds in G; cbn [existsb] in G;
    repeat (apply orb_false_iff in G as [? G]); clear G;
    unfold_builders; split_build B c; injection B as <-;
    rewrite run_build; unfold_checks;
    repeat match goal with H : _ = false |- _ => rewrite H; clear H end;
    reflexivity.
Qed.

Ltac split_goal c :=
  repeat (cbn [bind];
    lazymatch goal with
    | |- forall _, _ => fail
    | |- _ = _ => fail
    | |- False => fail
    | |- context [if is_str_or_pattern c then _ else _] =>
        destruct (is_str_or_pattern c)
    | |- context [bind (py_in ?k c) _] => destruct (py_in k c) as [[|]|?]
    | |- context [bind (py_getitem c ?k) _] => destruct (py_getitem c k)
    | |- context [if py_eq_str ?t ?s then _ else _] => destruct (py_eq_str t s)
    end).

(** X6.  The [asyncio] flag changes neither whether a builder accepts a
    constraint, nor the exception it raises when it does not, nor the
    outcome of the matcher it returns on any request. *)
Theorem asyncio_flag_is_irrelevant
    (pu : payload_utils) (name : string)
    (builder : value -> bool -> result listener_matcher) (c : value) :
  In (name, builder) (builders pu) ->
  match builder c true, builder c false with
  | Ok m1, Ok m2 =>
      forall req resp, run_matcher m1 req resp = run_matcher m2 req resp
  | Raise e1, Raise e2 => e1 = e2
  | _, _ => False
  end.
Proof.
  intros IB. pick_entry IB; injection IB as <- <-; unfold_builders;
    split_goal c; cbn [bind];
    first [reflexivity | intros; now rewrite !run_build].
Qed.

Lemma other_kind_is_plain_false_witness :
  run_matcher (command Slack.payload_utils (VInt 42) false)
    (Slack.request Slack.message_event) Slack.response = Ok (VBool false).
Proof.
  apply (other_kind_is_plain_false Slack.payload_utils "command"
           (fun c a => Ok (command Slack.payload_utils c a))
           [is_slash_command Slack.payload_utils Slack.message_event]
           (VInt 42) false).
  - unfold builders. cbn [In]. do 2 right. left. reflexivity.
  - unfold kind_checks. cbn [In]. do 2 right. left. reflexivity.
  - reflexivity.
  - reflexivity.
Defined.

Lemma asyncio_flag_is_irrelevant_witness :
  match event Slack.payload_utils Slack.message_deleted true,
        event Slack.payload_utils Slack.message_deleted false with
  | Ok m1, Ok m2 =>
      forall req resp, run_matcher m1 req resp = run_matcher m2 req resp
  | Raise e1, Raise e2 => e1 = e2
  | _, _ => False
  end.
Proof.
  apply (asyncio_flag_is_irrelevant Slack.payload_utils "event"
           (event Slack.payload_utils) Slack.message_deleted).
  left. reflexivity.
Defined.

Lemma bool_or_raise_bind {A : Type} (m : result A) (k : A -> result value) :
  (forall x, bool_or_raise (k x)) -> bool_or_raise (bind m k).
Proof. intros H. destruct m; simpl; [apply H | exact I]. Qed.

Lemma bool_or_raise_pybool (r : result bool) : bool_or_raise (pybool r).
Proof. now destruct r. Qed.

Lemma bool_or_raise_and (a b : result value) :
  bool_or_raise a -> bool_or_raise b -> bool_or_raise (py_and a b).
Proof. destruct a as [[ | [|] | | | | | ]|]; simpl; tauto. Qed.

Lemma bool_or_raise_or (a b : result value) :
  bool_or_raise a -> bool_or_raise b -> bool_or_raise (py_or a b).
Proof. destruct a as [[ | [|] | | | | | ]|]; simpl; tauto. Qed.

Lemma bool_or_raise_if (t : bool) (a b : result value) :
  bool_or_raise a -> bool_or_raise b -> bool_or_raise (if t then a else b).
Proof. now destruct t. Qed.

Ltac bool_outcome :=
  repeat first
    [ exact I
    | apply bool_or_raise_pybool
    | apply bool_or_raise_and
    | apply bool_or_raise_or
    | apply bool_or_raise_if
    | apply bool_or_raise_bind; intros ].

Lemma block_action_bool_or_raise (pu : payload_utils) (c b : value) :
  is_str_or_pattern c || is_dict c = true ->
  bool_or_raise (_block_action pu c b).
Proof.
  intros S. unfold _block_action.
  destruct (is_str_or_pattern c); [bool_outcome |].
  cbn [orb] in S. rewrite S. bool_outcome.
Qed.

(** X7.  For a constraint that is a string, a pattern or a mapping, a
    matcher that a builder returned gives a Python [bool] or raises: never
    [None] or another object. *)
Theorem built_predicate_gives_bool
    (pu : payload_utils) (name : string)
    (builder : value -> bool -> result listener_matcher)
    (c : value) (asyncio : bool) (m : listener_matcher)
    (req : BoltRequest) (resp : BoltResponse) :
  In (name, builder) (builders pu) ->
  builder c asyncio = Ok m ->
  is_str_or_pattern c || is_dict c = true ->
  bool_or_raise (run_matcher m req resp).
Proof.
  intros IB B S.
  pick_entry IB; injection IB as <- <-; unfold_builders;
    split_build B c; injection B as <-; rewrite run_build;
    unfold _attachment_action, _dialog_submission, _dialog_cancellation,
      _workflow_step_edit, _block_suggestion, _dialog_suggestion;
    repeat first
      [ apply block_action_bool_or_raise
      | exact I
      | apply bool_or_raise_pybool
      | apply bool_or_raise_and
      | apply bool_or_raise_or
      | apply bool_or_raise_if
      | apply bool_or_raise_bind; intros ];
    try assumption.
  all: repeat match goal with
              | H : is_str_or_pattern _ = _ |- _ => rewrite H; clear H
              end; assumption.
Qed.

Lemma built_predicate_gives_bool_witness :
  bool_or_raise
    (run_matcher (block_action Slack.payload_utils (Slack.action_only "a") true)
       (Slack.request (Slack.button_click "a" "b")) Slack.response).
Proof.
  apply (built_predicate_gives_bool Slack.payload_utils "block_action"
           (fun c a => Ok (block_action Slack.payload_utils c a))
           (Slack.action_only "a") true).
  - unfold builders. cbn [In]. do 7 right. left. reflexivity.
  - reflexivity.
  - reflexivity.
Defined.

(* ===================================================================== *)
(** ** What each matcher matches *)
(* ===================================================================== *)

Lemma py_and_kind (kind : bool) (r : result value) :
  py_and (Ok (VBool kind)) r = if kind then r else Ok (VBool false).
Proof. now destruct kind. Qed.

(** The predicate of a field matcher in one formula. *)
Lemma field_matcher_run
    (pu : payload_utils) (name : string)
    (builder : value -> bool -> listener_matcher) (kind : value -> bool)
    (path : list string) (c : value) (asyncio : bool)
    (req : BoltRequest) (resp : BoltResponse) :
  In (name, builder, kind, path) (field_matchers pu) ->
  run_matcher (builder c asyncio) req resp =
  if kind (body req)
  then x <- py_getpath (body req) path ;; pybool (_matches c x)
  else Ok (VBool false).
Proof.
  intros I. unfold field_matchers in I. cbn [In] in I.
  repeat (destruct I as [I | I]; [injection I as <- <- <- <- |]);
    try contradiction;
    unfold_builders; rewrite run_build; unfold_checks; rewrite py_and_kind;
    (match goal with |- (if ?k then _ else _) = _ => destruct k end);
    try reflexivity; cbn [py_getpath];
    (destruct (py_getitem (body req) _) as [x|]; cbn [bind]; [| reflexivity]);
    try (destruct (py_getitem x _); cbn [bind]); reflexivity.
Qed.

(** X8.  For each of the twelve builders whose predicate is one kind check
    and one field ([command], the shortcut, action, view and suggestion
    forms): the predicate is [True] exactly when the payload passes the
    kind check, the field can be read, and it matches the constraint.  On
    a payload of the kind, an exception from reading the field (a missing
    key, a field that is not inside a mapping) is raised by the predicate;
    a string constraint gives the comparison with the field, whatever the
    field holds; a pattern constraint gives [False] on [None], the search
    on a string, and [TypeError] on any other object; a constraint that is
    neither a string nor a pattern, which these builders accept, gives
    [False] when it or the field is [None] and raises the [BoltError]
    otherwise. *)
Theorem field_matcher_outcomes
    (pu : payload_utils) (name : string)
    (builder : value -> bool -> listener_matcher) (kind : value -> bool)
    (path : list string) (c : value) (asyncio : bool)
    (req : BoltRequest) (resp : BoltResponse) :
  In (name, builder, kind, path) (field_matchers pu) ->
  (run_matcher (builder c asyncio) req resp = Ok (VBool true) <->
     kind (body req) = true /\
     exists x, py_getpath (body req) path = Ok x /\ _matches c x = Ok true) /\
  (forall e, kind (body req) = true -> py_getpath (body req) path = Raise e ->
     run_matcher (builder c asyncio) req resp = Raise e) /\
  (forall x s, kind (body req) = true -> py_getpath (body req) path = Ok x ->
     c = VStr s ->
     run_matcher (builder c asyncio) req resp = Ok (VBool (py_eq_str x s))) /\
  (forall x p, kind (body req) = true -> py_getpath (body req) path = Ok x ->
     c = VPattern p ->
     run_matcher (builder c asyncio) req resp =
       match x with
       | VNone => Ok (VBool false)
       | VStr s => Ok (VBool (bool_decide (is_Some (Re.search p s))))
       | _ => Raise TypeError
       end) /\
  (forall x, kind (body req) = true -> py_getpath (body req) path = Ok x ->
     is_str_or_pattern c = false ->
     run_matcher (builder c asyncio) req resp =
       if is_none c || is_none x then Ok (VBool false)
       else Raise (BoltError (MustBeStrOrPattern c))).
Proof.
  intros I. rewrite (field_matcher_run pu name builder kind path c asyncio req resp I).
  split; [| split; [| split; [| split]]].
  - destruct (kind (body req)); [| split; [discriminate | intros [[=] _]]].
    destruct (py_getpath (body req) path) as [x|e]; cbn [bind].
    + unfold pybool. destruct (_matches c x) as [[|]|e] eqn:M; cbn [bind].
      * split; [intros _; split; [reflexivity | now exists x] | reflexivity].
      * split; [discriminate | intros (_ & y & [= <-] & M'); congruence].
      * split; [discriminate | intros (_ & y & [= <-] & M'); congruence].
    + split; [discriminate | intros (_ & y & [=] & _)].
  - intros e K G. now rewrite K, G.
  - intros x s K G ->. rewrite K, G. cbn [bind]. now rewrite matches_str.
  - intros x p K G ->. rewrite K, G. cbn [bind]. now destruct x.
  - intros x K G S. rewrite K, G. cbn [bind]. unfold _matches.
    destruct (is_none c || is_none x); [reflexivity | now destruct c].
Qed.

(** Two successful builds of the same constraint are the same matcher. *)
Lemma ok_inj {A : Type} (x y : A) : Ok x = Ok y -> x = y.
Proof. now intros [=]. Qed.

(** X9.  The [event] matcher for a mapping with a [type] is [True] exactly
    on the payloads that classify as events, whose event mapping has a
    type that matches, and whose subtype is as the mapping asks: nothing
    asked when the mapping has no [subtype], no [subtype] key in the event
    when it is [None], and a matching subtype otherwise. *)
Theorem event_mapping_matches
    (pu : payload_utils) (d : gmap string value) (expected_type : value)
    (asyncio : bool) (req : BoltRequest) (resp : BoltResponse) :
  d !! "type" = Some expected_type ->
  exists m, event pu (VDict d) asyncio = Ok m /\
    (run_matcher m req resp = Ok (VBool true) <->
     is_event pu (body req) = true /\
     exists ev ty,
       py_getitem (body req) "event" = Ok (VDict ev) /\
       ev !! "type" = Some ty /\ _matches expected_type ty = Ok true /\
       match d !! "subtype" with
       | None => True
       | Some VNone => ev !! "subtype" = None
       | Some expected_subtype =>
           exists subtype, ev !! "subtype" = Some subtype /\
                           _matches expected_subtype subtype = Ok true
       end).
Proof.
  intros T.
  destruct (event_mapping_run pu d asyncio req resp) as (m & B & R); [eauto |].
  exists m. split; [exact B |]. rewrite R. clear R B.
  destruct (is_event pu (body req)); [| split; [discriminate | intros [[=] _]]].
  destruct (py_getitem (body req) "event") as [e|x] eqn:Ge; cbn [bind];
    [| split; [discriminate | intros (_ & ev & ty & [=] & _)]].
  rewrite py_getitem_dict, T. cbn [bind].
  destruct (py_getitem e "type") as [ty|x] eqn:Gt; cbn [bind].
  2:{ split; [discriminate | intros (_ & ev & ty & [= ->] & Ty & _)].
      rewrite py_getitem_dict, Ty in Gt. discriminate. }
  apply py_getitem_ok in Gt as (ev & -> & Ty).
  destruct (_matches expected_type ty) as [[|]|x] eqn:M; cbn [bind negb].
  2,3: split; [discriminate | intros (_ & ev' & ty' & [= <-] & Ty' & M' & _)];
       congruence.
  assert (forall P : gmap string value -> Prop,
            P ev ->
            exists ev' ty', Ok (VDict ev) = Ok (VDict ev') /\
              ev' !! "type" = Some ty' /\ _matches expected_type ty' = Ok true /\ P ev')
    as Intro by (intros P HP; now exists ev, ty).
  assert (forall P : gmap string value -> Prop,
            (exists ev' ty', Ok (VDict ev) = Ok (VDict ev') /\
              ev' !! "type" = Some ty' /\ _matches expected_type ty' = Ok true /\ P ev') ->
            P ev)
    as Elim by (intros P (ev' & ty' & [= <-] & _ & _ & HP); exact HP).
  destruct (d !! "subtype") as [expected_subtype|] eqn:S.
  2:{ split; [intros _ | reflexivity]. split; [reflexivity |].
      now apply (Intro (fun _ => True)). }
  assert (py_and (pybool (py_in "subtype" (VDict ev)))
            (subtype <- py_getitem (VDict ev) "subtype" ;;
             pybool (_matches expected_subtype subtype)) = Ok (VBool true)
          <-> exists subtype, ev !! "subtype" = Some subtype /\
                              _matches expected_subtype subtype = Ok true) as Sub.
  { rewrite py_in_dict, py_getitem_dict. unfold py_and, pybool. cbn [bind].
    destruct (ev !! "subtype") as [st|] eqn:Es.
    - rewrite bool_decide_eq_true_2 by eauto. cbn [truthy bind].
      destruct (_matches expected_subtype st) as [[|]|x] eqn:Ms; cbn [bind].
      + split; [intros _; now exists st | reflexivity].
      + split; [discriminate | intros (st' & [= <-] & Ms'); congruence].
      + split; [discriminate | intros (st' & [= <-] & Ms'); congruence].
    - rewrite bool_decide_eq_false_2 by (intros [? ?]; discriminate).
      cbn [truthy]. split; [discriminate | intros (st' & [=] & _)]. }
  destruct expected_subtype;
    try (rewrite Sub; split;
         [ intros H; split; [reflexivity | now apply (Intro (fun ev' => exists subtype, ev' !! "subtype" = Some subtype /\ _ = Ok true))]
         | intros [_ H]; now apply (Elim (fun ev' => exists subtype, ev' !! "subtype" = Some subtype /\ _ = Ok true)) in H ]).
  clear Sub. rewrite py_in_dict. cbn [bind].
  destruct (ev !! "subtype") as [st|] eqn:Es.
  - rewrite bool_decide_eq_true_2 by eauto. cbn [negb].
    split; [discriminate | intros [_ H]].
    apply (Elim (fun ev' => ev' !! "subtype" = None)) in H. congruence.
  - rewrite bool_decide_eq_false_2 by (intros [? ?]; discriminate). cbn [negb].
    split; [intros _ | reflexivity]. split; [reflexivity |].
    now apply (Intro (fun ev' => ev' !! "subtype" = None)).
Qed.

(** X10.  For a string or a pattern [c], [event(c)] and [event] of a
    mapping whose [type] is [c] and that has no [subtype] give the same
    outcome on every request, exceptions included. *)
Theorem event_literal_is_type_mapping
    (pu : payload_utils) (c : value) (d : gmap string value) (asyncio : bool) :
  is_str_or_pattern c = true ->
  d !! "type" = Some c ->
  d !! "subtype" = None ->
  exists m1 m2,
    event pu c asyncio = Ok m1 /\ event pu (VDict d) asyncio = Ok m2 /\
    forall req resp, run_matcher m1 req resp = run_matcher m2 req resp.
Proof.
  intros L T S.
  destruct (event_mapping_run pu d asyncio {| body := VNone |}
              {| status := 0; response_body := "" |}) as (m2 & B2 & _); [eauto |].
  unfold event at 1. rewrite L. eexists _, m2.
  split; [reflexivity |]. split; [exact B2 |].
  intros req resp.
  destruct (event_mapping_run pu d asyncio req resp) as (m & B & R); [eauto |].
  rewrite B2 in B. apply ok_inj in B as <-. rewrite R, run_build, py_and_kind.
  destruct (is_event pu (body req)); [| reflexivity].
  destruct (py_getitem (body req) "event") as [ev|e]; cbn [bind]; [| reflexivity].
  rewrite py_getitem_dict, T, S. cbn [bind].
  destruct (py_getitem ev "type") as [ty|e]; cbn [bind]; [| reflexivity].
  unfold pybool. now destruct (_matches c ty) as [[|]|e].
Qed.

(** X11.  Dropping the [subtype] from a mapping given to [event] only
    widens the matcher: every request the matcher with the [subtype]
    matches is matched by the one without, as the two message listeners
    of the Flask sample overlap. *)
Theorem event_subtype_only_narrows
    (pu : payload_utils) (d : gmap string value) (asyncio : bool) :
  is_Some (d !! "type") ->
  exists m m',
    event pu (VDict d) asyncio = Ok m /\
    event pu (VDict (delete "subtype" d)) asyncio = Ok m' /\
    forall req resp,
      run_matcher m req resp = Ok (VBool true) ->
      run_matcher m' req resp = Ok (VBool true).
Proof.
  intros T.
  assert (is_Some (delete "subtype" d !! "type")) as T'
    by (now rewrite lookup_delete_ne).
  set (req0 := {| body := VNone |}).
  set (resp0 := {| status := 0; response_body := "" |}).
  destruct (event_mapping_run pu d asyncio req0 resp0 T) as (m & B & _).
  destruct (event_mapping_run pu _ asyncio req0 resp0 T') as (m' & B' & _).
  exists m, m'. split; [exact B |]. split; [exact B' |].
  intros req resp.
  destruct (event_mapping_run pu d asyncio req resp T) as (n & Bn & R).
  destruct (event_mapping_run pu _ asyncio req resp T') as (n' & Bn' & R').
  rewrite B in Bn. apply ok_inj in Bn as <-.
  rewrite B' in Bn'. apply ok_inj in Bn' as <-.
  rewrite R, R'. clear.
  destruct (is_event pu (body req)); [| discriminate].
  destruct (py_getitem (body req) "event") as [ev|e]; cbn [bind]; [| discriminate].
  rewrite !py_getitem_dict, lookup_delete_ne by discriminate.
  rewrite lookup_delete_eq.
  destruct (d !! "type") as [et|]; cbn [bind]; [| discriminate].
  destruct (py_getitem ev "type") as [ty|e]; cbn [bind]; [| discriminate].
  destruct (_matches et ty) as [[|]|e]; cbn [bind negb]; [| discriminate ..].
  reflexivity.
Qed.

(** X12.  The [workflow_step_execute] predicate is [True] exactly on the
    event payloads whose event has the type ["workflow_step_execute"], a
    ["workflow_step"] entry and a [callback_id] that matches; on an event
    with another type, or without the ["workflow_step"] entry, it is
    [False] and the [callback_id] is not read. *)
Theorem workflow_step_execute_matches
    (pu : payload_utils) (c : value) (asyncio : bool)
    (req : BoltRequest) (resp : BoltResponse) :
  (run_matcher (workflow_step_execute pu c asyncio) req resp = Ok (VBool true) <->
   is_event pu (body req) = true /\
   exists ev cb,
     py_getitem (body req) "event" = Ok (VDict ev) /\
     ev !! "type" = Some (VStr "workflow_step_execute") /\
     is_Some (ev !! "workflow_step") /\
     ev !! "callback_id" = Some cb /\ _matches c cb = Ok true) /\
  (forall ev ty,
     is_event pu (body req) = true ->
     py_getitem (body req) "event" = Ok (VDict ev) ->
     ev !! "type" = Some ty ->
     ty <> VStr "workflow_step_execute" \/ ev !! "workflow_step" = None ->
     run_matcher (workflow_step_execute pu c asyncio) req resp = Ok (VBool false)).
Proof.
  unfold workflow_step_execute. rewrite run_build, py_and_kind. split.
  - destruct (is_event pu (body req)); [| split; [discriminate | intros [[=] _]]].
    destruct (py_getitem (body req) "event") as [e|x] eqn:Ge;
      [| split; [discriminate | intros (_ & ev & cb & [=] & _)]].
    unfold py_and, pybool. cbn [bind].
    destruct (py_getitem e "type") as [ty|x] eqn:Gt; cbn [bind].
    2:{ split; [discriminate | intros (_ & ev & cb & [= ->] & Ty & _)].
        rewrite py_getitem_dict, Ty in Gt. discriminate. }
    apply py_getitem_ok in Gt as (ev & -> & Ty).
    rewrite matches_str, py_in_dict, py_getitem_dict. cbn [bind truthy].
    destruct (py_eq_str ty "workflow_step_execute") eqn:E.
    2:{ split; [discriminate | intros (_ & ev' & cb & [= <-] & Ty' & _)].
        rewrite Ty in Ty'. injection Ty' as ->. discriminate. }
    apply py_eq_str_true in E as ->.
    destruct (ev !! "workflow_step") as [ws|] eqn:W.
    2:{ rewrite bool_decide_eq_false_2 by (intros [? ?]; discriminate).
        cbn [truthy].
        split; [discriminate | intros (_ & ev' & cb & [= <-] & _ & [? W'] & _)].
        congruence. }
    rewrite bool_decide_eq_true_2 by eauto. cbn [truthy].
    destruct (ev !! "callback_id") as [cb|] eqn:C; cbn [bind].
    2:{ split; [discriminate | intros (_ & ev' & cb & [= <-] & _ & _ & C' & _)].
        congruence. }
    destruct (_matches c cb) as [[|]|x] eqn:M; cbn [bind].
    + split; [intros _ | reflexivity].
      split; [reflexivity |]. exists ev, cb. eauto 6.
    + split; [discriminate | intros (_ & ev' & cb' & [= <-] & _ & _ & C' & M')].
      congruence.
    + split; [discriminate | intros (_ & ev' & cb' & [= <-] & _ & _ & C' & M')].
      congruence.
  - intros ev ty E G Ty H. rewrite E, G. unfold py_and, pybool. cbn [bind].
    rewrite py_getitem_dict, Ty. cbn [bind].
    rewrite matches_str, py_in_dict. cbn [bind truthy].
    destruct (py_eq_str ty "workflow_step_execute") eqn:Q; [| reflexivity].
    apply py_eq_str_true in Q as ->. destruct H as [H | H]; [now destruct H |].
    rewrite H, bool_decide_eq_false_2 by (intros [? ?]; discriminate).
    reflexivity.
Qed.

Lemma py_or_true (a b : result value) :
  py_or a b = Ok (VBool true) -> a = Ok (VBool true) \/ b = Ok (VBool true).
Proof.
  destruct a as [x|e]; simpl; [| discriminate].
  destruct (truthy x); [intros [= ->]; now left | now right].
Qed.

Lemma py_or_true_l (b : result value) :
  py_or (Ok (VBool true)) b = Ok (VBool true).
Proof. reflexivity. Qed.

(** X13.  With no assumption on the classifiers: when the generic
    [action] matcher for a string or a pattern matches, one of the five
    specific matchers built from the same constraint matches; and it
    matches whenever the block-action matcher does. *)
Theorem action_generic_sound
    (pu : payload_utils) (c : value) (asyncio : bool)
    (req : BoltRequest) (resp : BoltResponse) :
  is_str_or_pattern c = true ->
  exists m, action pu c asyncio = Ok m /\
    (run_matcher m req resp = Ok (VBool true) ->
     exists specific,
       In specific [ block_action pu c asyncio; attachment_action pu c asyncio;
                     dialog_submission pu c asyncio; dialog_cancellation pu c asyncio;
                     workflow_step_edit pu c asyncio ] /\
       run_matcher specific req resp = Ok (VBool true)) /\
    (run_matcher (block_action pu c asyncio) req resp = Ok (VBool true) ->
     run_matcher m req resp = Ok (VBool true)).
Proof.
  intros L. unfold action. rewrite L. eexists. split; [reflexivity |].
  unfold block_action, attachment_action, dialog_submission, dialog_cancellation,
    workflow_step_edit.
  rewrite !run_build. split.
  - intros H.
    apply py_or_true in H as [H | H]; [eexists; split; [left; reflexivity | now rewrite run_build] |].
    apply py_or_true in H as [H | H]; [eexists; split; [right; left; reflexivity | now rewrite run_build] |].
    apply py_or_true in H as [H | H]; [eexists; split; [do 2 right; left; reflexivity | now rewrite run_build] |].
    apply py_or_true in H as [H | H]; [eexists; split; [do 3 right; left; reflexivity | now rewrite run_build] |].
    eexists; split; [do 4 right; left; reflexivity | now rewrite run_build].
  - intros ->. reflexivity.
Qed.

(** X14.  The generic [options] matcher for a string or a pattern matches
    only when the block_suggestion or the dialog_suggestion matcher for
    the same constraint does; it matches whenever the block_suggestion
    matcher does, and on a payload that is not a block_suggestion it is
    the dialog_suggestion matcher. *)
Theorem options_generic_is_or_of_two
    (pu : payload_utils) (c : value) (asyncio : bool)
    (req : BoltRequest) (resp : BoltResponse) :
  is_str_or_pattern c = true ->
  exists m, options pu c asyncio = Ok m /\
    (run_matcher m req resp = Ok (VBool true) ->
     run_matcher (block_suggestion pu c asyncio) req resp = Ok (VBool true) \/
     run_matcher (dialog_suggestion pu c asyncio) req resp = Ok (VBool true)) /\
    (run_matcher (block_suggestion pu c asyncio) req resp = Ok (VBool true) ->
     run_matcher m req resp = Ok (VBool true)) /\
    (is_block_suggestion pu (body req) = false ->
     run_matcher m req resp
       = run_matcher (dialog_suggestion pu c asyncio) req resp).
Proof.
  intros L. unfold options. rewrite L. eexists. split; [reflexivity |].
  unfold block_suggestion, dialog_suggestion. rewrite !run_build.
  split; [apply py_or_true |]. split; [now intros -> |].
  intros K. unfold _block_suggestion. now rewrite K.
Qed.

(** X15.  In a mapping given to [block_action], a [block_id] that is
    [None] is the same as no [block_id]; and without one the predicate is
    the kind check followed by the [action_id] match, the [block_id] of
    the payload's action not being read. *)
Theorem block_action_block_id_none
    (pu : payload_utils) (d : gmap string value) (asyncio : bool)
    (req : BoltRequest) (resp : BoltResponse) :
  run_matcher (block_action pu (VDict (<["block_id" := VNone]> d)) asyncio) req resp
  = run_matcher (block_action pu (VDict (delete "block_id" d)) asyncio) req resp /\
  (forall expected,
     d !! "block_id" = None -> d !! "action_id" = Some expected ->
     run_matcher (block_action pu (VDict d) asyncio) req resp =
     if is_block_actions pu (body req)
     then act <- to_action pu (body req) ;;
          aid <- py_getitem act "action_id" ;;
          pybool (_matches expected aid)
     else Ok (VBool false)).
Proof.
  unfold block_action. rewrite !run_build. unfold _block_action.
  cbn [is_str_or_pattern is_dict]. split.
  - destruct (is_block_actions pu (body req)); cbn [negb]; [| reflexivity].
    destruct (to_action pu (body req)) as [act|e]; cbn [bind]; [| reflexivity].
    rewrite !py_get_dict, !py_getitem_dict, lookup_insert_eq, lookup_delete_eq.
    rewrite lookup_insert_ne, lookup_delete_ne by discriminate. reflexivity.
  - intros expected B A.
    destruct (is_block_actions pu (body req)); cbn [negb]; [| reflexivity].
    destruct (to_action pu (body req)) as [act|e]; cbn [bind]; [| reflexivity].
    rewrite py_get_dict, py_getitem_dict, B, A. cbn [bind default is_none].
    destruct (py_getitem act "action_id") as [aid|e]; cbn [bind]; [| reflexivity].
    unfold pybool. now destruct (_matches expected aid).
Qed.

(** X16.  [action] with a mapping: the type ["block_actions"], or no type
    and an [action_id], gives the block-action matcher for the whole
    mapping; each of the four other supported types gives its matcher for
    the [callback_id] of the mapping, and [KeyError] when the mapping has
    none. *)
Theorem action_mapping_dispatch
    (pu : payload_utils) (d : gmap string value) (asyncio : bool) :
  (d !! "type" = Some (VStr "block_actions") \/
   d !! "type" = None /\ is_Some (d !! "action_id") ->
   action pu (VDict d) asyncio = Ok (block_action pu (VDict d) asyncio)) /\
  (forall type_name specific,
     In (type_name, specific)
        [ ("interactive_message", attachment_action pu);
          ("dialog_submission", dialog_submission pu);
          ("dialog_cancellation", dialog_cancellation pu);
          ("workflow_step_edit", workflow_step_edit pu) ] ->
     d !! "type" = Some (VStr type_name) ->
     action pu (VDict d) asyncio =
       match d !! "callback_id" with
       | Some callback_id => Ok (specific callback_id asyncio)
       | None => Raise (KeyError "callback_id")
       end).
Proof.
  split.
  - intros [T | [T A]]; unfold action; cbn [is_str_or_pattern];
      rewrite ?py_in_dict, ?py_getitem_dict, T.
    + rewrite bool_decide_eq_true_2 by eauto. reflexivity.
    + rewrite bool_decide_eq_false_2 by (intros [? ?]; discriminate).
      cbn [bind]. rewrite ?py_in_dict, bool_decide_eq_true_2 by assumption.
      reflexivity.
  - intros type_name specific I T. cbn [In] in I.
    unfold action. cbn [is_str_or_pattern].
    rewrite py_in_dict, !py_getitem_dict, T.
    rewrite bool_decide_eq_true_2 by eauto. cbn [bind].
    repeat (destruct I as [[= <- <-] | I]); try contradiction;
      now destruct (d !! "callback_id").
Qed.

(** X17.  A mapping of type ["block_actions"] without an [action_id] is
    accepted when the matcher is built; the matcher answers [False] on
    payloads of other kinds and raises [KeyError] on every block_actions
    payload whose action can be extracted. *)
Theorem block_actions_mapping_without_action_id
    (pu : payload_utils) (d : gmap string value) (asyncio : bool)
    (req : BoltRequest) (resp : BoltResponse) :
  d !! "type" = Some (VStr "block_actions") ->
  d !! "action_id" = None ->
  d !! "block_id" = None ->
  exists m, action pu (VDict d) asyncio = Ok m /\
    (is_block_actions pu (body req) = false ->
     run_matcher m req resp = Ok (VBool false)) /\
    (forall act, is_block_actions pu (body req) = true ->
       to_action pu (body req) = Ok act ->
       run_matcher m req resp = Raise (KeyError "action_id")).
Proof.
  intros T A B. unfold action. cbn [is_str_or_pattern].
  rewrite py_in_dict, py_getitem_dict, T.
  rewrite bool_decide_eq_true_2 by eauto. cbn [bind py_eq_str String.eqb].
  eexists. split; [reflexivity |].
  unfold block_action. rewrite run_build. unfold _block_action.
  cbn [is_str_or_pattern is_dict]. split.
  - now intros ->.
  - intros act K G. rewrite K, G. cbn [negb bind].
    now rewrite py_get_dict, py_getitem_dict, B, A.
Qed.

(** X3.  [shortcut] with a string or a pattern compares the
    [callback_id] of any payload that classifies as a shortcut; with a
    mapping that has a [type] and a [callback_id] it is the global-shortcut
    matcher for the type ["shortcut"], the message-shortcut matcher for
    ["message_action"], and a [BoltError] for any other type. *)
Theorem shortcut_dispatch
    (pu : payload_utils) (c : value) (d : gmap string value) (asyncio : bool)
    (req : BoltRequest) (resp : BoltResponse) :
  (is_str_or_pattern c = true ->
   exists m, shortcut pu c asyncio = Ok m /\
     run_matcher m req resp =
       if is_shortcut pu (body req)
       then x <- py_getitem (body req) "callback_id" ;; pybool (_matches c x)
       else Ok (VBool false)) /\
  (forall callback_id ty,
     d !! "type" = Some ty -> d !! "callback_id" = Some callback_id ->
     shortcut pu (VDict d) asyncio =
       if py_eq_str ty "shortcut" then Ok (global_shortcut pu callback_id asyncio)
       else if py_eq_str ty "message_action"
            then Ok (message_shortcut pu callback_id asyncio)
            else Raise (BoltError (MustBeStrPatternOrDict "shortcut" (VDict d)))).
Proof.
  split.
  - intros L. unfold shortcut. rewrite L. eexists. split; [reflexivity |].
    now rewrite run_build, py_and_kind.
  - intros callback_id ty T C. unfold shortcut. cbn [is_str_or_pattern].
    rewrite !py_in_dict, !py_getitem_dict, T, C.
    rewrite !bool_decide_eq_true_2 by eauto. cbn [bind].
    now destruct (py_eq_str ty "shortcut"), (py_eq_str ty "message_action").
Qed.

(** X4.  [view] with a mapping that has a [type]: for ["view_submission"]
    and ["view_closed"] it is that matcher for the [callback_id] of the
    mapping, or [KeyError] when the mapping has none; for any other type
    it is the [BoltError] that names the category. *)
Theorem view_dispatch
    (pu : payload_utils) (d : gmap string value) (ty : value) (asyncio : bool) :
  d !! "type" = Some ty ->
  view pu (VDict d) asyncio =
    if py_eq_str ty "view_submission" || py_eq_str ty "view_closed"
    then match d !! "callback_id" with
         | Some callback_id =>
             Ok (if py_eq_str ty "view_submission"
                 then view_submission pu callback_id asyncio
                 else view_closed pu callback_id asyncio)
         | None => Raise (KeyError "callback_id")
         end
    else Raise (BoltError (MustBeStrPatternOrDict "view" (VDict d))).
Proof.
  intros T. unfold view. cbn [is_str_or_pattern].
  rewrite py_in_dict, !py_getitem_dict, T.
  rewrite bool_decide_eq_true_2 by eauto. cbn [bind].
  destruct (py_eq_str ty "view_submission"), (py_eq_str ty "view_closed");
    cbn [orb]; now destruct (d !! "callback_id").
Qed.

Lemma field_matcher_outcomes_witness :
  run_matcher (command Slack.payload_utils (VStr "/bolt-py-proto-2") false)
    (Slack.request Slack.slash_command) Slack.response = Ok (VBool true).
Proof.
  apply (proj2 (proj1 (field_matcher_outcomes Slack.payload_utils "command"
           (command Slack.payload_utils) (is_slash_command Slack.payload_utils)
           ["command"] (VStr "/bolt-py-proto-2") false
           (Slack.request Slack.slash_command) Slack.response
           (or_introl eq_refl)))).
  split; [reflexivity |].
  exists (VStr "/bolt-py-proto-2"). split; reflexivity.
Defined.

Lemma event_mapping_matches_witness :
  exists m, event Slack.payload_utils Slack.message_deleted false = Ok m /\
    (run_matcher m (Slack.request Slack.message_deleted_event) Slack.response
       = Ok (VBool true) <->
     is_event Slack.payload_utils Slack.message_deleted_event = true /\
     exists ev ty,
       py_getitem Slack.message_deleted_event "event" = Ok (VDict ev) /\
       ev !! "type" = Some ty /\ _matches (VStr "message") ty = Ok true /\
       exists subtype, ev !! "subtype" = Some subtype /\
                       _matches (VStr "message_deleted") subtype = Ok true).
Proof.
  exact (event_mapping_matches Slack.payload_utils
           (list_to_map [ ("type", VStr "message");
                          ("subtype", VStr "message_deleted") ])
           (VStr "message") false
           (Slack.request Slack.message_deleted_event) Slack.response eq_refl).
Defined.

Lemma event_literal_is_type_mapping_witness :
  exists m1 m2,
    event Slack.payload_utils (VStr "app_mention") false = Ok m1 /\
    event Slack.payload_utils (Slack.dict [ ("type", VStr "app_mention") ]) false
      = Ok m2 /\
    forall req resp, run_matcher m1 req resp = run_matcher m2 req resp.
Proof.
  exact (event_literal_is_type_mapping Slack.payload_utils (VStr "app_mention")
           (list_to_map [ ("type", VStr "app_mention") ]) false
           eq_refl eq_refl eq_refl).
Defined.

Lemma event_subtype_only_narrows_witness :
  exists m m',
    event Slack.payload_utils Slack.message_deleted false = Ok m /\
    event Slack.payload_utils
      (VDict (delete "subtype"
                (list_to_map [ ("type", VStr "message");
                               ("subtype", VStr "message_deleted") ])))
      false = Ok m' /\
    forall req resp,
      run_matcher m req resp = Ok (VBool true) ->
      run_matcher m' req resp = Ok (VBool true).
Proof.
  apply (event_subtype_only_narrows Slack.payload_utils
           (list_to_map [ ("type", VStr "message");
                          ("subtype", VStr "message_deleted") ]) false).
  exists (VStr "message"). reflexivity.
Defined.

Lemma action_generic_sound_witness :
  exists m, action Slack.payload_utils (VStr "a") false = Ok m /\
    (run_matcher m (Slack.request (Slack.button_click "a" "b")) Slack.response
       = Ok (VBool true) ->
     exists specific,
       In specific [ block_action Slack.payload_utils (VStr "a") false;
                     attachment_action Slack.payload_utils (VStr "a") false;
                     dialog_submission Slack.payload_utils (VStr "a") false;
                     dialog_cancellation Slack.payload_utils (VStr "a") false;
                     workflow_step_edit Slack.payload_utils (VStr "a") false ] /\
       run_matcher specific (Slack.request (Slack.button_click "a" "b"))
         Slack.response = Ok (VBool true)) /\
    (run_matcher (block_action Slack.payload_utils (VStr "a") false)
       (Slack.request (Slack.button_click "a" "b")) Slack.response
       = Ok (VBool true) ->
     run_matcher m (Slack.request (Slack.button_click "a" "b")) Slack.response
       = Ok (VBool true)).
Proof.
  exact (action_generic_sound Slack.payload_utils (VStr "a") false
           (Slack.request (Slack.button_click "a" "b")) Slack.response eq_refl).
Defined.

Lemma options_generic_is_or_of_two_witness :
  exists m, options Slack.payload_utils (VStr "a") false = Ok m /\
    run_matcher m (Slack.request Slack.dialog_suggestion_payload) Slack.response
      = run_matcher (dialog_suggestion Slack.payload_utils (VStr "a") false)
          (Slack.request Slack.dialog_suggestion_payload) Slack.response.
Proof.
  destruct (options_generic_is_or_of_two Slack.payload_utils (VStr "a") false
              (Slack.request Slack.dialog_suggestion_payload) Slack.response
              eq_refl) as (m & B & _ & _ & D).
  exists m. split; [exact B | apply D; reflexivity].
Defined.

Lemma block_actions_mapping_without_action_id_witness :
  exists m,
    action Slack.payload_utils (Slack.dict [ ("type", VStr "block_actions") ]) false
      = Ok m /\
    run_matcher m (Slack.request (Slack.button_click "a" "b")) Slack.response
      = Raise (KeyError "action_id").
Proof.
  destruct (block_actions_mapping_without_action_id Slack.payload_utils
              (list_to_map [ ("type", VStr "block_actions") ]) false
              (Slack.request (Slack.button_click "a" "b")) Slack.response)
    as (m & B & _ & R); [reflexivity .. |].
  exists m. split; [exact B |].
  apply (R (Slack.dict [ ("type", VStr "button"); ("action_id", VStr "a");
                         ("block_id", VStr "b") ])); reflexivity.
Defined.

Lemma view_dispatch_witness :
  view Slack.payload_utils (Slack.dict [ ("type", VStr "view_closed") ]) false
  = Raise (KeyError "callback_id").
Proof.
  exact (view_dispatch Slack.payload_utils
           (list_to_map [ ("type", VStr "view_closed") ]) (VStr "view_closed")
           false eq_refl).
Defined.

(** X18.  For a string or a pattern [c], [block_action(c)] and
    [block_action] of a mapping whose [action_id] is [c] and that has no
    [block_id] give the same outcome on every request; and whatever
    [action({action_id: c})] matches, the generic [action(c)] matches. *)
Theorem block_action_literal_is_action_id_mapping
    (pu : payload_utils) (c : value) (d : gmap string value) (asyncio : bool)
    (req : BoltRequest) (resp : BoltResponse) :
  is_str_or_pattern c = true ->
  d !! "action_id" = Some c ->
  d !! "block_id" = None ->
  run_matcher (block_action pu c asyncio) req resp
    = run_matcher (block_action pu (VDict d) asyncio) req resp /\
  exists generic mapped,
    action pu c asyncio = Ok generic /\
    action pu (VDict (delete "type" d)) asyncio = Ok mapped /\
    (run_matcher mapped req resp = Ok (VBool true) ->
     run_matcher generic req resp = Ok (VBool true)).
Proof.
  intros L A B.
  assert (run_matcher (block_action pu c asyncio) req resp
          = run_matcher (block_action pu (VDict (delete "type" d)) asyncio) req resp
          /\ run_matcher (block_action pu c asyncio) req resp
             = run_matcher (block_action pu (VDict d) asyncio) req resp) as [E1 E2].
  { unfold block_action. rewrite !run_build. unfold _block_action.
    rewrite L. cbn [is_str_or_pattern is_dict].
    destruct (is_block_actions pu (body req)); cbn [negb]; [| now split].
    destruct (to_action pu (body req)) as [act|e]; cbn [bind]; [| now split].
    rewrite !py_get_dict, !py_getitem_dict.
    rewrite !lookup_delete_ne by discriminate. rewrite A, B.
    cbn [default is_none bind].
    destruct (py_getitem act "action_id") as [aid|e]; cbn [bind]; [| now split].
    unfold pybool. now destruct (_matches c aid). }
  split; [exact E2 |].
  unfold action. rewrite L. cbn [is_str_or_pattern].
  rewrite !py_in_dict, lookup_delete_eq, lookup_delete_ne by discriminate.
  rewrite bool_decide_eq_false_2 by (intros [? ?]; discriminate).
  rewrite bool_decide_eq_true_2 by eauto. cbn [bind].
  eexists _, _. split; [reflexivity |]. split; [reflexivity |].
  rewrite <- E1. unfold block_action. rewrite !run_build. now intros ->.
Qed.

(** X19.  Dropping the [block_id] from a mapping given to [block_action]
    only widens the matcher: a request matched with the [block_id] is
    matched without it. *)
Theorem block_id_only_narrows
    (pu : payload_utils) (d : gmap string value) (asyncio : bool)
    (req : BoltRequest) (resp : BoltResponse) :
  run_matcher (block_action pu (VDict d) asyncio) req resp = Ok (VBool true) ->
  run_matcher (block_action pu (VDict (delete "block_id" d)) asyncio) req resp
    = Ok (VBool true).
Proof.
  unfold block_action. rewrite !run_build. unfold _block_action.
  cbn [is_str_or_pattern is_dict].
  destruct (is_block_actions pu (body req)); cbn [negb]; [| discriminate].
  destruct (to_action pu (body req)) as [act|e]; cbn [bind]; [| discriminate].
  rewrite !py_get_dict, !py_getitem_dict, lookup_delete_eq.
  rewrite lookup_delete_ne by discriminate. cbn [default is_none bind].
  destruct (if is_none (default VNone (d !! "block_id")) then Ok true
            else bid <- py_get act "block_id" ;;
                 _matches (default VNone (d !! "block_id")) bid)
    as [bm|e]; cbn [bind]; [| discriminate].
  destruct (d !! "action_id") as [expected|]; cbn [bind]; [| discriminate].
  destruct (py_getitem act "action_id") as [aid|e]; cbn [bind]; [| discriminate].
  destruct (_matches expected aid) as [am|e]; cbn [bind]; [| discriminate].
  intros [= E]. apply andb_true_iff in E as [_ ->]. reflexivity.
Qed.

(** X20.  [options] with a mapping that has a [callback_id] and no
    [action_id] matches exactly the dialog_suggestion payloads whose
    [callback_id] matches it. *)
Theorem options_callback_id_mapping
    (pu : payload_utils) (d : gmap string value) (callback_id : value)
    (asyncio : bool) (req : BoltRequest) (resp : BoltResponse) :
  d !! "action_id" = None ->
  d !! "callback_id" = Some callback_id ->
  exists m, options pu (VDict d) asyncio = Ok m /\
    (run_matcher m req resp = Ok (VBool true) <->
     is_dialog_suggestion pu (body req) = true /\
     exists x, py_getitem (body req) "callback_id" = Ok x /\
               _matches callback_id x = Ok true).
Proof.
  intros A C. unfold options. cbn [is_str_or_pattern].
  rewrite !py_in_dict, !py_getitem_dict, A, C.
  rewrite bool_decide_eq_false_2 by (intros [? ?]; discriminate).
  rewrite bool_decide_eq_true_2 by eauto. cbn [bind].
  eexists. split; [reflexivity |].
  unfold dialog_suggestion. rewrite run_build. apply kind_check_true.
Qed.

(** X21.  Whatever the constraint, building either succeeds or raises one
    of: [TypeError]; the [BoltError] that carries the category and the
    constraint; for [action] also the [BoltError] that carries the
    unsupported type; and for [action] and [view] also [KeyError] for the
    key ["callback_id"].  No builder raises anything else. *)
Theorem build_time_outcomes (pu : payload_utils) (c : value) (asyncio : bool) :
  match event pu c asyncio with
  | Ok _ | Raise TypeError => True
  | Raise (BoltError msg) => msg = MustBeStrPatternOrDict "event" c
  | Raise _ => False
  end /\
  match shortcut pu c asyncio with
  | Ok _ | Raise TypeError => True
  | Raise (BoltError msg) => msg = MustBeStrPatternOrDict "shortcut" c
  | Raise _ => False
  end /\
  match action pu c asyncio with
  | Ok _ | Raise TypeError => True
  | Raise (KeyError key) => key = "callback_id"
  | Raise (BoltError msg) =>
      msg = MustBeStrPatternOrDict "action" c \/
      exists ty, py_getitem c "type" = Ok ty /\ msg = TypeIsUnsupported ty
  | Raise _ => False
  end /\
  match view pu c asyncio with
  | Ok _ | Raise TypeError => True
  | Raise (KeyError key) => key = "callback_id"
  | Raise (BoltError msg) => msg = MustBeStrPatternOrDict "view" c
  | Raise _ => False
  end /\
  match options pu c asyncio with
  | Ok _ | Raise TypeError => True
  | Raise (BoltError msg) => msg = MustBeStrPatternOrDict "options" c
  | Raise _ => False
  end.
Proof.
  unfold event, shortcut, action, view, options.
  destruct c as [ | b | n | s | p | xs | d ]; cbn [is_str_or_pattern py_in bind];
    try (repeat split; fail).
  - (* a list *)
    repeat split;
      repeat match goal with
        | |- context [existsb ?f xs] => destruct (existsb f xs)
        end; cbn [bind py_getitem]; try exact I; try reflexivity; auto.
  - (* a mapping *)
    rewrite !py_getitem_dict.
    destruct (d !! "type") as [ty|] eqn:T, (d !! "callback_id") as [cb|] eqn:C,
      (d !! "action_id") as [aid|] eqn:A;
      repeat match goal with
        | |- context [bool_decide (is_Some (Some ?x))] =>
            rewrite (bool_decide_eq_true_2 (is_Some (Some x))) by eauto
        | |- context [bool_decide (is_Some (@None ?X))] =>
            rewrite (bool_decide_eq_false_2 (is_Some (@None X)))
              by (intros [? ?]; discriminate)
        end; cbn [bind];
      repeat split;
      repeat match goal with
        | |- context [py_eq_str ty ?s] => destruct (py_eq_str ty s)
        end; cbn [bind]; try exact I; try reflexivity; eauto.
Qed.

Lemma block_action_literal_is_action_id_mapping_witness :
  run_matcher (block_action Slack.payload_utils (VStr "a") false)
    (Slack.request (Slack.button_click "a" "b")) Slack.response
  = run_matcher (block_action Slack.payload_utils (Slack.action_only "a") false)
      (Slack.request (Slack.button_click "a" "b")) Slack.response.
Proof.
  apply (block_action_literal_is_action_id_mapping Slack.payload_utils (VStr "a")
           (list_to_map [ ("action_id", VStr "a") ]) false
           (Slack.request (Slack.button_click "a" "b")) Slack.response);
    reflexivity.
Defined.

Lemma block_id_only_narrows_witness :
  run_matcher
    (block_action Slack.payload_utils
       (VDict (delete "block_id"
                 (list_to_map [ ("action_id", VStr "a"); ("block_id", VStr "b") ])))
       false)
    (Slack.request (Slack.button_click "a" "b")) Slack.response
  = Ok (VBool true).
Proof.
  apply (block_id_only_narrows Slack.payload_utils
           (list_to_map [ ("action_id", VStr "a"); ("block_id", VStr "b") ]) false
           (Slack.request (Slack.button_click "a" "b")) Slack.response).
  reflexivity.
Defined.

Lemma options_callback_id_mapping_witness :
  exists m,
    options Slack.payload_utils (Slack.dict [ ("callback_id", VStr "a") ]) false
      = Ok m /\
    (run_matcher m (Slack.request Slack.dialog_suggestion_payload) Slack.response
       = Ok (VBool true) <->
     is_dialog_suggestion Slack.payload_utils Slack.dialog_suggestion_payload = true /\
     exists x, py_getitem Slack.dialog_suggestion_payload "callback_id" = Ok x /\
               _matches (VStr "a") x = Ok true).
Proof.
  apply (options_callback_id_mapping Slack.payload_utils
           (list_to_map [ ("callback_id", VStr "a") ]) (VStr "a") false
           (Slack.request Slack.dialog_suggestion_payload) Slack.response);
    reflexivity.
Defined.

(* ===================================================================== *)
(** ** The synchronous and the asynchronous adapter *)
(* ===================================================================== *)

(** The keyword call the adapter makes for a predicate declared
    [def func(body)]. *)
Lemma call_keywords_on_body (func : Adapter.pyfunc)
    (req : BoltRequest) (resp : BoltResponse) :
  Adapter.args func = ["body"] ->
  Adapter.call_keywords func
    (Adapter.build_required_kwargs (Adapter.args func) req resp)
  = Adapter.code func [Adapter.ABody (body req)].
Proof.
  intros E. unfold Adapter.call_keywords. rewrite E. reflexivity.
Qed.

(** The claim of C9 fails for a predicate with another parameter list.
    For [def func(): return True] the synchronous matcher calls [func()]
    and gives [True], and the asynchronous matcher calls [func(body)] and
    raises [TypeError]; likewise for [def func(body, logger)], to which
    the synchronous matcher passes both arguments by keyword. *)
Lemma sync_async_differ_for_other_parameters :
  Adapter.run_matcher
    (Adapter.build_listener_matcher Adapter.no_parameters false)
    (Slack.request Slack.message_event) Slack.response = Ok (VBool true) /\
  Adapter.run_matcher
    (Adapter.build_listener_matcher Adapter.no_parameters true)
    (Slack.request Slack.message_event) Slack.response = Raise TypeError /\
  Adapter.run_matcher
    (Adapter.build_listener_matcher Adapter.body_and_logger false)
    (Slack.request Slack.message_event) Slack.response = Ok (VBool true) /\
  Adapter.run_matcher
    (Adapter.build_listener_matcher Adapter.body_and_logger true)
    (Slack.request Slack.message_event) Slack.response = Raise TypeError.
Proof. repeat split. Qed.

(** C9, amended.  For every predicate function declared with the single
    parameter [body], and every request, the asynchronous matcher that
    [build_listener_matcher] makes gives, once awaited, the outcome of the
    synchronous matcher: the predicate's outcome on the payload of the
    request. *)
Theorem build_listener_matcher_sync_async
    (func : Adapter.pyfunc) (req : BoltRequest) (resp : BoltResponse) :
  Adapter.args func = ["body"] ->
  Adapter.run_matcher (Adapter.build_listener_matcher func true) req resp
    = Adapter.run_matcher (Adapter.build_listener_matcher func false) req resp /\
  Adapter.run_matcher (Adapter.build_listener_matcher func false) req resp
    = Adapter.code func [Adapter.ABody (body req)].
Proof.
  intros E.
  assert (Adapter.run_matcher (Adapter.build_listener_matcher func false) req resp
          = Adapter.code func [Adapter.ABody (body req)]) as S
    by (apply (call_keywords_on_body func req resp E)).
  split; [| exact S]. rewrite S.
  cbn. unfold Adapter.call_positional. now rewrite E.
Qed.

Lemma build_listener_matcher_sync_async_witness :
  Adapter.run_matcher
    (Adapter.build_listener_matcher
       (Adapter.on_body (_block_action Slack.payload_utils (VStr "a"))) true)
    (Slack.request (Slack.button_click "a" "b")) Slack.response
  = Adapter.run_matcher
      (Adapter.build_listener_matcher
         (Adapter.on_body (_block_action Slack.payload_utils (VStr "a"))) false)
      (Slack.request (Slack.button_click "a" "b")) Slack.response /\
  Adapter.run_matcher
    (Adapter.build_listener_matcher
       (Adapter.on_body (_block_action Slack.payload_utils (VStr "a"))) false)
    (Slack.request (Slack.button_click "a" "b")) Slack.response
  = Ok (VBool true).
Proof.
  exact (build_listener_matcher_sync_async
           (Adapter.on_body (_block_action Slack.payload_utils (VStr "a")))
           (Slack.request (Slack.button_click "a" "b")) Slack.response eq_refl).
Defined.

(** For the predicates over the payload, which are all that the builders
    pass, the adapter is the one the builders above use. *)
Lemma adapter_on_body (predicate : value -> result value) (asyncio : bool)
    (req : BoltRequest) (resp : BoltResponse) :
  Adapter.run_matcher
    (Adapter.build_listener_matcher (Adapter.on_body predicate) asyncio) req resp
  = run_matcher (build_listener_matcher predicate asyncio) req resp.
Proof. rewrite run_build. now destruct asyncio. Qed.

(* ===================================================================== *)
(** ** Evaluation leaves the store as it is *)
(* ===================================================================== *)

Section ReadOnly.
Import Heap.

Lemma readonly_ret {A : Type} (a : A) : readonly (ret a).
Proof. intros h. reflexivity. Qed.

Lemma readonly_throw {A : Type} (e : exn) : readonly (@throw A e).
Proof. intros h. reflexivity. Qed.

Lemma readonly_bind {A B : Type} (m : py A) (k : A -> py B) :
  readonly m -> (forall a, readonly (k a)) -> readonly (Heap.bind m k).
Proof.
  intros Hm Hk h. unfold Heap.bind. specialize (Hm h).
  destruct (m h) as [[a|e] h']; simpl in Hm; subst h'; [apply Hk | reflexivity].
Qed.

Lemma readonly_read (l : loc) : readonly (read l).
Proof. intros h. reflexivity. Qed.

Lemma readonly_classify (classifier : heap -> hval -> bool) (body : hval) :
  readonly (classify classifier body).
Proof. intros h. reflexivity. Qed.

Lemma readonly_extract (extractor : heap -> hval -> outcome hval) (body : hval) :
  readonly (extract extractor body).
Proof. intros h. reflexivity. Qed.

Lemma readonly_if {A : Type} (b : bool) (m1 m2 : py A) :
  readonly m1 -> readonly m2 -> readonly (if b then m1 else m2).
Proof. now destruct b. Qed.

(** Establish [readonly] by following the structure of the computation. *)
Ltac readonly_step :=
  first
    [ apply readonly_ret
    | apply readonly_throw
    | apply readonly_read
    | apply readonly_classify
    | apply readonly_extract
    | apply readonly_bind; [| intros ?]
    | apply readonly_if
    | match goal with
      | |- readonly (match ?x with _ => _ end) => destruct x
      end ].

Lemma readonly_py_in (key : string) (v : hval) : readonly (py_in key v).
Proof. unfold py_in. repeat readonly_step. Qed.

Lemma readonly_py_getitem (v : hval) (key : string) : readonly (py_getitem v key).
Proof. unfold py_getitem. repeat readonly_step. Qed.

Lemma readonly_py_get (v : hval) (key : string) : readonly (py_get v key).
Proof. unfold py_get. repeat readonly_step. Qed.

Lemma readonly_is_dict (v : hval) : readonly (is_dict v).
Proof. unfold is_dict. repeat readonly_step. Qed.

Lemma readonly_truthy (v : hval) : readonly (truthy v).
Proof. unfold truthy. repeat readonly_step. Qed.

Lemma readonly_matches (c input : hval) : readonly (Heap._matches c input).
Proof. unfold Heap._matches. repeat readonly_step. Qed.

Lemma readonly_pybool (m : py bool) : readonly m -> readonly (Heap.pybool m).
Proof. intros H. unfold Heap.pybool. repeat readonly_step. exact H. Qed.

Lemma readonly_py_and (a b : py hval) :
  readonly a -> readonly b -> readonly (Heap.py_and a b).
Proof.
  intros Ha Hb. unfold Heap.py_and.
  apply readonly_bind; [exact Ha | intros x].
  apply readonly_bind; [apply readonly_truthy | intros t].
  destruct t; [exact Hb | apply readonly_ret].
Qed.

Lemma readonly_py_or (a b : py hval) :
  readonly a -> readonly b -> readonly (Heap.py_or a b).
Proof.
  intros Ha Hb. unfold Heap.py_or.
  apply readonly_bind; [exact Ha | intros x].
  apply readonly_bind; [apply readonly_truthy | intros t].
  destruct t; [apply readonly_ret | exact Hb].
Qed.

Ltac readonly_auto :=
  repeat first
    [ apply readonly_py_in
    | apply readonly_py_getitem
    | apply readonly_py_get
    | apply readonly_is_dict
    | apply readonly_truthy
    | apply readonly_matches
    | apply readonly_pybool
    | apply readonly_py_and
    | apply readonly_py_or
    | readonly_step ].

Lemma readonly_field_check (kind : heap -> hval -> bool) (key : string)
    (c body : hval) : readonly (field_check kind key c body).
Proof. unfold field_check. readonly_auto. Qed.

Lemma readonly_view_check (kind : heap -> hval -> bool) (c body : hval) :
  readonly (view_check kind c body).
Proof. unfold view_check. readonly_auto. Qed.

Lemma readonly_block_action (pu : Heap.payload_utils) (c body : hval) :
  readonly (Heap._block_action pu c body).
Proof. unfold Heap._block_action. readonly_auto. Qed.










(** The hypothesis is needed: a predicate that writes to the payload is a
    matcher too, and its evaluation changes the store. *)
Lemma marking_predicate_mutates :
  snd (Heap.run_matcher (Heap.build_listener_matcher marking_predicate false)
         (HRef 0) sample_heap) <> sample_heap.
Proof.
  intros E.
  apply (f_equal (fun h : heap =>
                    match h 0 with
                    | ODict d => d !! "seen"
                    | OList _ => None
                    end)) in E.
  vm_compute in E. discriminate E.
Qed.

(** The matcher holds a mapping constraint by reference and reads it when
    it is evaluated: after the caller has changed the mapping in the
    store, the same matcher answers for the changed mapping. *)
Example matcher_reads_constraint_at_evaluation :
  fst (Heap.run_matcher (Heap.block_action sample_utils (HRef 3) false) (HRef 0)
         (snd (py_setitem (HRef 3) "block_id" (HStr "other") sample_heap)))
  = Return (HBool false).
Proof. reflexivity. Qed.

End ReadOnly.

(** On the sample store the block-action matcher for the mapping at
    location 3 matches the payload at location 0, as the matcher for the
    same mapping and payload does in the model without a store. *)
Example heap_block_action_on_sample :
  fst (Heap.run_matcher
         (Heap.block_action Heap.sample_utils (Heap.HRef 3) false)
         (Heap.HRef 0) Heap.sample_heap) = Heap.Return (Heap.HBool true) /\
  run_matcher (block_action Slack.payload_utils (Slack.action_and_block "a" "b") false)
    (Slack.request (Slack.button_click "a" "b")) Slack.response = Ok (VBool true).
Proof. split; reflexivity. Qed.

(* ===================================================================== *)
(** ** The store model computes what the model on values computes *)
(* ===================================================================== *)

Section Refines.
Import Refinement.

Variable h : Heap.heap.

Lemma refines_ret {A B : Type} (R : A -> B -> Prop) (a : A) (b : B) :
  R a b -> refines R h (Heap.ret a) (Ok b).
Proof. intros H. exact H. Qed.

Lemma refines_throw {A B : Type} (R : A -> B -> Prop) (e : Heap.exn) (e' : exn) :
  same_exn h e e' -> refines R h (Heap.throw e) (Raise e').
Proof. intros H. exact H. Qed.

Lemma refines_bind {A A' B B' : Type} (R : A -> A' -> Prop) (S : B -> B' -> Prop)
    (m : Heap.py A) (m' : result A') (k : A -> Heap.py B) (k' : A' -> result B') :
  Heap.readonly m ->
  refines R h m m' ->
  (forall a a', R a a' -> refines S h (k a) (k' a')) ->
  refines S h (Heap.bind m k) (bind m' k').
Proof.
  intros RO Hm Hk. unfold refines, Heap.bind in *. specialize (RO h).
  destruct (m h) as [[a|e] h1]; simpl in RO, Hm; subst h1;
    destruct m' as [a'|e']; simpl in *; try contradiction.
  - now apply Hk.
  - exact Hm.
Qed.

Lemma refines_if {A B : Type} (R : A -> B -> Prop) (t : bool)
    (m1 m2 : Heap.py A) (r1 r2 : result B) :
  refines R h m1 r1 -> refines R h m2 r2 ->
  refines R h (if t then m1 else m2) (if t then r1 else r2).
Proof. now destruct t. Qed.

Lemma represents_py_eq_str (v : Heap.hval) (x : value) (s : string) :
  represents h v x -> Heap.py_eq_str v s = py_eq_str x s.
Proof. now destruct 1. Qed.

Lemma represents_is_str_or_pattern (v : Heap.hval) (x : value) :
  represents h v x -> Heap.is_str_or_pattern v = is_str_or_pattern x.
Proof. now destruct 1. Qed.

Lemma represents_is_none (v : Heap.hval) (x : value) :
  represents h v x -> Heap.is_none v = is_none x.
Proof. now destruct 1. Qed.

Lemma refines_py_getitem (v : Heap.hval) (x : value) (key : string) :
  represents h v x ->
  refines (represents h) h (Heap.py_getitem v key) (py_getitem x key).
Proof.
  destruct 1 as [ | | | | | l d d' Hl Hd | l xs xs' Hl Hx ];
    try exact (E_type h).
  - unfold refines, Heap.py_getitem, Heap.bind, Heap.read. cbn. rewrite Hl.
    destruct (Hd key) as [y y' Hy | ]; cbn; [exact Hy | apply E_key].
  - unfold refines, Heap.py_getitem, Heap.bind, Heap.read. cbn. rewrite Hl.
    apply E_type.
Qed.

Lemma refines_py_in (v : Heap.hval) (x : value) (key : string) :
  represents h v x -> refines eq h (Heap.py_in key v) (py_in key x).
Proof.
  destruct 1 as [ | | | | | l d d' Hl Hd | l xs xs' Hl Hx ];
    try exact (E_type h); try reflexivity.
  - unfold refines, Heap.py_in, Heap.bind, Heap.read. cbn. rewrite Hl. cbn.
    destruct (Hd key); [rewrite !bool_decide_eq_true_2 by eauto; reflexivity |].
    rewrite !bool_decide_eq_false_2 by (intros [? ?]; discriminate). reflexivity.
  - unfold refines, Heap.py_in, Heap.bind, Heap.read. cbn. rewrite Hl. cbn.
    f_equal. clear Hl.
    induction Hx as [| a a' xs xs' Ha _ IH]; [reflexivity |].
    cbn. now rewrite (represents_py_eq_str a a' key Ha), IH.
Qed.

Lemma refines_py_get (v : Heap.hval) (x : value) (key : string) :
  represents h v x ->
  refines (represents h) h (Heap.py_get v key) (py_get x key).
Proof.
  destruct 1 as [ | | | | | l d d' Hl Hd | l xs xs' Hl Hx ];
    try exact (E_attribute h).
  - unfold refines, Heap.py_get, Heap.bind, Heap.read. cbn. rewrite Hl. cbn.
    destruct (Hd key) as [y y' Hy | ]; cbn; [exact Hy | constructor].
  - unfold refines, Heap.py_get, Heap.bind, Heap.read. cbn. rewrite Hl.
    apply E_attribute.
Qed.

Lemma refines_is_dict (v : Heap.hval) (x : value) :
  represents h v x -> refines eq h (Heap.is_dict v) (Ok (is_dict x)).
Proof.
  destruct 1 as [ | | | | | l d d' Hl Hd | l xs xs' Hl Hx ]; try reflexivity;
    unfold refines, Heap.is_dict, Heap.bind, Heap.read; cbn; now rewrite Hl.
Qed.

Lemma refines_truthy (v : Heap.hval) (x : value) :
  represents h v x -> refines eq h (Heap.truthy v) (Ok (truthy x)).
Proof.
  destruct 1 as [ | | | | | l d d' Hl Hd | l xs xs' Hl Hx ]; try reflexivity;
    unfold refines, Heap.truthy, Heap.bind, Heap.read; cbn; rewrite Hl; cbn.
  - f_equal. apply bool_decide_ext. split; intros ->; apply map_empty; intros key.
    + specialize (Hd key). rewrite lookup_empty in Hd. now inversion Hd.
    + specialize (Hd key). rewrite lookup_empty in Hd. now inversion Hd.
  - now destruct Hx.
Qed.

Lemma refines_matches (c i : Heap.hval) (c' i' : value) :
  represents h c c' -> represents h i i' ->
  refines eq h (Heap._matches c i) (_matches c' i').
Proof.
  intros Hc Hi. unfold Heap._matches, _matches.
  rewrite (represents_is_none c c' Hc), (represents_is_none i i' Hi).
  destruct (is_none c' || is_none i'); [reflexivity |].
  destruct Hc; try (apply E_bolt, M_constraint; econstructor; eassumption).
  - cbn. f_equal. now apply represents_py_eq_str.
  - destruct Hi; first [reflexivity | apply E_type].
Qed.

Lemma refines_pybool (m : Heap.py bool) (r : result bool) :
  Heap.readonly m -> refines eq h m r ->
  refines (represents h) h (Heap.pybool m) (pybool r).
Proof.
  intros RO H. unfold Heap.pybool, pybool.
  apply (refines_bind eq); [exact RO | exact H |].
  intros a a' <-. constructor.
Qed.

Ltac readonly_side :=
  repeat first
    [ apply readonly_py_in
    | apply readonly_py_getitem
    | apply readonly_py_get
    | apply readonly_is_dict
    | apply readonly_truthy
    | apply readonly_matches
    | apply readonly_pybool
    | apply readonly_py_and
    | apply readonly_py_or
    | apply readonly_classify
    | apply readonly_extract
    | apply readonly_ret
    | apply readonly_throw
    | apply readonly_field_check
    | apply readonly_view_check
    | apply readonly_block_action
    | apply readonly_if
    | apply readonly_bind; [| intros ?] ].

(** A computation whose counterpart on values is a known value. *)
Lemma refines_bind_pure {A B B' : Type} (S : B -> B' -> Prop)
    (m : Heap.py A) (v : A) (k : A -> Heap.py B) (r : result B') :
  Heap.readonly m -> refines eq h m (Ok v) -> refines S h (k v) r ->
  refines S h (Heap.bind m k) r.
Proof.
  intros RO Hm Hk. unfold refines, Heap.bind in *. specialize (RO h).
  destruct (m h) as [[a|e] h1]; simpl in RO, Hm; subst h1; [| contradiction].
  now subst a.
Qed.

Lemma refines_py_and (a b : Heap.py Heap.hval) (a' b' : result value) :
  Heap.readonly a ->
  refines (represents h) h a a' -> refines (represents h) h b b' ->
  refines (represents h) h (Heap.py_and a b) (py_and a' b').
Proof.
  intros RO Ha Hb. unfold Heap.py_and, py_and.
  apply (refines_bind (represents h)); [exact RO | exact Ha |].
  intros x x' Hx.
  apply (refines_bind_pure _ _ (truthy x'));
    [apply readonly_truthy | now apply refines_truthy |].
  destruct (truthy x'); [exact Hb | exact Hx].
Qed.

Lemma refines_py_or (a b : Heap.py Heap.hval) (a' b' : result value) :
  Heap.readonly a ->
  refines (represents h) h a a' -> refines (represents h) h b b' ->
  refines (represents h) h (Heap.py_or a b) (py_or a' b').
Proof.
  intros RO Ha Hb. unfold Heap.py_or, py_or.
  apply (refines_bind (represents h)); [exact RO | exact Ha |].
  intros x x' Hx.
  apply (refines_bind_pure _ _ (truthy x'));
    [apply readonly_truthy | now apply refines_truthy |].
  destruct (truthy x'); [exact Hx | exact Hb].
Qed.

Lemma refines_kind (kind : Heap.heap -> Heap.hval -> bool) (kind' : value -> bool)
    (b : Heap.hval) (b' : value) :
  kind h b = kind' b' ->
  refines (represents h) h (Heap.pybool (Heap.classify kind b))
          (Ok (VBool (kind' b'))).
Proof. intros E. unfold refines. cbn. rewrite E. constructor. Qed.

Lemma refines_classify (kind : Heap.heap -> Heap.hval -> bool) (kind' : value -> bool)
    (b : Heap.hval) (b' : value) :
  kind h b = kind' b' ->
  refines eq h (Heap.classify kind b) (Ok (kind' b')).
Proof. intros E. unfold refines. cbn. now rewrite E. Qed.

(** Follow the two computations in step. *)
Ltac refines_step :=
  first
    [ apply refines_py_and; [readonly_side | |]
    | apply refines_py_or; [readonly_side | |]
    | apply refines_pybool; [readonly_side |]
    | apply refines_matches; [first [assumption | constructor] | assumption]
    | apply (refines_bind (represents h)); [readonly_side | | intros ? ? ?]
    | apply (refines_bind (@eq bool)); [readonly_side | | intros ? ? <-]
    | apply refines_py_getitem; assumption
    | apply refines_py_get; assumption
    | apply refines_py_in; assumption
    | apply refines_if
    | apply refines_ret; constructor
    | apply refines_ret; reflexivity ].

Lemma refines_field_check
    (kind : Heap.heap -> Heap.hval -> bool) (kind' : value -> bool)
    (key : string) (c b : Heap.hval) (c' b' : value) :
  kind h b = kind' b' -> represents h c c' -> represents h b b' ->
  refines (represents h) h (Heap.field_check kind key c b)
    (py_and (Ok (VBool (kind' b')))
            (x <- py_getitem b' key ;; pybool (_matches c' x))).
Proof.
  intros K Hc Hb. unfold Heap.field_check.
  apply refines_py_and; [readonly_side | now apply refines_kind |].
  repeat refines_step.
Qed.

Lemma refines_view_check
    (kind : Heap.heap -> Heap.hval -> bool) (kind' : value -> bool)
    (c b : Heap.hval) (c' b' : value) :
  kind h b = kind' b' -> represents h c c' -> represents h b b' ->
  refines (represents h) h (Heap.view_check kind c b)
    (py_and (Ok (VBool (kind' b')))
            (v <- py_getitem b' "view" ;;
             cb <- py_getitem v "callback_id" ;;
             pybool (_matches c' cb))).
Proof.
  intros K Hc Hb. unfold Heap.view_check.
  apply refines_py_and; [readonly_side | now apply refines_kind |].
  repeat refines_step.
Qed.

Variable hpu : Heap.payload_utils.
Variable pu : payload_utils.
Hypothesis classifiers : same_classifiers h hpu pu.

Lemma refines_block_action (c b : Heap.hval) (c' b' : value) :
  represents h c c' -> represents h b b' ->
  refines (represents h) h (Heap._block_action hpu c b) (_block_action pu c' b').
Proof.
  intros Hc Hb. unfold Heap._block_action, _block_action.
  apply (refines_bind_pure _ _ (is_block_actions pu b'));
    [readonly_side | apply refines_classify; now apply same_is_block_actions |].
  destruct (is_block_actions pu b'); cbn [negb]; [| apply refines_ret; constructor].
  apply (refines_bind (represents h));
    [readonly_side | apply (same_to_action _ _ _ classifiers b b' Hb) |].
  intros act act' Hact.
  rewrite (represents_is_str_or_pattern c c' Hc).
  destruct (is_str_or_pattern c'); [repeat refines_step |].
  apply (refines_bind_pure _ _ (is_dict c'));
    [readonly_side | now apply refines_is_dict |].
  destruct (is_dict c'); [| apply refines_ret; constructor].
  apply (refines_bind (represents h)); [readonly_side | refines_step |].
  intros bid bid' Hbid.
  apply (refines_bind (@eq bool)); [readonly_side | | intros bm ? <-].
  { rewrite (represents_is_none bid bid' Hbid).
    destruct (is_none bid'); [apply refines_ret; reflexivity |].
    repeat refines_step. }
  apply (refines_bind (represents h)); [readonly_side | refines_step |].
  intros e e' He.
  apply (refines_bind (represents h)); [readonly_side | refines_step |].
  intros aid aid' Haid.
  apply (refines_bind (@eq bool)); [readonly_side | refines_step | intros am ? <-].
  apply refines_ret. constructor.
Qed.

Lemma same_matcher_build (f : Heap.hval -> Heap.py Heap.hval)
    (f' : value -> result value) (asyncio : bool) :
  (forall b b', represents h b b' -> refines (represents h) h (f b) (f' b')) ->
  same_matcher h (Heap.build_listener_matcher f asyncio)
                 (build_listener_matcher f' asyncio).
Proof.
  intros H b req resp Hb. destruct asyncio; cbn; now apply H.
Qed.

(** Replace the tests on a store value by the tests on the value it
    denotes. *)
Ltac same_tests :=
  repeat match goal with
  | H : represents h ?x ?x' |- context [Heap.is_none ?x] =>
      rewrite (represents_is_none x x' H)
  | H : represents h ?x ?x' |- context [Heap.is_str_or_pattern ?x] =>
      rewrite (represents_is_str_or_pattern x x' H)
  | H : represents h ?x ?x' |- context [Heap.py_eq_str ?x ?s] =>
      rewrite (represents_py_eq_str x x' s H)
  end.

Ltac refines_kinds :=
  first
    [ apply same_is_block_actions | apply same_is_global_shortcut
    | apply same_is_message_shortcut | apply same_is_attachment_action
    | apply same_is_dialog_submission | apply same_is_dialog_cancellation
    | apply same_is_workflow_step_edit | apply same_is_slash_command
    | apply same_is_event | apply same_is_view_submission
    | apply same_is_view_closed | apply same_is_block_suggestion
    | apply same_is_dialog_suggestion | apply same_is_shortcut
    | apply same_is_workflow_step_save ];
  assumption.

Ltac refines_build :=
  same_tests;
  first
    [ apply refines_field_check; [refines_kinds | assumption | assumption]
    | apply refines_view_check; [refines_kinds | assumption | assumption]
    | apply refines_block_action; assumption
    | apply refines_kind; refines_kinds
    | apply refines_classify; refines_kinds
    | apply refines_throw, E_bolt; constructor; assumption
    | apply refines_ret, same_matcher_build; intros ? ? ?
    | refines_step ].

Lemma refines_event (c : Heap.hval) (c' : value) (asyncio : bool) :
  represents h c c' ->
  refines (same_matcher h) h (Heap.event hpu c asyncio) (event pu c' asyncio).
Proof.
  intros Hc. unfold Heap.event, event. same_tests.
  destruct (is_str_or_pattern c'); [repeat refines_build |].
  apply (refines_bind (@eq bool)); [readonly_side | refines_step | intros t ? <-].
  destruct t; [| refines_build].
  apply refines_ret, same_matcher_build. intros b b' Hb.
  apply (refines_bind_pure _ _ (is_event pu b'));
    [readonly_side | refines_build |].
  destruct (is_event pu b'); repeat refines_build.
Qed.

Lemma refines_workflow_step_execute (c : Heap.hval) (c' : value) (asyncio : bool) :
  represents h c c' ->
  same_matcher h (Heap.workflow_step_execute hpu c asyncio)
                 (workflow_step_execute pu c' asyncio).
Proof.
  intros Hc. apply same_matcher_build. intros b b' Hb.
  repeat refines_build.
Qed.

(** The builders that cannot fail. *)
Ltac refines_total :=
  intros; apply same_matcher_build; intros; repeat refines_build.

Lemma refines_command (c : Heap.hval) (c' : value) (asyncio : bool) :
  represents h c c' ->
  same_matcher h (Heap.command hpu c asyncio) (command pu c' asyncio).
Proof. refines_total. Qed.

Lemma refines_global_shortcut (c : Heap.hval) (c' : value) (asyncio : bool) :
  represents h c c' ->
  same_matcher h (Heap.global_shortcut hpu c asyncio)
                 (global_shortcut pu c' asyncio).
Proof. refines_total. Qed.

Lemma refines_message_shortcut (c : Heap.hval) (c' : value) (asyncio : bool) :
  represents h c c' ->
  same_matcher h (Heap.message_shortcut hpu c asyncio)
                 (message_shortcut pu c' asyncio).
Proof. refines_total. Qed.

Lemma refines_block_action_matcher (c : Heap.hval) (c' : value) (asyncio : bool) :
  represents h c c' ->
  same_matcher h (Heap.block_action hpu c asyncio) (block_action pu c' asyncio).
Proof. refines_total. Qed.

Lemma refines_attachment_action (c : Heap.hval) (c' : value) (asyncio : bool) :
  represents h c c' ->
  same_matcher h (Heap.attachment_action hpu c asyncio)
                 (attachment_action pu c' asyncio).
Proof. refines_total. Qed.

Lemma refines_dialog_submission (c : Heap.hval) (c' : value) (asyncio : bool) :
  represents h c c' ->
  same_matcher h (Heap.dialog_submission hpu c asyncio)
                 (dialog_submission pu c' asyncio).
Proof. refines_total. Qed.

Lemma refines_dialog_cancellation (c : Heap.hval) (c' : value) (asyncio : bool) :
  represents h c c' ->
  same_matcher h (Heap.dialog_cancellation hpu c asyncio)
                 (dialog_cancellation pu c' asyncio).
Proof. refines_total. Qed.

Lemma refines_workflow_step_edit (c : Heap.hval) (c' : value) (asyncio : bool) :
  represents h c c' ->
  same_matcher h (Heap.workflow_step_edit hpu c asyncio)
                 (workflow_step_edit pu c' asyncio).
Proof. refines_total. Qed.

Lemma refines_view_submission (c : Heap.hval) (c' : value) (asyncio : bool) :
  represents h c c' ->
  same_matcher h (Heap.view_submission hpu c asyncio)
                 (view_submission pu c' asyncio).
Proof. refines_total. Qed.

Lemma refines_view_closed (c : Heap.hval) (c' : value) (asyncio : bool) :
  represents h c c' ->
  same_matcher h (Heap.view_closed hpu c asyncio) (view_closed pu c' asyncio).
Proof. refines_total. Qed.

Lemma refines_workflow_step_save (c : Heap.hval) (c' : value) (asyncio : bool) :
  represents h c c' ->
  same_matcher h (Heap.workflow_step_save hpu c asyncio)
                 (workflow_step_save pu c' asyncio).
Proof. refines_total. Qed.

Lemma refines_block_suggestion (c : Heap.hval) (c' : value) (asyncio : bool) :
  represents h c c' ->
  same_matcher h (Heap.block_suggestion hpu c asyncio)
                 (block_suggestion pu c' asyncio).
Proof. refines_total. Qed.

Lemma refines_dialog_suggestion (c : Heap.hval) (c' : value) (asyncio : bool) :
  represents h c c' ->
  same_matcher h (Heap.dialog_suggestion hpu c asyncio)
                 (dialog_suggestion pu c' asyncio).
Proof. refines_total. Qed.

(** The builders that dispatch on the constraint. *)
Ltac refines_dispatch :=
  same_tests;
  first
    [ apply refines_ret;
      first [ apply refines_global_shortcut | apply refines_message_shortcut
            | apply refines_block_action_matcher | apply refines_attachment_action
            | apply refines_dialog_submission | apply refines_dialog_cancellation
            | apply refines_workflow_step_edit | apply refines_view_submission
            | apply refines_view_closed | apply refines_block_suggestion
            | apply refines_dialog_suggestion ];
      assumption
    | refines_build ].

Lemma refines_shortcut (c : Heap.hval) (c' : value) (asyncio : bool) :
  represents h c c' ->
  refines (same_matcher h) h (Heap.shortcut hpu c asyncio) (shortcut pu c' asyncio).
Proof.
  intros Hc. unfold Heap.shortcut, shortcut. same_tests.
  destruct (is_str_or_pattern c'); [repeat refines_build |].
  apply (refines_bind (@eq bool)); [readonly_side | refines_step | intros t ? <-].
  apply (refines_bind (@eq bool));
    [readonly_side | destruct t; repeat refines_build | intros t' ? <-].
  destruct t'; [| refines_build].
  apply (refines_bind (represents h)); [readonly_side | refines_step |].
  intros ty ty' Hty. same_tests.
  destruct (py_eq_str ty' "shortcut"); [repeat refines_dispatch |].
  apply (refines_bind (represents h)); [readonly_side | refines_step |].
  intros ty2 ty2' Hty2. same_tests.
  destruct (py_eq_str ty2' "message_action"); repeat refines_dispatch.
Qed.

Lemma refines_action (c : Heap.hval) (c' : value) (asyncio : bool) :
  represents h c c' ->
  refines (same_matcher h) h (Heap.action hpu c asyncio) (action pu c' asyncio).
Proof.
  intros Hc. unfold Heap.action, action. same_tests.
  destruct (is_str_or_pattern c').
  { apply refines_ret, same_matcher_build. intros b b' Hb.
    unfold Heap._attachment_action, Heap._dialog_submission,
      Heap._dialog_cancellation, Heap._workflow_step_edit.
    repeat refines_build. }
  apply (refines_bind (@eq bool)); [readonly_side | refines_step | intros t ? <-].
  destruct t.
  - apply (refines_bind (represents h)); [readonly_side | refines_step |].
    intros ty ty' Hty. same_tests.
    repeat match goal with
           | |- context [py_eq_str ty' ?s] => destruct (py_eq_str ty' s)
           end; repeat refines_dispatch.
  - apply (refines_bind (@eq bool)); [readonly_side | refines_step | intros t ? <-].
    destruct t; repeat refines_dispatch.
Qed.

Lemma refines_view (c : Heap.hval) (c' : value) (asyncio : bool) :
  represents h c c' ->
  refines (same_matcher h) h (Heap.view hpu c asyncio) (view pu c' asyncio).
Proof.
  intros Hc. unfold Heap.view, view. same_tests.
  destruct (is_str_or_pattern c'); [repeat refines_dispatch |].
  apply (refines_bind (@eq bool)); [readonly_side | refines_step | intros t ? <-].
  destruct t; [| refines_build].
  apply (refines_bind (represents h)); [readonly_side | refines_step |].
  intros ty ty' Hty. same_tests.
  destruct (py_eq_str ty' "view_submission"); [repeat refines_dispatch |].
  apply (refines_bind (represents h)); [readonly_side | refines_step |].
  intros ty2 ty2' Hty2. same_tests.
  destruct (py_eq_str ty2' "view_closed"); repeat refines_dispatch.
Qed.

Lemma refines_options (c : Heap.hval) (c' : value) (asyncio : bool) :
  represents h c c' ->
  refines (same_matcher h) h (Heap.options hpu c asyncio) (options pu c' asyncio).
Proof.
  intros Hc. unfold Heap.options, options. same_tests.
  destruct (is_str_or_pattern c').
  { apply refines_ret, same_matcher_build. intros b b' Hb.
    unfold Heap._block_suggestion, Heap._dialog_suggestion.
    repeat refines_build. }
  apply (refines_bind (@eq bool)); [readonly_side | refines_step | intros t ? <-].
  destruct t; [repeat refines_dispatch |].
  apply (refines_bind (@eq bool)); [readonly_side | refines_step | intros t ? <-].
  destruct t; repeat refines_dispatch.
Qed.

(** Every builder of the store model returns, on a constraint and in a
    store that represent a constraint of the model on values, what the
    builder of that name returns there: the same refusal, or a matcher
    that gives the same outcome on every payload the store represents. *)
Theorem store_model_refines_value_model :
  Forall2
    (fun hb b =>
       fst hb = fst b /\
       forall (c : Heap.hval) (c' : value) (asyncio : bool),
         represents h c c' ->
         refines (same_matcher h) h (snd hb c asyncio) (snd b c' asyncio))
    (Heap.builders hpu) (builders pu).
Proof.
  unfold Heap.builders, builders.
  repeat match goal with |- Forall2 _ _ _ => constructor end;
    (split; [reflexivity |]); cbn [snd]; intros c c' asyncio Hc;
    first [ apply refines_event | apply refines_shortcut | apply refines_action
          | apply refines_view | apply refines_options
          | apply refines_ret;
            first [ apply refines_workflow_step_execute | apply refines_command
                  | apply refines_global_shortcut | apply refines_message_shortcut
                  | apply refines_block_action_matcher
                  | apply refines_attachment_action
                  | apply refines_dialog_submission
                  | apply refines_dialog_cancellation
                  | apply refines_workflow_step_edit
                  | apply refines_view_submission | apply refines_view_closed
                  | apply refines_workflow_step_save
                  | apply refines_block_suggestion
                  | apply refines_dialog_suggestion ] ];
    assumption.
Qed.

End Refines.

(** The classifiers of the two sample implementations agree in every
    store. *)
Lemma same_is_expected_type (h : Heap.heap) (expected : string)
    (b : Heap.hval) (b' : value) :
  Refinement.represents h b b' ->
  Heap.is_expected_type expected h b = Slack.is_expected_type b' expected.
Proof.
  destruct 1 as [ | | | | | l d d' Hl Hd | l xs xs' Hl Hx ]; try reflexivity;
    cbn; rewrite Hl; [| reflexivity].
  destruct (Hd "type") as [y y' Hy |]; [| reflexivity].
  now destruct Hy.
Qed.

Lemma same_has_key (h : Heap.heap) (key : string) (b : Heap.hval) (b' : value) :
  Refinement.represents h b b' ->
  Heap.has_key key h b = Slack.has_key b' key.
Proof.
  destruct 1 as [ | | | | | l d d' Hl Hd | l xs xs' Hl Hx ]; try reflexivity;
    cbn; rewrite Hl; [| reflexivity].
  destruct (Hd key); [rewrite !bool_decide_eq_true_2 by eauto; reflexivity |].
  rewrite !bool_decide_eq_false_2 by (intros [? ?]; discriminate). reflexivity.
Qed.

Lemma same_has_mapping (h : Heap.heap) (key : string) (b : Heap.hval) (b' : value) :
  Refinement.represents h b b' ->
  Heap.has_mapping key h b = Slack.has_mapping b' key.
Proof.
  destruct 1 as [ | | | | | l d d' Hl Hd | l xs xs' Hl Hx ]; try reflexivity;
    cbn; rewrite Hl; [| reflexivity].
  destruct (Hd key) as [y y' Hy |]; [| reflexivity].
  destruct Hy as [ | | | | | l1 d1 d1' Hl1 _ | l1 ys ys' Hl1 _ ];
    try reflexivity; now rewrite Hl1.
Qed.

Lemma same_first_action (h : Heap.heap) (b : Heap.hval) (b' : value) :
  Refinement.represents h b b' ->
  Refinement.same_outcome (Refinement.represents h) h
    (Heap.first_action h b) (Slack.first_action b').
Proof.
  destruct 1 as [ | | | | | l d d' Hl Hd | l xs xs' Hl Hx ];
    try exact (Refinement.E_type h);
    unfold Slack.first_action; cbn; rewrite Hl; [| exact (Refinement.E_type h)].
  destruct (Hd "actions") as [y y' Hy |]; cbn; [| apply Refinement.E_key].
  destruct Hy as [ | | | | | l1 d1 d1' Hl1 _ | l1 ys ys' Hl1 Hys ];
    try exact (Refinement.E_type h); rewrite Hl1; [apply Refinement.E_key |].
  destruct Hys; [apply Refinement.E_index | assumption].
Qed.

Lemma sample_classifiers_agree (h : Heap.heap) :
  Refinement.same_classifiers h Heap.sample_utils Slack.payload_utils.
Proof.
  split; intros b b' Hb; cbn;
    rewrite ?(same_is_expected_type h _ b b' Hb);
    first [ reflexivity
          | now apply same_has_key
          | now apply same_has_mapping
          | now apply same_first_action ].
Qed.

(** A mapping in the store represents the mapping with the same keys whose
    items it represents. *)
Lemma represents_items (h : Heap.heap) (l : Heap.loc)
    (items : list (string * Heap.hval)) (items' : list (string * value)) :
  h l = Heap.ODict (list_to_map items) ->
  Forall2 (fun p p' => fst p = fst p' /\ Refinement.represents h (snd p) (snd p'))
          items items' ->
  Refinement.represents h (Heap.HRef l) (Slack.dict items').
Proof.
  intros Hl Hitems. unfold Slack.dict.
  apply (Refinement.R_dict h l (list_to_map items)); [exact Hl |].
  clear Hl. intros key.
  induction Hitems as [| [k v] [k' v'] xs xs' [Hk Hv] _ IH]; cbn in *.
  - rewrite !lookup_empty. constructor.
  - subst k'. destruct (decide (k = key)) as [-> | Hne].
    + rewrite !lookup_insert_eq. now constructor.
    + rewrite !lookup_insert_ne by assumption. exact IH.
Qed.

(** The sample store represents the click on a button and the mapping
    constraint of the samples. *)
Example sample_store_represents :
  Refinement.represents Heap.sample_heap (Heap.HRef 3)
    (Slack.action_and_block "a" "b") /\
  Refinement.represents Heap.sample_heap (Heap.HRef 0)
    (Slack.dict [ ("type", VStr "block_actions");
                  ("actions", VList [ Slack.action_and_block "a" "b" ]) ]).
Proof.
  assert (forall l, l = 2 \/ l = 3 ->
            Refinement.represents Heap.sample_heap (Heap.HRef l)
              (Slack.action_and_block "a" "b")) as Haction.
  { intros l [-> | ->];
      (eapply represents_items; [reflexivity |]);
      repeat constructor. }
  split; [apply Haction; now right |].
  eapply represents_items; [reflexivity |].
  repeat (constructor; [split; [reflexivity |] |]); [constructor | | constructor].
  apply (Refinement.R_list _ 1 [Heap.HRef 2]); [reflexivity |].
  repeat constructor. apply Haction. now left.
Qed.

(** On the sample store, with the sample classifiers, the matcher that
    [action] builds from the mapping at location 3 answers on the payload
    at location 0 as the matcher of the model on values does. *)
Example sample_store_refines (asyncio : bool) :
  Refinement.refines (Refinement.same_matcher Heap.sample_heap) Heap.sample_heap
    (Heap.action Heap.sample_utils (Heap.HRef 3) asyncio)
    (action Slack.payload_utils (Slack.action_and_block "a" "b") asyncio).
Proof.
  apply refines_action;
    [apply sample_classifiers_agree | apply sample_store_represents].
Qed.
